(** * SecureVault: the credential and vault store of Passwords-manager

    A shallow embedding of the two servers of the repository:

    - the file-backed server (the Node HTTP server that keeps [users.json]
      and one vault file per user), modelled in [FileServer];
    - the relational server ([api/index.js], the serverless handler over
      PostgreSQL), modelled in [Api].

    Both keep their sessions in an in-memory [Map]; the helpers the two
    files define identically ([getAuth], [isValidUser], [isValidPassword],
    [hashPassword], [verifyPassword], [sendJson]) are modelled once, in
    [Shared].

    Conventions of the model.
    - Request bodies are JavaScript values ([JS.value]); a body that is
      missing or does not parse is [VNull], as [readJson] resolves it.
    - JSON numbers are modelled by integers (those a double holds), of
      absolute value below [10^21] where the text of the number matters
      ([String] prints a larger one in exponent form). A string is the list of its code
      units, each of them a character of [ascii]; text with a code unit
      above 255 is outside the model. An object is the list of its
      properties in the order they were written; that JavaScript lists
      integer-like keys first is not modelled.
    - A request is one of the operations of [request]; the last path
      segment of [/api/entries/:id] and the decoded last segment of
      [/api/categories/:name] are arguments of the operation. The
      dispatch on method and path that leads to an operation is modelled
      apart, in [Http]: the URL is parsed there, outside the handler's
      [try], and a request target that does not parse makes the handler
      throw before any response is written.
    - The clock, the random generators and the functions of the platform
      the code calls ([crypto.pbkdf2Sync], [Date.prototype.toISOString],
      PostgreSQL's uuid input) are inputs: the first two through [env],
      the last through the class [Platform]; [Http] takes the parser of
      [new URL] and [decodeURIComponent] as functions.
    - The file system and the database are assumed to work: no I/O
      failure is modelled. *)

From stdpp Require Import gmap strings list pretty.
From Stdlib Require Import ZArith Ascii Sorted.
From Stdlib.Strings Require Import Byte.

Set Warnings "-register-all".
Local Open Scope string_scope.
Local Open Scope Z_scope.

(** ** JavaScript values *)

Module JS.

Inductive value :=
| VUndef
| VNull
| VBool (b : bool)
| VNum (n : Z)
| VStr (s : string)
| VArr (xs : list value)
| VObj (kvs : list (string * value)).

(** An object is the list of its own properties, first binding first. *)
Abbreviation obj := (list (string * value)).

(** [Boolean(v)]: the values the code's [||], [!] and [if] treat as true. *)
Definition truthy (v : value) : bool :=
  match v with
  | VUndef | VNull => false
  | VBool b => b
  | VNum n => negb (n =? 0)
  | VStr s => negb (String.eqb s "")
  | VArr _ | VObj _ => true
  end.

(** [a || b] *)
Definition or_else (a b : value) : value := if truthy a then a else b.

(** [o.k] on an object given by its property list. *)
Fixpoint prop (o : obj) (k : string) : value :=
  match o with
  | [] => VUndef
  | (k', v) :: o' => if String.eqb k' k then v else prop o' k
  end.

(** [v.k] for a value that is neither [null] nor [undefined], for the
    data property names this program reads (none of them is a member of
    a prototype): an own property of an object, [undefined] otherwise. *)
Definition field (v : value) (k : string) : value :=
  match v with
  | VObj o => prop o k
  | _ => VUndef
  end.

(** [o[k] = v] as a data property: overwritten in place, or appended. *)
Fixpoint set_prop (k : string) (v : value) (o : obj) : obj :=
  match o with
  | [] => [(k, v)]
  | (k', v') :: o' => if String.eqb k' k then (k, v) :: o' else (k', v') :: set_prop k v o'
  end.

(** The characters of a string as one-character strings. *)
Fixpoint chars (s : string) : list value :=
  match s with
  | EmptyString => []
  | String c s' => VStr (String c EmptyString) :: chars s'
  end.

Definition indexed (xs : list value) : obj :=
  imap (fun i x => (pretty i, x)) xs.

(** The own enumerable properties an object spread [{...v}] copies. *)
Definition own_props (v : value) : obj :=
  match v with
  | VObj o => o
  | VArr xs => indexed xs
  | VStr s => indexed (chars s)
  | _ => []
  end.

(** [{ ...o, ...v }] *)
Definition spread (o : obj) (v : value) : obj :=
  foldl (fun acc kv => set_prop kv.1 kv.2 acc) o (own_props v).

(** What [JSON.stringify] keeps of a value: a property whose value is
    [undefined] is left out, an [undefined] array element becomes [null]. *)
Fixpoint json_of (v : value) : value :=
  match v with
  | VArr xs =>
      VArr (List.map (fun x => match x with VUndef => VNull | _ => json_of x end) xs)
  | VObj kvs =>
      VObj (List.flat_map
              (fun '(k, x) => match x with VUndef => [] | _ => [(k, json_of x)] end) kvs)
  | _ => v
  end.

Definition json_obj (o : obj) : obj :=
  match json_of (VObj o) with VObj o' => o' | _ => [] end.

(** Whether [String(v)] throws a [TypeError]. On an object the
    conversion calls [toString], then [valueOf]: an own [toString]
    property of a parsed value is no function, and [valueOf] (own, or the
    one of [Object.prototype], which returns the object) yields no
    primitive. On an array it joins the conversions of the elements. *)
Fixpoint string_throws (v : value) : bool :=
  match v with
  | VArr xs => existsb string_throws xs
  | VObj kvs => existsb (fun kv => String.eqb kv.1 "toString") kvs
  | _ => false
  end.

(** [String(v)], the conversion of a property key and of a template
    literal's hole, for a value on which it does not throw
    ([string_throws]) and a number below [10^21]. *)
Fixpoint to_string (v : value) : string :=
  match v with
  | VUndef => "undefined"
  | VNull => "null"
  | VBool true => "true"
  | VBool false => "false"
  | VNum n => pretty n
  | VStr s => s
  | VArr xs =>
      String.concat ","
        (List.map (fun x => match x with VUndef | VNull => "" | _ => to_string x end) xs)
  | VObj _ => "[object Object]"
  end.

(** [v === s] for a string [s]. *)
Definition is_str (v : value) (s : string) : bool :=
  match v with
  | VStr t => String.eqb t s
  | _ => false
  end.

(** SameValueZero as a [Set] of freshly parsed values applies it: two
    primitives are the same when equal, two objects (or arrays) never
    are, each being an object of its own. *)
Definition same_value_zero (a b : value) : bool :=
  match a, b with
  | VUndef, VUndef | VNull, VNull => true
  | VBool x, VBool y => Bool.eqb x y
  | VNum x, VNum y => x =? y
  | VStr x, VStr y => String.eqb x y
  | _, _ => false
  end.

(** [[...new Set(xs)]]: first occurrences, in order. *)
Fixpoint set_of (xs : list value) : list value :=
  match xs with
  | [] => []
  | x :: xs' => x :: List.filter (fun y => negb (same_value_zero x y)) (set_of xs')
  end.

Definition is_array (v : value) : bool :=
  match v with VArr _ => true | _ => false end.

End JS.

(** ** What the two servers share *)

Module Shared.
Import JS.

(** The platform functions the code calls and this development does not
    define: [crypto.pbkdf2Sync(password, salt, iterations, keylen,
    'sha256')], which returns [keylen] bytes; [toISOString] of the [Date]
    of a millisecond count; [String.prototype.trim]; PostgreSQL's input
    of a [uuid] (its canonical text, or nothing when the text is no
    uuid). *)
Class Platform := {
  pbkdf2Sync : string -> string -> Z -> nat -> list byte;
  pbkdf2Sync_length : forall password salt iterations keylen,
    length (pbkdf2Sync password salt iterations keylen) = keylen;
  toISOString : Z -> string;
  trim : string -> string;
  uuid_in : string -> option string;
}.

(** What one request reads from the clock and the random generators:
    [Date.now()], [crypto.randomBytes(16).toString('hex')],
    [crypto.randomBytes(32).toString('hex')], [crypto.randomUUID()] (or
    [gen_random_uuid()]) and the database's [CURRENT_TIMESTAMP]. The
    clock is read once per request. *)
Record env := {
  now : Z;
  randomSalt : string;
  randomToken : string;
  randomUUID : string;
  current_timestamp : Z;
}.

Record response := { status : Z; body : value }.

(** [sendJson(res, status, obj)]: the body is [JSON.stringify(obj)]. *)
Definition sendJson (status : Z) (o : value) : response :=
  {| status := status; body := json_of o |}.

Definition error (msg : string) : value := VObj [("error", VStr msg)].
Definition ok_true : value := VObj [("ok", VBool true)].

Definition TOKEN_TTL_MS : Z := 24 * 60 * 60 * 1000.

(** An entry of the [sessions] map. *)
Record session := { sess_username : value; expires : Z }.

Abbreviation session_map := (gmap string session).

(** [s.startsWith(p) ? s.slice(p.length) : null] *)
Fixpoint strip_prefix (p s : string) : option string :=
  match p with
  | EmptyString => Some s
  | String a p' =>
      match s with
      | String b s' => if Ascii.eqb a b then strip_prefix p' s' else None
      | EmptyString => None
      end
  end.

(** The token of an [Authorization] header (the empty string when the
    header is missing); an empty token counts as none. *)
Definition bearer_token (authorization : string) : option string :=
  match strip_prefix "Bearer " authorization with
  | Some EmptyString => None
  | t => t
  end.

(** [getAuth(req)]: the identity of the session, and the session map
    after the call (an expired session is deleted). *)
Definition getAuth (authorization : string) (now : Z) (ss : session_map)
  : option value * session_map :=
  match bearer_token authorization with
  | None => (None, ss)
  | Some token =>
      match ss !! token with
      | None => (None, ss)
      | Some sess =>
          if expires sess <? now then (None, delete token ss)
          else (Some (sess_username sess), ss)
      end
  end.

(** The character class [[a-zA-Z0-9._-]]. *)
Definition is_user_char (c : ascii) : bool :=
  let n := N_of_ascii c in
  ((97 <=? n) && (n <=? 122) || (65 <=? n) && (n <=? 90) || (48 <=? n) && (n <=? 57)
   || (n =? 46) || (n =? 95) || (n =? 45))%N.

Fixpoint all_chars (f : ascii -> bool) (s : string) : bool :=
  match s with
  | EmptyString => true
  | String c s' => f c && all_chars f s'
  end.

(** [typeof u === 'string' && /^[a-zA-Z0-9._-]{3,32}$/.test(u)] *)
Definition isValidUser (u : value) : bool :=
  match u with
  | VStr s =>
      all_chars is_user_char s
      && (3 <=? String.length s)%nat && (String.length s <=? 32)%nat
  | _ => false
  end.

(** [typeof p === 'string' && p.length >= 6] *)
Definition isValidPassword (p : value) : bool :=
  match p with
  | VStr s => (6 <=? String.length s)%nat
  | _ => false
  end.

(** *** Hexadecimal text of a buffer *)

(** The digit of a value below 16: [0-9], then [a-f]. *)
Definition hex_digit (n : N) : ascii :=
  ascii_of_N (if n <? 10 then 48 + n else 87 + n)%N.

(** The value of a digit, in either case. *)
Definition hex_val (c : ascii) : option N :=
  let n := N_of_ascii c in
  (if (48 <=? n) && (n <=? 57) then Some (n - 48)
   else if (97 <=? n) && (n <=? 102) then Some (n - 87)
   else if (65 <=? n) && (n <=? 70) then Some (n - 55)
   else None)%N.

(** [buf.toString('hex')] *)
Fixpoint to_hex (bs : list byte) : string :=
  match bs with
  | [] => EmptyString
  | b :: bs' =>
      String (hex_digit (Byte.to_N b / 16)) (String (hex_digit (Byte.to_N b mod 16)) (to_hex bs'))
  end.

Definition byte_of_N (n : N) : byte := default x00 (Byte.of_N n).

(** [Buffer.from(s, 'hex')]: pairs of hexadecimal digits, up to the first
    pair that is not one. *)
Fixpoint from_hex (s : string) : list byte :=
  match s with
  | String a (String b s') =>
      match hex_val a, hex_val b with
      | Some x, Some y => byte_of_N (16 * x + y) :: from_hex s'
      | _, _ => []
      end
  | _ => []
  end.

#[global] Instance byte_eq_dec : EqDecision byte := Byte.byte_eq_dec.

(** [crypto.timingSafeEqual(a, b)]; it throws ([None]) on buffers of
    different lengths. *)
Definition timingSafeEqual (a b : list byte) : option bool :=
  if (length a =? length b)%nat then Some (bool_decide (a = b)) else None.

Section Passwords.
Context `{Platform}.

(** The largest iteration count [pbkdf2Sync] accepts, [2^31 - 1]. *)
Definition MAX_ITERATIONS : Z := 2147483647.

(** [hashPassword(password, salt, iterations)]; [pbkdf2Sync] throws
    ([None]) on a password that is no string and on an iteration count
    below one or above [MAX_ITERATIONS]. *)
Definition hashPassword (password : value) (salt : string) (iterations : Z)
  : option string :=
  match password with
  | VStr p =>
      if (iterations <? 1) || (MAX_ITERATIONS <? iterations) then None
      else Some (to_hex (pbkdf2Sync p salt iterations 32))
  | _ => None
  end.

(** [verifyPassword(password, salt, iterations, expectedHex)] *)
Definition verifyPassword (password : value) (salt : string) (iterations : Z)
    (expectedHex : string) : option bool :=
  match hashPassword password salt iterations with
  | Some hex => timingSafeEqual (from_hex hex) (from_hex expectedHex)
  | None => None
  end.

End Passwords.

(** The operations of the API. [authorization] is the request's
    [Authorization] header, the empty string when there is none. *)
Inductive request :=
| Register (body : value)
| Login (body : value)
| Me (authorization : string)
| ListEntries (authorization : string)
| AddEntry (authorization : string) (body : value)
| UpdateEntry (authorization : string) (id : string) (body : value)
| DeleteEntry (authorization : string) (id : string)
| ListCategories (authorization : string)
| AddCategory (authorization : string) (body : value)
| DeleteCategory (authorization : string) (name : string)
| Export (authorization : string).

End Shared.

(** ** The file-backed server *)

Module FileServer.
Import JS Shared.

(** A record of [users.json]. *)
Record user_rec := {
  salt : string;
  hash : string;
  iterations : Z;
  createdAt : string;
}.

(** The state of the server: [users.json] (an object keyed by username),
    the vault files (one array of entries per file, keyed by the name the
    file is made from; no binding when the file does not exist) and the
    [sessions] map. Distinct keys are taken to name distinct files. The
    username of a session is the one a login looked up in [users.json]:
    a value whose conversion to a string does not throw, as the routes
    that name a vault file after it take it to be. *)
Record state := {
  users : gmap string user_rec;
  vaults : gmap string (list obj);
  sessions : session_map;
}.

Definition initial : state := {| users := ∅; vaults := ∅; sessions := ∅ |}.

Definition set_users (f : gmap string user_rec -> gmap string user_rec) (st : state) :=
  {| users := f (users st); vaults := vaults st; sessions := sessions st |}.
Definition set_vaults (f : gmap string (list obj) -> gmap string (list obj)) (st : state) :=
  {| users := users st; vaults := f (vaults st); sessions := sessions st |}.
Definition set_sessions (ss : session_map) (st : state) :=
  {| users := users st; vaults := vaults st; sessions := ss |}.

(** [loadUsers()] parses the file into a plain object, so [users[key]]
    also finds what the object inherits from [Object.prototype]. *)
Definition object_prototype_keys : list string :=
  ["constructor"; "hasOwnProperty"; "isPrototypeOf"; "propertyIsEnumerable";
   "toLocaleString"; "toString"; "valueOf"; "__proto__"; "__defineGetter__";
   "__defineSetter__"; "__lookupGetter__"; "__lookupSetter__"].

(** What [users[key]] evaluates to: a record of the file, a member of the
    prototype (a function or an object: truthy, and with no [salt]), or
    [undefined]. *)
Inductive user_slot :=
| Own (urec : user_rec)
| Inherited
| Unset.

Definition users_get (us : gmap string user_rec) (key : string) : user_slot :=
  match us !! key with
  | Some urec => Own urec
  | None => if bool_decide (key ∈ object_prototype_keys) then Inherited else Unset
  end.

(** [ensureUserVault(username)] *)
Definition ensureUserVault (key : string) (st : state) : state :=
  match vaults st !! key with
  | Some _ => st
  | None => set_vaults <[key := []]> st
  end.

(** [loadEntries(username)] *)
Definition loadEntries (key : string) (st : state) : state * list obj :=
  (ensureUserVault key st, default [] (vaults st !! key)).

(** [saveEntries(username, entries)] *)
Definition saveEntries (key : string) (entries : list obj) (st : state) : state :=
  set_vaults <[key := List.map json_obj entries]> st.

Definition entries_json (entries : list obj) : value := VArr (List.map VObj entries).

Section Handlers.
Context `{Platform}.

Definition now_iso (e : env) : value := VStr (toISOString (now e)).

(** The guard every authenticated route opens with:
    [const auth = getAuth(req); if (!auth) return sendJson(res, 401, ...)]. *)
Definition with_auth (e : env) (authorization : string) (st : state)
    (k : value -> state -> state * response) : state * response :=
  match getAuth authorization (now e) (sessions st) with
  | (None, ss) => (set_sessions ss st, sendJson 401 (error "Unauthorized"))
  | (Some username, ss) => k username (set_sessions ss st)
  end.

(** [POST /api/register] *)
Definition register (e : env) (body : value) (st : state) : state * response :=
  let b := or_else body (VObj []) in
  let username := field b "username" in
  let password := field b "password" in
  if negb (isValidUser username) || negb (isValidPassword password) then
    (st, sendJson 400 (error "Invalid username or password"))
  else
    match users_get (users st) (to_string username) with
    | Unset =>
        match hashPassword password (randomSalt e) 120000 with
        | Some h =>
            let urec := {| salt := randomSalt e; hash := h; iterations := 120000;
                           createdAt := toISOString (now e) |} in
            (ensureUserVault (to_string username)
               (set_users <[to_string username := urec]> st),
             sendJson 201 ok_true)
        | None => (st, sendJson 500 (error "Server error"))
        end
    | _ => (st, sendJson 409 (error "User exists"))
    end.

(** [POST /api/login]. [users[username]] converts the username to a
    property key; when that throws, the [catch] of the handler answers. *)
Definition login (e : env) (body : value) (st : state) : state * response :=
  let b := or_else body (VObj []) in
  let username := field b "username" in
  let password := field b "password" in
  if string_throws username then (st, sendJson 500 (error "Server error"))
  else
    match users_get (users st) (to_string username) with
    | Unset => (st, sendJson 401 (error "Invalid credentials"))
    | Inherited => (st, sendJson 500 (error "Server error"))
    | Own urec =>
        match verifyPassword password (salt urec) (iterations urec) (hash urec) with
        | None => (st, sendJson 500 (error "Server error"))
        | Some false => (st, sendJson 401 (error "Invalid credentials"))
        | Some true =>
            let sess := {| sess_username := username; expires := now e + TOKEN_TTL_MS |} in
            (set_sessions (<[randomToken e := sess]> (sessions st)) st,
             sendJson 200 (VObj [("token", VStr (randomToken e)); ("username", username)]))
        end
    end.

(** [GET /api/me] *)
Definition me (e : env) (authorization : string) (st : state) : state * response :=
  with_auth e authorization st (fun username st =>
    (st, sendJson 200 (VObj [("username", username)]))).

(** [GET /api/entries] *)
Definition listEntries (e : env) (authorization : string) (st : state)
  : state * response :=
  with_auth e authorization st (fun username st =>
    let '(st, entries) := loadEntries (to_string username) st in
    (st, sendJson 200 (VObj [("entries", entries_json entries)]))).

(** [[...new Set(entries.map(e => e.category).filter(Boolean))]] *)
Definition categories_of (entries : list obj) : list value :=
  set_of (List.filter truthy (List.map (fun e => prop e "category") entries)).

(** [GET /api/categories] *)
Definition listCategories (e : env) (authorization : string) (st : state)
  : state * response :=
  with_auth e authorization st (fun username st =>
    let '(st, entries) := loadEntries (to_string username) st in
    (st, sendJson 200 (VObj [("categories", VArr (categories_of entries))]))).

(** [!category || typeof category !== 'string' || category.trim() === ''] *)
Definition invalid_category (category : value) : bool :=
  match category with
  | VStr s => negb (truthy category) || String.eqb (trim s) ""
  | _ => true
  end.

(** [POST /api/categories]: nothing is stored. *)
Definition addCategory (e : env) (authorization : string) (body : value) (st : state)
  : state * response :=
  with_auth e authorization st (fun username st =>
    let category := field (or_else body (VObj [])) "category" in
    if invalid_category category then (st, sendJson 400 (error "Invalid category"))
    else
      let '(st, _) := loadEntries (to_string username) st in
      (st, sendJson 201 (VObj [("category", category)]))).

(** [DELETE /api/categories/:name] *)
Definition deleteCategory (e : env) (authorization : string) (categoryToDelete : string)
    (st : state) : state * response :=
  with_auth e authorization st (fun username st =>
    let '(st, entries) := loadEntries (to_string username) st in
    let updatedEntries :=
      List.map (fun en =>
        if is_str (prop en "category") categoryToDelete
        then set_prop "updatedAt" (now_iso e) (set_prop "category" VUndef en)
        else en) entries in
    (saveEntries (to_string username) updatedEntries st, sendJson 200 ok_true)).

(** The object [entry] that [POST /api/entries] builds from the fields
    of the body [b]; [tags] defaults to [[]] when the body has none. *)
Definition new_entry (e : env) (b auth_username : value) : obj :=
  let tags := match field b "tags" with VUndef => VArr [] | t => t end in
  [("id", VStr (randomUUID e));
   ("url", field b "url");
   ("username", field b "username");
   ("owner", or_else (field b "owner") auth_username);
   ("tags", if is_array tags then tags else VArr []);
   ("note", field b "note");
   ("passwordEncrypted", field b "passwordEncrypted");
   ("faviconUrl", field b "faviconUrl");
   ("createdAt", now_iso e);
   ("updatedAt", now_iso e)].

(** [POST /api/entries] *)
Definition addEntry (e : env) (authorization : string) (body : value) (st : state)
  : state * response :=
  with_auth e authorization st (fun auth_username st =>
    let b := or_else body (VObj []) in
    let siteUrl := field b "url" in
    let username := field b "username" in
    let passwordEncrypted := field b "passwordEncrypted" in
    if negb (truthy siteUrl) || negb (truthy username) || negb (truthy passwordEncrypted)
    then (st, sendJson 400 (error "Missing fields"))
    else
      let '(st, entries) := loadEntries (to_string auth_username) st in
      let entry := new_entry e b auth_username in
      (saveEntries (to_string auth_username) (entry :: entries) st,
       sendJson 201 (VObj [("entry", VObj entry)]))).

(** [{ ...e, ...updates, updatedAt: new Date().toISOString() }] *)
Definition merged (e : env) (en : obj) (updates : value) : obj :=
  set_prop "updatedAt" (now_iso e) (spread en updates).

(** [PUT /api/entries/:id] *)
Definition updateEntry (e : env) (authorization : string) (id : string) (updates : value)
    (st : state) : state * response :=
  with_auth e authorization st (fun username st =>
    let '(st, entries) := loadEntries (to_string username) st in
    let next :=
      List.map (fun en => if is_str (prop en "id") id then merged e en updates else en)
        entries in
    let updated :=
      last (List.map (fun en => merged e en updates)
              (List.filter (fun en => is_str (prop en "id") id) entries)) in
    (saveEntries (to_string username) next st,
     match updated with
     | Some u => sendJson 200 (VObj [("entry", VObj u)])
     | None => sendJson 404 (error "Not found")
     end)).

(** [DELETE /api/entries/:id] *)
Definition deleteEntry (e : env) (authorization : string) (id : string) (st : state)
  : state * response :=
  with_auth e authorization st (fun username st =>
    let '(st, entries) := loadEntries (to_string username) st in
    let next := List.filter (fun en => negb (is_str (prop en "id") id)) entries in
    let deleted := negb (length next =? length entries)%nat in
    (saveEntries (to_string username) next st,
     if deleted then sendJson 200 ok_true else sendJson 404 (error "Not found"))).

(** [GET /api/export] *)
Definition export (e : env) (authorization : string) (st : state) : state * response :=
  with_auth e authorization st (fun username st =>
    let '(st, entries) := loadEntries (to_string username) st in
    (st, sendJson 200 (VObj [("version", VNum 1);
                             ("username", username);
                             ("exportedAt", now_iso e);
                             ("entries", entries_json entries)]))).

Definition handle (e : env) (r : request) (st : state) : state * response :=
  match r with
  | Register body => register e body st
  | Login body => login e body st
  | Me a => me e a st
  | ListEntries a => listEntries e a st
  | AddEntry a body => addEntry e a body st
  | UpdateEntry a id body => updateEntry e a id body st
  | DeleteEntry a id => deleteEntry e a id st
  | ListCategories a => listCategories e a st
  | AddCategory a body => addCategory e a body st
  | DeleteCategory a name => deleteCategory e a name st
  | Export a => export e a st
  end.

(** A sequence of requests, each with what it reads from the clock and
    the random generators. *)
Fixpoint run (rs : list (env * request)) (st : state) : state * list response :=
  match rs with
  | [] => (st, [])
  | (e, r) :: rs' =>
      let '(st1, resp) := handle e r st in
      let '(st2, resps) := run rs' st1 in
      (st2, resp :: resps)
  end.

End Handlers.

End FileServer.

(** ** The relational server *)

Module Api.
Import JS Shared.

(** A row of [users]. *)
Record user_row := {
  salt : string;
  hash : string;
  iterations : Z;
  user_created_at : Z;
}.

(** A row of [password_entries]. [None] is SQL's NULL. *)
Record entry_row := {
  id : string;
  owner : string;
  url : string;
  username : string;
  password_encrypted : string;
  favicon_url : option string;
  note : option string;
  tags : option (list (option string));
  created_at : Z;
  updated_at : Z;
}.

(** The state of the server: whether a connection string was configured
    ([pool] is not [null]), the two tables and the [sessions] map.
    [users] is keyed by its primary key; [password_entries] lists the
    rows in the order a scan returns them, an updated row staying in its
    place (SQL leaves both unspecified). *)
Record state := {
  pool : bool;
  users : gmap string user_row;
  password_entries : list entry_row;
  sessions : session_map;
}.

Definition initial : state :=
  {| pool := true; users := ∅; password_entries := []; sessions := ∅ |}.

Definition set_users (f : gmap string user_row -> gmap string user_row) (st : state) :=
  {| pool := pool st; users := f (users st);
     password_entries := password_entries st; sessions := sessions st |}.
Definition set_entries (f : list entry_row -> list entry_row) (st : state) :=
  {| pool := pool st; users := users st;
     password_entries := f (password_entries st); sessions := sessions st |}.
Definition set_sessions (ss : session_map) (st : state) :=
  {| pool := pool st; users := users st;
     password_entries := password_entries st; sessions := ss |}.

(** *** Queries

    The outcome of binding a parameter or of running a query: a result;
    an error the database raises, which the route's [catch] turns into
    [500 Database error]; or [Outside], for a parameter whose JavaScript
    type is not the column's (the driver would convert it to some text):
    the model says nothing about such a request. *)
Inductive outcome (A : Type) :=
| Done (a : A)
| Raised
| Outside.
Arguments Done {A} a.
Arguments Raised {A}.
Arguments Outside {A}.

#[global] Instance outcome_ret : MRet outcome := fun A a => Done a.
#[global] Instance outcome_bind : MBind outcome := fun A B f m =>
  match m with
  | Done a => f a
  | Raised => Raised
  | Outside => Outside
  end.

Fixpoint has_nul (s : string) : bool :=
  match s with
  | EmptyString => false
  | String c s' => Ascii.eqb c Ascii.zero || has_nul s'
  end.

(** A parameter for a [text] or [varchar] column: [null] and [undefined]
    are NULL; a string is itself, and is refused when it holds the
    character of code zero. *)
Definition bind_text (v : value) : outcome (option string) :=
  match v with
  | VUndef | VNull => Done None
  | VStr s => if has_nul s then Raised else Done (Some s)
  | _ => Outside
  end.

(** A parameter for a column that is [NOT NULL]. *)
Definition bind_text_not_null (v : value) : outcome string :=
  o ← bind_text v;
  match o with
  | Some s => Done s
  | None => Raised
  end.

(** A parameter for the [varchar(32) NOT NULL] column [owner]. A longer
    value is outside the model (the database cuts trailing spaces and
    refuses anything else). *)
Definition bind_owner (v : value) : outcome string :=
  s ← bind_text_not_null v;
  if (32 <? String.length s)%nat then Outside else Done s.

Fixpoint bind_elements (xs : list value) : outcome (list (option string)) :=
  match xs with
  | [] => Done []
  | x :: xs' =>
      o ← bind_text x;
      os ← bind_elements xs';
      Done (o :: os)
  end.

(** A parameter for the [text[]] column [tags]. *)
Definition bind_text_array (v : value) : outcome (option (list (option string))) :=
  match v with
  | VUndef | VNull => Done None
  | VArr xs => os ← bind_elements xs; Done (Some os)
  | _ => Outside
  end.

(** A parameter compared with the [uuid] column [id]. *)
Section Uuid.
Context `{Platform}.

Definition bind_uuid (s : string) : outcome string :=
  match uuid_in s with
  | Some u => Done u
  | None => Raised
  end.

End Uuid.

(** [ORDER BY created_at DESC], rows of equal time in scan order. *)
Fixpoint insert_desc (r : entry_row) (rs : list entry_row) : list entry_row :=
  match rs with
  | [] => [r]
  | r' :: rs' =>
      if created_at r' <=? created_at r then r :: rs else r' :: insert_desc r rs'
  end.

Definition order_by_created_at_desc (rs : list entry_row) : list entry_row :=
  foldr insert_desc [] rs.

(** [WHERE owner = $1] *)
Definition owned_by (o : string) (r : entry_row) : bool := String.eqb (owner r) o.

(** [WHERE id = $1 AND owner = $2] *)
Definition is_entry (i o : string) (r : entry_row) : bool :=
  String.eqb (id r) i && String.eqb (owner r) o.

(** [array_remove(tags, $1)] *)
Definition array_remove (ts : option (list (option string))) (x : string)
  : option (list (option string)) :=
  match ts with
  | None => None
  | Some l => Some (List.filter (fun t => negb (bool_decide (t = Some x))) l)
  end.

(** [SELECT DISTINCT UNNEST(tags) ... WHERE owner = $1 AND tags IS NOT NULL
    AND tags != '{}']: each value once (SQL leaves the order of the
    result unspecified). *)
Definition distinct_tags (o : string) (rs : list entry_row) : list (option string) :=
  remove_dups
    (List.flat_map (fun r => default [] (tags r)) (List.filter (owned_by o) rs)).

Definition text_json (o : option string) : value :=
  match o with
  | Some s => VStr s
  | None => VNull
  end.

Definition tags_json (ts : option (list (option string))) : value :=
  match ts with
  | Some l => VArr (List.map text_json l)
  | None => VNull
  end.

Section Handlers.
Context `{Platform}.

(** The entry object the routes build from a row. *)
Definition entry_of_row (row : entry_row) : value :=
  VObj [("id", VStr (id row));
        ("url", VStr (url row));
        ("username", VStr (username row));
        ("owner", VStr (owner row));
        ("passwordEncrypted", VStr (password_encrypted row));
        ("faviconUrl", text_json (favicon_url row));
        ("note", text_json (note row));
        ("tags", tags_json (tags row));
        ("createdAt", VStr (toISOString (created_at row)));
        ("updatedAt", VStr (toISOString (updated_at row)))].

Definition no_pool : response :=
  sendJson 500 (error "Database connection not available").

Definition database_error : response := sendJson 500 (error "Database error").

(** A route's [try { ... } catch]: an error raised inside leaves the
    tables as they were. A request outside the model has no response. *)
Definition finish (st : state) (o : outcome (state * response)) : state * option response :=
  match o with
  | Done (st', r) => (st', Some r)
  | Raised => (st, Some database_error)
  | Outside => (st, None)
  end.

Definition with_auth (e : env) (authorization : string) (st : state)
    (k : value -> state -> state * option response) : state * option response :=
  match getAuth authorization (now e) (sessions st) with
  | (None, ss) => (set_sessions ss st, Some (sendJson 401 (error "Unauthorized")))
  | (Some username, ss) => k username (set_sessions ss st)
  end.

(** [POST /api/register] *)
Definition register (e : env) (body : value) (st : state) : state * option response :=
  let b := or_else body (VObj []) in
  let username := field b "username" in
  let password := field b "password" in
  if negb (isValidUser username) || negb (isValidPassword password) then
    (st, Some (sendJson 400 (error "Invalid username or password")))
  else if negb (pool st) then (st, Some no_pool)
  else
    match users st !! to_string username with
    | Some _ => (st, Some (sendJson 409 (error "User exists")))
    | None =>
        match hashPassword password (randomSalt e) 120000 with
        | Some h =>
            let row := {| salt := randomSalt e; hash := h; iterations := 120000;
                          user_created_at := current_timestamp e |} in
            (set_users <[to_string username := row]> st, Some (sendJson 201 ok_true))
        | None =>
            (st, Some (sendJson 500 (VObj [("error", VStr "Database error");
                                           ("details", VStr "Please check server logs")])))
        end
    end.

(** [POST /api/login] *)
Definition login (e : env) (body : value) (st : state) : state * option response :=
  let b := or_else body (VObj []) in
  let username := field b "username" in
  let password := field b "password" in
  if negb (pool st) then (st, Some no_pool)
  else
    finish st (
      u ← bind_text username;
      match u ≫= (users st !!.) with
      | None => Done (st, sendJson 401 (error "Invalid credentials"))
      | Some urec =>
          match verifyPassword password (salt urec) (iterations urec) (hash urec) with
          | None => Raised
          | Some false => Done (st, sendJson 401 (error "Invalid credentials"))
          | Some true =>
              let sess := {| sess_username := username;
                             expires := now e + TOKEN_TTL_MS |} in
              Done (set_sessions (<[randomToken e := sess]> (sessions st)) st,
                    sendJson 200 (VObj [("token", VStr (randomToken e));
                                        ("username", username)]))
          end
      end).

(** [GET /api/me] *)
Definition me (e : env) (authorization : string) (st : state) : state * option response :=
  with_auth e authorization st (fun username st =>
    (st, Some (sendJson 200 (VObj [("username", username)])))).

(** The rows a [WHERE owner = $1] selects; a NULL parameter selects none. *)
Definition rows_of (o : option string) (rs : list entry_row) : list entry_row :=
  match o with
  | Some o => List.filter (owned_by o) rs
  | None => []
  end.

(** [GET /api/entries] *)
Definition listEntries (e : env) (authorization : string) (st : state)
  : state * option response :=
  with_auth e authorization st (fun auth_username st =>
    if negb (pool st) then (st, Some no_pool)
    else
      finish st (
        o ← bind_text auth_username;
        let rows := order_by_created_at_desc (rows_of o (password_entries st)) in
        Done (st, sendJson 200 (VObj [("entries", VArr (List.map entry_of_row rows))])))).

(** The object [entry] that [POST /api/entries] answers with: the fields
    of the body [b] as they were sent, and the id and times the insertion
    returned. [tags] defaults to [[]] when the body has none. *)
Definition new_entry (e : env) (b auth_username : value) : value :=
  VObj [("id", VStr (randomUUID e));
        ("url", field b "url");
        ("username", field b "username");
        ("owner", or_else (field b "owner") auth_username);
        ("passwordEncrypted", field b "passwordEncrypted");
        ("faviconUrl", field b "faviconUrl");
        ("note", field b "note");
        ("tags", match field b "tags" with VUndef => VArr [] | t => t end);
        ("createdAt", VStr (toISOString (current_timestamp e)));
        ("updatedAt", VStr (toISOString (current_timestamp e)))].

(** The row that the [INSERT] of [POST /api/entries] makes of its seven
    parameters; [id], [created_at] and [updated_at] take their defaults. *)
Definition bind_entry (e : env) (b auth_username : value) : outcome entry_row :=
  let tags := match field b "tags" with VUndef => VArr [] | t => t end in
  p_owner ← bind_owner (or_else (field b "owner") auth_username);
  p_url ← bind_text_not_null (field b "url");
  p_username ← bind_text_not_null (field b "username");
  p_password ← bind_text_not_null (field b "passwordEncrypted");
  p_favicon ← bind_text (field b "faviconUrl");
  p_note ← bind_text (field b "note");
  p_tags ← bind_text_array tags;
  Done {| id := randomUUID e; owner := p_owner; url := p_url;
          username := p_username; password_encrypted := p_password;
          favicon_url := p_favicon; note := p_note; tags := p_tags;
          created_at := current_timestamp e;
          updated_at := current_timestamp e |}.

(** [POST /api/entries] *)
Definition addEntry (e : env) (authorization : string) (body : value) (st : state)
  : state * option response :=
  with_auth e authorization st (fun auth_username st =>
    let b := or_else body (VObj []) in
    let siteUrl := field b "url" in
    let username := field b "username" in
    let passwordEncrypted := field b "passwordEncrypted" in
    if negb (truthy siteUrl) || negb (truthy username) || negb (truthy passwordEncrypted)
    then (st, Some (sendJson 400 (error "Missing fields")))
    else if negb (pool st) then (st, Some no_pool)
    else
      finish st (
        row ← bind_entry e b auth_username;
        (* owner REFERENCES users(username); id is the primary key *)
        if negb (bool_decide (is_Some (users st !! owner row))) then Raised
        else if existsb (fun r => String.eqb (id r) (id row)) (password_entries st)
        then Raised
        else
          Done (set_entries (fun rs => app rs [row]) st,
                sendJson 201 (VObj [("entry", new_entry e b auth_username)])))).

(** The [SET] list of the update: a column is set when the field of the
    payload is truthy; [updated_at] always is. *)
Record changes := {
  set_url : option string;
  set_username : option string;
  set_password_encrypted : option string;
  set_favicon_url : option string;
  set_note : option string;
  set_tags : option (option (list (option string)));
}.

Definition bind_if_truthy {A} (bind : value -> outcome A) (v : value) : outcome (option A) :=
  if truthy v then a ← bind v; Done (Some a) else Done None.

Definition bind_changes (updates : value) : outcome changes :=
  c_url ← bind_if_truthy bind_text_not_null (field updates "url");
  c_username ← bind_if_truthy bind_text_not_null (field updates "username");
  c_password ← bind_if_truthy bind_text_not_null (field updates "passwordEncrypted");
  c_favicon ← bind_if_truthy bind_text_not_null (field updates "faviconUrl");
  c_note ← bind_if_truthy bind_text_not_null (field updates "note");
  c_tags ← bind_if_truthy bind_text_array (field updates "tags");
  Done {| set_url := c_url; set_username := c_username;
          set_password_encrypted := c_password; set_favicon_url := c_favicon;
          set_note := c_note; set_tags := c_tags |}.

Definition apply_changes (c : changes) (ts : Z) (row : entry_row) : entry_row :=
  {| id := id row;
     owner := owner row;
     url := default (url row) (set_url c);
     username := default (username row) (set_username c);
     password_encrypted := default (password_encrypted row) (set_password_encrypted c);
     favicon_url := match set_favicon_url c with Some s => Some s | None => favicon_url row end;
     note := match set_note c with Some s => Some s | None => note row end;
     tags := match set_tags c with Some t => t | None => tags row end;
     created_at := created_at row;
     updated_at := ts |}.

(** [PUT /api/entries/:id] *)
Definition updateEntry (e : env) (authorization : string) (id_param : string)
    (updates : value) (st : state) : state * option response :=
  with_auth e authorization st (fun auth_username st =>
    if negb (pool st) then (st, Some no_pool)
    else
      finish st (
        match updates with
        | VNull | VUndef => Raised
        | _ =>
            c ← bind_changes updates;
            i ← bind_uuid id_param;
            o ← bind_text auth_username;
            let hit r := match o with Some o => is_entry i o r | None => false end in
            let rows := password_entries st in
            let st' :=
              set_entries
                (List.map (fun r => if hit r then apply_changes c (current_timestamp e) r
                                    else r)) st in
            match List.filter hit rows with
            | [] => Done (st', sendJson 404 (error "Not found"))
            | row :: _ =>
                Done (st', sendJson 200
                             (VObj [("entry",
                                     entry_of_row
                                       (apply_changes c (current_timestamp e) row))]))
            end
        end)).

(** [DELETE /api/entries/:id] *)
Definition deleteEntry (e : env) (authorization : string) (id_param : string) (st : state)
  : state * option response :=
  with_auth e authorization st (fun auth_username st =>
    if negb (pool st) then (st, Some no_pool)
    else
      finish st (
        i ← bind_uuid id_param;
        o ← bind_text auth_username;
        let hit r := match o with Some o => is_entry i o r | None => false end in
        let rows := password_entries st in
        let deleted := existsb hit rows in
        Done (set_entries (List.filter (fun r => negb (hit r))) st,
              if deleted then sendJson 200 ok_true
              else sendJson 404 (error "Not found")))).

(** [GET /api/categories] *)
Definition listCategories (e : env) (authorization : string) (st : state)
  : state * option response :=
  with_auth e authorization st (fun auth_username st =>
    if negb (pool st) then (st, Some no_pool)
    else
      finish st (
        o ← bind_text auth_username;
        let rows := match o with
                    | Some o => distinct_tags o (password_entries st)
                    | None => []
                    end in
        let categories := List.filter truthy (List.map text_json rows) in
        Done (st, sendJson 200 (VObj [("categories", VArr categories)])))).

(** [!category || typeof category !== 'string' || category.trim() === ''] *)
Definition invalid_category (category : value) : bool :=
  match category with
  | VStr s => negb (truthy category) || String.eqb (trim s) ""
  | _ => true
  end.

(** [POST /api/categories]: nothing is stored. *)
Definition addCategory (e : env) (authorization : string) (body : value) (st : state)
  : state * option response :=
  with_auth e authorization st (fun auth_username st =>
    let category := field (or_else body (VObj [])) "category" in
    if invalid_category category then (st, Some (sendJson 400 (error "Invalid category")))
    else (st, Some (sendJson 201 (VObj [("category", category)])))).

(** [DELETE /api/categories/:name] *)
Definition deleteCategory (e : env) (authorization : string) (categoryToDelete : string)
    (st : state) : state * option response :=
  with_auth e authorization st (fun auth_username st =>
    if negb (pool st) then (st, Some no_pool)
    else
      finish st (
        c ← bind_text_not_null (VStr categoryToDelete);
        o ← bind_text auth_username;
        let hit r := match o with Some o => owned_by o r | None => false end in
        Done (set_entries
                (List.map (fun r =>
                   if hit r then
                     {| id := id r; owner := owner r; url := url r;
                        username := username r;
                        password_encrypted := password_encrypted r;
                        favicon_url := favicon_url r; note := note r;
                        tags := array_remove (tags r) c;
                        created_at := created_at r;
                        updated_at := current_timestamp e |}
                   else r)) st,
              sendJson 200 ok_true))).

(** [GET /api/export]: the route does not test [pool]; calling
    [pool.query] on [null] throws inside the [try]. *)
Definition export (e : env) (authorization : string) (st : state)
  : state * option response :=
  with_auth e authorization st (fun auth_username st =>
    finish st (
      if negb (pool st) then Raised
      else
        o ← bind_text auth_username;
        let rows := rows_of o (password_entries st) in
        Done (st, sendJson 200 (VObj [("version", VNum 1);
                                      ("username", auth_username);
                                      ("exportedAt", VStr (toISOString (now e)));
                                      ("entries", VArr (List.map entry_of_row rows))])))).

Definition handle (e : env) (r : request) (st : state) : state * option response :=
  match r with
  | Register body => register e body st
  | Login body => login e body st
  | Me a => me e a st
  | ListEntries a => listEntries e a st
  | AddEntry a body => addEntry e a body st
  | UpdateEntry a i body => updateEntry e a i body st
  | DeleteEntry a i => deleteEntry e a i st
  | ListCategories a => listCategories e a st
  | AddCategory a body => addCategory e a body st
  | DeleteCategory a name => deleteCategory e a name st
  | Export a => export e a st
  end.

Fixpoint run (rs : list (env * request)) (st : state) : state * list (option response) :=
  match rs with
  | [] => (st, [])
  | (e, r) :: rs' =>
      let '(st1, resp) := handle e r st in
      let '(st2, resps) := run rs' st1 in
      (st2, resp :: resps)
  end.

End Handlers.

End Api.

(** ** Requests and a sample platform for the examples *)

Module Examples.
Import JS Shared.

(** The body [{ username: u, password: p }]. *)
Definition credentials (u p : string) : value :=
  VObj [("username", VStr u); ("password", VStr p)].

(** The header [Authorization: Bearer token]. *)
Definition bearer (token : string) : string := "Bearer " ++ token.

(** The entry of a response [{ entry }], and the entries of a response
    [{ entries }]. *)
Definition entry_of (r : response) : value := field (body r) "entry".

Definition entries_of (r : response) : list value :=
  match field (body r) "entries" with
  | VArr xs => xs
  | _ => []
  end.

(** The fields of an entry a client may change. *)
Definition mutable_fields : list string :=
  ["url"; "username"; "passwordEncrypted"; "faviconUrl"; "note"; "tags"].

(** A JavaScript object has each of its keys once. *)
Definition distinct_keys (o : obj) : Prop := NoDup o.*1.

(** Every entry of every vault file is such an object. *)
Definition well_formed (st : FileServer.state) : Prop :=
  forall key entries,
    FileServer.vaults st !! key = Some entries -> Forall distinct_keys entries.

(** The entry [after] is the entry [before] with the payload [updates]
    merged in and the time stamp [stamp]: a mutable field that the
    payload gives a truthy value has that value, a mutable field that
    the payload does not have is as before, and [updatedAt] is [stamp].
    Nothing is said of a field the payload gives a falsy value. *)
Definition merges (updates before after : value) (stamp : string) : Prop :=
  (forall k, k ∈ mutable_fields -> truthy (field updates k) = true ->
             field after k = json_of (field updates k)) /\
  (forall k, k ∈ mutable_fields -> k ∉ (own_props updates).*1 ->
             field after k = field before k) /\
  field after "updatedAt" = VStr stamp.

Section Records.
Context `{Platform}.

(** The record the file-backed [register] writes for password [p], and
    the row the relational one inserts. *)
Definition file_record (e : env) (p : string) : FileServer.user_rec :=
  {| FileServer.salt := randomSalt e;
     FileServer.hash := to_hex (pbkdf2Sync p (randomSalt e) 120000 32);
     FileServer.iterations := 120000;
     FileServer.createdAt := toISOString (now e) |}.

Definition api_record (e : env) (p : string) : Api.user_row :=
  {| Api.salt := randomSalt e;
     Api.hash := to_hex (pbkdf2Sync p (randomSalt e) 120000 32);
     Api.iterations := 120000;
     Api.user_created_at := current_timestamp e |}.

End Records.

(** A platform to run the examples on: a stand-in key derivation (the
    first [keylen] bytes of password and salt, padded with zeros), decimal
    time stamps, no trimming, and 36 characters for a uuid. *)
Definition sample_pbkdf2 (password salt : string) (iterations : Z) (keylen : nat)
  : list byte :=
  take keylen (String.list_byte_of_string (password ++ salt) ++ replicate keylen x00).

Lemma sample_pbkdf2_length password salt iterations keylen :
  length (sample_pbkdf2 password salt iterations keylen) = keylen.
Proof.
  unfold sample_pbkdf2. rewrite length_take, length_app, length_replicate. lia.
Qed.

Definition sample_platform : Platform := {|
  pbkdf2Sync := sample_pbkdf2;
  pbkdf2Sync_length := sample_pbkdf2_length;
  toISOString := fun ms => pretty ms;
  trim := fun s => s;
  uuid_in := fun s => if (String.length s =? 36)%nat then Some s else None;
|}.

Definition sample_env (t : Z) (salt token uuid : string) : env :=
  {| now := t; randomSalt := salt; randomToken := token; randomUUID := uuid;
     current_timestamp := t |}.

(** Alice registers with the file-backed server and with the relational
    one, at time 1000. *)
Definition env_register : env := sample_env 1000 "5a17" "" "".

Definition file_alice : FileServer.state :=
  (FileServer.register (H := sample_platform) env_register
     (credentials "alice" "secret1") FileServer.initial).1.

Definition api_alice : Api.state :=
  (Api.register (H := sample_platform) env_register
     (credentials "alice" "secret1") Api.initial).1.

(** She logs in at time 2000 and is given the token [t0]. *)
Definition env_login : env := sample_env 2000 "" "t0" "".

Definition file_session : FileServer.state :=
  (FileServer.login (H := sample_platform) env_login
     (credentials "alice" "secret1") file_alice).1.

Definition api_session : Api.state :=
  (Api.login (H := sample_platform) env_login
     (credentials "alice" "secret1") api_alice).1.

(** A longer script: Alice and Bob register and log in (tokens [t0] and
    [t1]), and Alice stores an entry tagged [work]. *)
Definition entry_id : string := "11111111-1111-1111-1111-111111111111".

Definition entry_body : value :=
  VObj [("url", VStr "https://x.com");
        ("username", VStr "a");
        ("passwordEncrypted", VStr "ct1");
        ("faviconUrl", VStr "https://x.com/favicon.ico");
        ("note", VStr "old");
        ("tags", VArr [VStr "work"])].

Definition script : list (env * request) :=
  [(sample_env 1000 "5a17" "" "", Register (credentials "alice" "secret1"));
   (sample_env 1100 "5a18" "" "", Register (credentials "bob" "secret2"));
   (sample_env 2000 "" "t0" "", Login (credentials "alice" "secret1"));
   (sample_env 2100 "" "t1" "", Login (credentials "bob" "secret2"));
   (sample_env 3000 "" "" entry_id, AddEntry (bearer "t0") entry_body)].

Definition file_vault : FileServer.state :=
  (FileServer.run (H := sample_platform) script FileServer.initial).1.

Definition api_vault : Api.state :=
  (Api.run (H := sample_platform) script Api.initial).1.

Definition env_later : env := sample_env 4000 "" "" "".

(** Alice's entry as the file-backed server stores it. *)
Definition stored_entry : obj :=
  [("id", VStr entry_id);
   ("url", VStr "https://x.com");
   ("username", VStr "a");
   ("owner", VStr "alice");
   ("tags", VArr [VStr "work"]);
   ("note", VStr "old");
   ("passwordEncrypted", VStr "ct1");
   ("faviconUrl", VStr "https://x.com/favicon.ico");
   ("createdAt", VStr "3000");
   ("updatedAt", VStr "3000")].

(** The script followed by Alice asking for her categories. *)
Definition script_categories : list (env * request) :=
  app script [(env_later, ListCategories (bearer "t0"))].

(** A session is in one of two states from its issue on: in the map as
    issued, or gone. *)
Definition issued_or_gone (token : string) (sess : session) (ss : session_map) : Prop :=
  ss !! token = Some sess \/ ss !! token = None.

(** The requests of a run that may follow the issue of [token] before a
    check at time [t']: none is a login that draws the same token, and
    the clock has not passed [t']. *)
Definition may_follow (token : string) (t' : Z) (rs : list (env * request)) : Prop :=
  Forall (fun er => randomToken er.1 <> token /\ now er.1 <= t') rs.

(** A registration under the username [u], and the number of
    registrations under [u] that a run answered 201. *)
Definition registers (u : string) (r : request) : bool :=
  match r with
  | Register body => is_str (field (or_else body (VObj [])) "username") u
  | _ => false
  end.

Fixpoint registered (u : string) (rs : list (env * request))
    (answers : list (option response)) : nat :=
  match rs, answers with
  | (_, r) :: rs', answer :: answers' =>
      Nat.add
        (if registers u r && bool_decide (status <$> answer = Some 201)
         then 1%nat else 0%nat)
        (registered u rs' answers')
  | _, _ => 0%nat
  end.

(** What a client cannot change of a row: its id, owner and creation
    time. *)
Definition identity_of (r : Api.entry_row) : string * string * Z :=
  (Api.id r, Api.owner r, Api.created_at r).

(** A second entry, which names Bob as its owner. *)
Definition env_add : env := sample_env 5000 "" "" "22222222-2222-2222-2222-222222222222".

Definition body_for_bob : value :=
  VObj [("url", VStr "https://y.com");
        ("username", VStr "b");
        ("passwordEncrypted", VStr "ct2");
        ("owner", VStr "bob")].

(** Exposes the sequencing of database outcomes to case analysis. *)
Ltac unfold_outcome :=
  unfold mbind, mret, Api.outcome_bind, Api.outcome_ret in *.

(** Closes a goal [answer = Some r -> status r = n -> _] (or one about a
    file-backed answer) when the answer at hand has another status or
    is none. *)
Ltac not_this_answer :=
  solve [ intros [= <-]; discriminate | discriminate ].

End Examples.

(** ** Routing *)

Module Http.
Import JS Shared.

(** A request as a server reads it: [req.method], [req.url] (the
    request target), the [Authorization] header (the empty string when
    there is none) and the body as it parses ([null] when it is missing
    or is no JSON). *)
Record http_request := {
  method : string;
  url : string;
  authorization : string;
  json : value;
}.

(** What a server does with a request: it writes a JSON response
    ([sendJson]), the headers of [sendCors] with no body, or the page
    [index.html] (or the text that it was not found) read from the disk;
    or its handler throws outside the [try] and writes nothing
    ([Thrown]). The state that comes with [Thrown] is the one the
    handler leaves; what the runtime does with the rejected promise of
    the handler is not modelled. *)
Inductive reply :=
| Json (r : response)
| Cors (status : Z)
| Page
| Thrown.

(** [s.startsWith(p)] *)
Definition starts_with (p s : string) : bool :=
  match strip_prefix p s with Some _ => true | None => false end.

(** [s.split('/')] *)
Fixpoint split_slash (s : string) : list string :=
  match s with
  | EmptyString => [EmptyString]
  | String c s' =>
      if Ascii.eqb c "/" then EmptyString :: split_slash s'
      else match split_slash s' with
           | seg :: segs => String c seg :: segs
           | [] => [String c EmptyString]
           end
  end.

(** [s.split('/').pop()] *)
Definition last_segment (s : string) : string := default "" (last (split_slash s)).

Definition not_found : response := sendJson 404 (error "Not found").
Definition server_error : response := sendJson 500 (error "Server error").

(** What the file-backed server answers before it parses the URL: the
    page, on [GET /] and [GET /index.html], and the preflight of a target
    that starts with [/api]. *)
Definition is_page (req : http_request) : bool :=
  String.eqb (method req) "GET"
  && (String.eqb (url req) "/" || String.eqb (url req) "/index.html").

Definition is_preflight (req : http_request) : bool :=
  starts_with "/api" (url req) && String.eqb (method req) "OPTIONS".

(** The target the file-backed server parses, [req.url || '/']. *)
Definition file_target (req : http_request) : string :=
  if String.eqb (url req) "" then "/" else url req.

Definition file_reply (sr : FileServer.state * response) : FileServer.state * reply :=
  (sr.1, Json sr.2).

(** The relational server answers (or the model says nothing of what it
    answers, [None]), inside its [try]. *)
Definition api_reply (sr : Api.state * option response) : Api.state * option reply :=
  (sr.1, Json <$> sr.2).

Section Servers.
Context `{Platform}.
(** The [pathname] of [new URL(target, base)] for the base of the
    server; the constructor throws ([None]) on a target that is no URL,
    such as [//]. *)
Variable pathname_of : string -> option string.
(** [decodeURIComponent], which throws ([None]) on a malformed escape. *)
Variable decodeURIComponent : string -> option string.

(** The routes of the file-backed server, the body of its [try], for the
    method [m], the pathname [p] and the [Authorization] header [a]. *)
Definition file_routes (e : env) (m p a : string) (body : value) (st : FileServer.state)
  : FileServer.state * response :=
  if String.eqb m "POST" && String.eqb p "/api/register"
  then FileServer.register e body st
  else if String.eqb m "POST" && String.eqb p "/api/login"
  then FileServer.login e body st
  else if String.eqb m "GET" && String.eqb p "/api/me"
  then FileServer.me e a st
  else if String.eqb m "GET" && String.eqb p "/api/entries"
  then FileServer.listEntries e a st
  else if String.eqb m "GET" && String.eqb p "/api/categories"
  then FileServer.listCategories e a st
  else if String.eqb m "POST" && String.eqb p "/api/categories"
  then FileServer.addCategory e a body st
  else if String.eqb m "DELETE" && starts_with "/api/categories/" p
  then
    match decodeURIComponent (last_segment p) with
    | Some name => FileServer.deleteCategory e a name st
    | None =>
        (* thrown after the guard, caught by the listener's [catch] *)
        FileServer.with_auth e a st (fun _ st' => (st', server_error))
    end
  else if String.eqb m "POST" && String.eqb p "/api/entries"
  then FileServer.addEntry e a body st
  else if String.eqb m "PUT" && starts_with "/api/entries/" p
  then FileServer.updateEntry e a (last_segment p) body st
  else if String.eqb m "DELETE" && starts_with "/api/entries/" p
  then FileServer.deleteEntry e a (last_segment p) st
  else if String.eqb m "GET" && String.eqb p "/api/export"
  then FileServer.export e a st
  else (st, not_found).

(** The request listener of the file-backed server. The URL is parsed
    after the page and the preflight, and before the [try]: when the
    constructor throws, the listener does and no response is written. *)
Definition file_server (e : env) (req : http_request) (st : FileServer.state)
  : FileServer.state * reply :=
  if is_page req then (st, Page)
  else if is_preflight req then (st, Cors 200)
  else
    match pathname_of (file_target req) with
    | None => (st, Thrown)
    | Some p => file_reply (file_routes e (method req) p (authorization req) (json req) st)
    end.

(** The routes of the relational server, the body of its [try] from the
    first route on. *)
Definition api_routes (e : env) (m p a : string) (body : value) (st : Api.state)
  : Api.state * option response :=
  if String.eqb m "POST" && String.eqb p "/api/register"
  then Api.register e body st
  else if String.eqb m "POST" && String.eqb p "/api/login"
  then Api.login e body st
  else if String.eqb m "GET" && String.eqb p "/api/me"
  then Api.me e a st
  else if String.eqb m "GET" && String.eqb p "/api/entries"
  then Api.listEntries e a st
  else if String.eqb m "POST" && String.eqb p "/api/entries"
  then Api.addEntry e a body st
  else if String.eqb m "PUT" && starts_with "/api/entries/" p
  then Api.updateEntry e a (last_segment p) body st
  else if String.eqb m "DELETE" && starts_with "/api/entries/" p
  then Api.deleteEntry e a (last_segment p) st
  else if String.eqb m "GET" && String.eqb p "/api/categories"
  then Api.listCategories e a st
  else if String.eqb m "POST" && String.eqb p "/api/categories"
  then Api.addCategory e a body st
  else if String.eqb m "DELETE" && starts_with "/api/categories/" p
  then
    match decodeURIComponent (last_segment p) with
    | Some name => Api.deleteCategory e a name st
    | None => Api.with_auth e a st (fun _ st' => (st', Some server_error))
    end
  else if String.eqb m "GET" && String.eqb p "/api/export"
  then Api.export e a st
  else (st, Some not_found).

(** The handler of the relational server. An [OPTIONS] request is
    answered first; the URL is parsed next, before the [try]: when the
    constructor throws, the handler does and no response is written. The
    body is read for every method but [GET] and [DELETE], whose routes
    do not look at it. *)
Definition api_server (e : env) (req : http_request) (st : Api.state)
  : Api.state * option reply :=
  let m := method req in
  if String.eqb m "OPTIONS" then (st, Some (Json (sendJson 200 (VObj []))))
  else
    match pathname_of (url req) with
    | None => (st, Some Thrown)
    | Some p =>
        let body :=
          if String.eqb m "GET" || String.eqb m "DELETE" then VNull else json req in
        api_reply (api_routes e m p (authorization req) body st)
    end.

End Servers.

End Http.

(** ** Notions used by the further properties *)

Module Scenarios.
Import JS Shared.

(** The [Authorization] header of a request to a route that opens with
    the [getAuth] guard; registration and login have none. *)
Definition authorization_of (r : request) : option string :=
  match r with
  | Register _ | Login _ => None
  | Me a | ListEntries a | AddEntry a _ | UpdateEntry a _ _ | DeleteEntry a _
  | ListCategories a | AddCategory a _ | DeleteCategory a _ | Export a => Some a
  end.

(** The constraints of the table [password_entries]: [owner] references
    a row of [users], and [id] is the primary key. *)
Definition referential (st : Api.state) : Prop :=
  Forall (fun r => is_Some (Api.users st !! Api.owner r)) (Api.password_entries st) /\
  NoDup (List.map Api.id (Api.password_entries st)).

(** Newest first: no row is older than a row that comes after it. *)
Definition newest_first (rows : list Api.entry_row) : Prop :=
  StronglySorted (fun r1 r2 => Api.created_at r2 <= Api.created_at r1) rows.

(** The session a login at [e] with the body [body] stores. *)
Definition session_of (e : env) (body : value) : session :=
  {| sess_username := field (or_else body (VObj [])) "username";
     expires := now e + TOKEN_TTL_MS |}.

(** Sessions whose usernames convert to strings. *)
Definition plain_sessions (ss : session_map) : Prop :=
  map_Forall (fun _ sess => string_throws (sess_username sess) = false) ss.

(** The categories of a response [{ categories }]. *)
Definition categories_of (r : response) : list value :=
  match field (body r) "categories" with
  | VArr xs => xs
  | _ => []
  end.

(** The characters [0-9a-f]. *)
Definition is_lower_hex (c : ascii) : bool :=
  let n := N_of_ascii c in
  ((48 <=? n) && (n <=? 57) || (97 <=? n) && (n <=? 102))%N.

(** Alice adds a second entry, at time 5000. *)
Definition second_id : string := "33333333-3333-3333-3333-333333333333".

Definition env_second : env := Examples.sample_env 5000 "" "" second_id.

Definition second_body : value :=
  VObj [("url", VStr "https://z.com");
        ("username", VStr "c");
        ("passwordEncrypted", VStr "ct3");
        ("tags", VArr [VStr "work"; VStr "bank"])].

Definition second_request : env * request :=
  (env_second, AddEntry (Examples.bearer "t0") second_body).

Definition file_two : FileServer.state :=
  (FileServer.run (H := Examples.sample_platform) [second_request] Examples.file_vault).1.

Definition api_two : Api.state :=
  (Api.run (H := Examples.sample_platform) [second_request] Examples.api_vault).1.

(** An entry that names an owner no one has registered, and the row
    the relational server makes of it. *)
Definition ghost_body : value :=
  VObj [("url", VStr "https://g.com");
        ("username", VStr "g");
        ("passwordEncrypted", VStr "ct4");
        ("owner", VStr "ghost")].

Definition ghost_row : Api.entry_row :=
  {| Api.id := second_id; Api.owner := "ghost"; Api.url := "https://g.com";
     Api.username := "g"; Api.password_encrypted := "ct4";
     Api.favicon_url := None; Api.note := None; Api.tags := Some [];
     Api.created_at := 5000; Api.updated_at := 5000 |}.

(** Alice gives her entry the category [misc], at time 4000. *)
Definition file_categorised : FileServer.state :=
  (FileServer.run (H := Examples.sample_platform)
     [(Examples.env_later,
       UpdateEntry (Examples.bearer "t0") Examples.entry_id
         (VObj [("category", VStr "misc")]))]
     Examples.file_vault).1.

(** A later time, within the 24 hours of the sessions. *)
Definition env_last : env := Examples.sample_env 6000 "" "" "".

(** [PUT /api/entries/<id of Alice's entry>] with the note [n]; a URL
    parser for the targets of the examples, each a path that is its own
    pathname, short of [//], which names no host and does not parse; and
    a [decodeURIComponent] for names without escapes. *)
Definition put_request : Http.http_request :=
  {| Http.method := "PUT";
     Http.url := "/api/entries/" ++ Examples.entry_id;
     Http.authorization := Examples.bearer "t0";
     Http.json := VObj [("note", VStr "n")] |}.

Definition parse_path (target : string) : option string :=
  if String.eqb target "//" then None else Some target.

Definition decode_plain (s : string) : option string :=
  if all_chars (fun c => negb (Ascii.eqb c "%")) s then Some s else None.

(** [DELETE /api/categories/%] as Alice. *)
Definition bad_name_request : Http.http_request :=
  {| Http.method := "DELETE";
     Http.url := "/api/categories/%";
     Http.authorization := Examples.bearer "t0";
     Http.json := VNull |}.

(** [GET //] as Alice. *)
Definition slashes_request : Http.http_request :=
  {| Http.method := "GET";
     Http.url := "//";
     Http.authorization := Examples.bearer "t0";
     Http.json := VNull |}.

(** An entry that names another user as its owner: Alice's names Bob
    ([Examples.body_for_bob], sent to the relational server at time
    5000), Bob's names Alice (sent to the file-backed server). *)
Definition body_for_alice : value :=
  VObj [("url", VStr "https://w.com");
        ("username", VStr "d");
        ("passwordEncrypted", VStr "ct5");
        ("owner", VStr "alice")].

Definition api_crossed : Api.state :=
  (Api.addEntry (H := Examples.sample_platform) Examples.env_add (Examples.bearer "t0")
     Examples.body_for_bob Examples.api_vault).1.

Definition file_crossed : FileServer.state :=
  (FileServer.addEntry (H := Examples.sample_platform) env_second (Examples.bearer "t1")
     body_for_alice Examples.file_vault).1.

(** The relational server with no connection string configured. *)
Definition api_no_pool : Api.state :=
  {| Api.pool := false; Api.users := Api.users Examples.api_vault;
     Api.password_entries := Api.password_entries Examples.api_vault;
     Api.sessions := Api.sessions Examples.api_vault |}.

End Scenarios.

(** * Properties *)

Module SharedFacts.
Import JS Shared Examples.

Lemma hex_byte (b : byte) :
  hex_val (hex_digit (Byte.to_N b / 16)) = Some (Byte.to_N b / 16)%N /\
  hex_val (hex_digit (Byte.to_N b mod 16)) = Some (Byte.to_N b mod 16)%N /\
  byte_of_N (16 * (Byte.to_N b / 16) + Byte.to_N b mod 16) = b.
Proof. destruct b; repeat split; reflexivity. Qed.

(** Decoding the hexadecimal text of a buffer gives the buffer back. *)
Lemma from_hex_to_hex (bs : list byte) : from_hex (to_hex bs) = bs.
Proof.
  induction bs as [|b bs IH]; [reflexivity|].
  cbn [to_hex from_hex]. destruct (hex_byte b) as (-> & -> & ->). by rewrite IH.
Qed.

Lemma timingSafeEqual_refl (a : list byte) : timingSafeEqual a a = Some true.
Proof.
  unfold timingSafeEqual. rewrite Nat.eqb_refl. by rewrite bool_decide_eq_true_2.
Qed.

Lemma timingSafeEqual_ne (a b : list byte) :
  length a = length b -> a <> b -> timingSafeEqual a b = Some false.
Proof.
  intros Hl Hne. unfold timingSafeEqual. rewrite Hl, Nat.eqb_refl.
  by rewrite bool_decide_eq_false_2.
Qed.

Section Passwords.
Context `{Platform}.

(** The stored hash of a password verifies against that password. *)
Lemma verifyPassword_stored (p salt : string) (iterations : Z) (h : string) :
  hashPassword (VStr p) salt iterations = Some h ->
  verifyPassword (VStr p) salt iterations h = Some true.
Proof.
  unfold verifyPassword. intros ->. apply timingSafeEqual_refl.
Qed.

(** Another password whose derived key differs does not verify. *)
Lemma verifyPassword_other (p p' salt : string) (iterations : Z) :
  1 <= iterations <= MAX_ITERATIONS ->
  pbkdf2Sync p' salt iterations 32 <> pbkdf2Sync p salt iterations 32 ->
  verifyPassword (VStr p') salt iterations (to_hex (pbkdf2Sync p salt iterations 32))
  = Some false.
Proof.
  intros Hit Hne. unfold verifyPassword, hashPassword.
  destruct (Z.ltb_spec iterations 1) as [?|_]; [lia|].
  destruct (Z.ltb_spec MAX_ITERATIONS iterations) as [?|_]; [lia|].
  cbn [orb].
  rewrite !from_hex_to_hex. apply timingSafeEqual_ne; [|done].
  by rewrite !pbkdf2Sync_length.
Qed.

Lemma hashPassword_120000 (p salt : string) :
  hashPassword (VStr p) salt 120000 = Some (to_hex (pbkdf2Sync p salt 120000 32)).
Proof. reflexivity. Qed.

End Passwords.

Lemma strip_prefix_app (p s : string) : strip_prefix p (p ++ s) = Some s.
Proof.
  induction p as [|a p IH]; [reflexivity|].
  change (String a p ++ s) with (String a (p ++ s)).
  cbn [strip_prefix]. by rewrite Ascii.eqb_refl.
Qed.

Lemma bearer_token_bearer (token : string) :
  token <> "" -> bearer_token (bearer token) = Some token.
Proof.
  intros Hne. unfold bearer_token, bearer. rewrite strip_prefix_app.
  by destruct token.
Qed.

(** What [getAuth] does with a known token. *)
Lemma getAuth_known (ss : session_map) (token : string) (sess : session) (t : Z) :
  token <> "" -> ss !! token = Some sess ->
  getAuth (bearer token) t ss =
    if expires sess <? t then (None, delete token ss) else (Some (sess_username sess), ss).
Proof.
  intros Hne Hs. unfold getAuth. by rewrite bearer_token_bearer, Hs.
Qed.

(** [getAuth] answers with an identity only when it leaves the map as it
    was. *)
Lemma getAuth_Some (a : string) (t : Z) (ss ss' : session_map) (u : value) :
  getAuth a t ss = (Some u, ss') -> ss' = ss.
Proof.
  unfold getAuth. intros Hg.
  destruct (bearer_token a); [|congruence].
  destruct (ss !! s); [|congruence].
  destruct (expires s0 <? t); congruence.
Qed.

End SharedFacts.

(** ** Sessions *)

Module SessionFacts.
Import JS Shared Examples SharedFacts.


Section Login.
Context `{Platform}.

(** A login of the file-backed server that answers 200 has stored the
    session of the token it returns. *)
Lemma file_login_200 (e : env) (body : value) (st : FileServer.state) :
  status (FileServer.login e body st).2 = 200 ->
  FileServer.sessions (FileServer.login e body st).1 =
    <[randomToken e := {| sess_username := field (or_else body (VObj [])) "username";
                          expires := now e + TOKEN_TTL_MS |}]> (FileServer.sessions st).
Proof.
  unfold FileServer.login.
  destruct (string_throws _); [discriminate|].
  destruct (FileServer.users_get _ _) as [urec| |]; try discriminate.
  destruct (verifyPassword _ _ _ _) as [[|]|]; try discriminate.
  reflexivity.
Qed.

(** The same for the relational server. *)
Lemma api_login_200 (e : env) (body : value) (st : Api.state) (r : response) :
  (Api.login e body st).2 = Some r -> status r = 200 ->
  Api.sessions (Api.login e body st).1 =
    <[randomToken e := {| sess_username := field (or_else body (VObj [])) "username";
                          expires := now e + TOKEN_TTL_MS |}]> (Api.sessions st).
Proof.
  unfold Api.login, Api.finish. intros Hr Hs. unfold_outcome.
  repeat (case_match; simplify_eq/=); try done.
Qed.

End Login.

(** A session that expires at [t] resolves at every time up to and
    including [t], and is evicted by the first check after [t]. *)
Lemma getAuth_expiry (ss : session_map) (token : string) (u : value) (t t' : Z) :
  token <> "" ->
  ss !! token = Some {| sess_username := u; expires := t |} ->
  (t' <= t -> getAuth (bearer token) t' ss = (Some u, ss)) /\
  (t < t' -> getAuth (bearer token) t' ss = (None, delete token ss)).
Proof.
  intros Hne Hs. rewrite (getAuth_known _ _ _ _ Hne Hs). cbn [expires sess_username].
  split; intros Ht; destruct (Z.ltb_spec t t'); first [done | lia].
Qed.

(** A token that is no longer in the map does not resolve. *)
Lemma getAuth_evicted (ss : session_map) (token : string) (t' : Z) :
  ss !! token = None ->
  getAuth (bearer token) t' ss = (None, delete token ss).
Proof.
  intros Hs. rewrite (delete_id _ _ Hs). unfold getAuth.
  destruct (bearer_token (bearer token)) as [tok|] eqn:Hb; [|done].
  assert (tok = token) as ->; [|by rewrite Hs].
  unfold bearer_token, bearer in Hb. rewrite strip_prefix_app in Hb.
  destruct token; by simplify_eq.
Qed.

(** The session map after [getAuth]: as it was, or without an expired
    session. *)
Lemma getAuth_map (a : string) (t : Z) (ss : session_map) :
  (getAuth a t ss).2 = ss \/
  exists token sess,
    ss !! token = Some sess /\ expires sess < t /\ (getAuth a t ss).2 = delete token ss.
Proof.
  unfold getAuth. destruct (bearer_token a) as [token|]; [|by left].
  destruct (ss !! token) as [sess|] eqn:Hs; [|by left].
  destruct (Z.ltb_spec (expires sess) t); [|by left].
  right. by exists token, sess.
Qed.

Lemma getAuth_issued_or_gone (a token : string) (sess : session) (t : Z)
    (ss : session_map) :
  issued_or_gone token sess ss -> issued_or_gone token sess (getAuth a t ss).2.
Proof.
  intros Hi. destruct (getAuth_map a t ss) as [->|(tok & s' & _ & _ & ->)]; [done|].
  destruct (decide (tok = token)) as [->|Hne].
  - right. apply lookup_delete_eq.
  - unfold issued_or_gone. by rewrite lookup_delete_ne.
Qed.

(** A check at a time up to its expiry leaves a session in the map. *)
Lemma getAuth_keeps (a token : string) (sess : session) (t : Z) (ss : session_map) :
  ss !! token = Some sess -> t <= expires sess ->
  (getAuth a t ss).2 !! token = Some sess.
Proof.
  intros Hs Ht. destruct (getAuth_map a t ss) as [->|(tok & s' & Hs' & Hexp & ->)];
    [done|].
  rewrite lookup_delete_ne; [done|]. intros ->. simplify_eq. lia.
Qed.

Section Steps.
Context `{Platform}.

Lemma file_with_auth_sessions (e : env) (a : string) (st : FileServer.state)
    (k : value -> FileServer.state -> FileServer.state * response) :
  (forall u st', FileServer.sessions (k u st').1 = FileServer.sessions st') ->
  FileServer.sessions (FileServer.with_auth e a st k).1
  = (getAuth a (now e) (FileServer.sessions st)).2.
Proof.
  intros Hk. unfold FileServer.with_auth.
  destruct (getAuth _ _ _) as [[u|] ss]; [|done]. by rewrite Hk.
Qed.

Lemma file_sessions_ensureUserVault (key : string) (st : FileServer.state) :
  FileServer.sessions (FileServer.ensureUserVault key st) = FileServer.sessions st.
Proof. unfold FileServer.ensureUserVault. by destruct (_ !! _). Qed.

(** What a request of the file-backed server does to the session map:
    nothing, a [getAuth], or the insertion of the token of a login. *)
Lemma file_sessions_step (e : env) (r : request) (st : FileServer.state) :
  let ss := FileServer.sessions st in
  let ss' := FileServer.sessions (FileServer.handle e r st).1 in
  ss' = ss \/ (exists a, ss' = (getAuth a (now e) ss).2)
  \/ (exists sess, ss' = <[randomToken e := sess]> ss).
Proof.
  destruct r as [b|b|a|a|a b|a i b|a i|a|a b|a n|a]; cbn [FileServer.handle].
  - left. unfold FileServer.register.
    repeat case_match; cbn [fst]; by rewrite ?file_sessions_ensureUserVault.
  - unfold FileServer.login. repeat case_match; cbn [fst]; eauto.
  - right. left. exists a. by apply file_with_auth_sessions.
  - right. left. exists a. apply file_with_auth_sessions. intros ??.
    unfold FileServer.loadEntries. cbn. apply file_sessions_ensureUserVault.
  - right. left. exists a. apply file_with_auth_sessions. intros ??.
    unfold FileServer.loadEntries. repeat case_match; cbn;
      by rewrite ?file_sessions_ensureUserVault.
  - right. left. exists a. apply file_with_auth_sessions. intros ??.
    unfold FileServer.loadEntries. cbn. apply file_sessions_ensureUserVault.
  - right. left. exists a. apply file_with_auth_sessions. intros ??.
    unfold FileServer.loadEntries. cbn. apply file_sessions_ensureUserVault.
  - right. left. exists a. apply file_with_auth_sessions. intros ??.
    unfold FileServer.loadEntries. cbn. apply file_sessions_ensureUserVault.
  - right. left. exists a. apply file_with_auth_sessions. intros ??.
    unfold FileServer.loadEntries. repeat case_match; cbn;
      by rewrite ?file_sessions_ensureUserVault.
  - right. left. exists a. apply file_with_auth_sessions. intros ??.
    unfold FileServer.loadEntries. cbn. apply file_sessions_ensureUserVault.
  - right. left. exists a. apply file_with_auth_sessions. intros ??.
    unfold FileServer.loadEntries. cbn. apply file_sessions_ensureUserVault.
Qed.

Lemma api_with_auth_sessions (e : env) (a : string) (st : Api.state)
    (k : value -> Api.state -> Api.state * option response) :
  (forall u st', Api.sessions (k u st').1 = Api.sessions st') ->
  Api.sessions (Api.with_auth e a st k).1 = (getAuth a (now e) (Api.sessions st)).2.
Proof.
  intros Hk. unfold Api.with_auth.
  destruct (getAuth _ _ _) as [[u|] ss]; [|done]. by rewrite Hk.
Qed.

(** The same for the relational server. *)
Lemma api_sessions_step (e : env) (r : request) (st : Api.state) :
  let ss := Api.sessions st in
  let ss' := Api.sessions (Api.handle e r st).1 in
  ss' = ss \/ (exists a, ss' = (getAuth a (now e) ss).2)
  \/ (exists sess, ss' = <[randomToken e := sess]> ss).
Proof.
  destruct r as [b|b|a|a|a b|a i b|a i|a|a b|a n|a]; cbn [Api.handle];
    try (right; left; exists a;
         unfold Api.me, Api.listEntries, Api.listCategories, Api.addCategory,
           Api.deleteCategory, Api.addEntry, Api.bind_entry, Api.updateEntry,
           Api.deleteEntry, Api.export;
         apply api_with_auth_sessions; intros ??; unfold Api.finish; unfold_outcome;
         by repeat (case_match; simplify_eq/=)).
  - left. unfold Api.register. by repeat case_match.
  - unfold Api.login, Api.finish. unfold_outcome.
    repeat (case_match; simplify_eq/=); eauto.
Qed.

Lemma file_run_issued_or_gone (token : string) (sess : session) (t' : Z)
    (rs : list (env * request)) (st : FileServer.state) :
  may_follow token t' rs ->
  issued_or_gone token sess (FileServer.sessions st) ->
  issued_or_gone token sess (FileServer.sessions (FileServer.run rs st).1).
Proof.
  revert st. induction rs as [|[e r] rs IH]; intros st Hrs Hi; [done|].
  apply Forall_cons in Hrs as [[Htok _] Hrs]. cbn [FileServer.run fst] in *.
  destruct (FileServer.handle e r st) as [st1 resp] eqn:Hh.
  specialize (IH st1 Hrs). destruct (FileServer.run rs st1) as [st2 resps].
  apply IH. replace st1 with (FileServer.handle e r st).1 by by rewrite Hh.
  destruct (file_sessions_step e r st) as [->|[[a ->]|[s' ->]]]; [done| |].
  - by apply getAuth_issued_or_gone.
  - unfold issued_or_gone. by rewrite lookup_insert_ne.
Qed.

Lemma file_run_keeps (token : string) (sess : session) (t' : Z)
    (rs : list (env * request)) (st : FileServer.state) :
  may_follow token t' rs -> t' <= expires sess ->
  FileServer.sessions st !! token = Some sess ->
  FileServer.sessions (FileServer.run rs st).1 !! token = Some sess.
Proof.
  revert st. induction rs as [|[e r] rs IH]; intros st Hrs Ht Hs; [done|].
  apply Forall_cons in Hrs as [[Htok Hnow] Hrs]. cbn [FileServer.run fst] in *.
  destruct (FileServer.handle e r st) as [st1 resp] eqn:Hh.
  specialize (IH st1 Hrs Ht). destruct (FileServer.run rs st1) as [st2 resps].
  apply IH. replace st1 with (FileServer.handle e r st).1 by by rewrite Hh.
  destruct (file_sessions_step e r st) as [->|[[a ->]|[s' ->]]]; [done| |].
  - apply getAuth_keeps; [done|lia].
  - by rewrite lookup_insert_ne.
Qed.

Lemma api_run_issued_or_gone (token : string) (sess : session) (t' : Z)
    (rs : list (env * request)) (st : Api.state) :
  may_follow token t' rs ->
  issued_or_gone token sess (Api.sessions st) ->
  issued_or_gone token sess (Api.sessions (Api.run rs st).1).
Proof.
  revert st. induction rs as [|[e r] rs IH]; intros st Hrs Hi; [done|].
  apply Forall_cons in Hrs as [[Htok _] Hrs]. cbn [Api.run fst] in *.
  destruct (Api.handle e r st) as [st1 resp] eqn:Hh.
  specialize (IH st1 Hrs). destruct (Api.run rs st1) as [st2 resps].
  apply IH. replace st1 with (Api.handle e r st).1 by by rewrite Hh.
  destruct (api_sessions_step e r st) as [->|[[a ->]|[s' ->]]]; [done| |].
  - by apply getAuth_issued_or_gone.
  - unfold issued_or_gone. by rewrite lookup_insert_ne.
Qed.

Lemma api_run_keeps (token : string) (sess : session) (t' : Z)
    (rs : list (env * request)) (st : Api.state) :
  may_follow token t' rs -> t' <= expires sess ->
  Api.sessions st !! token = Some sess ->
  Api.sessions (Api.run rs st).1 !! token = Some sess.
Proof.
  revert st. induction rs as [|[e r] rs IH]; intros st Hrs Ht Hs; [done|].
  apply Forall_cons in Hrs as [[Htok Hnow] Hrs]. cbn [Api.run fst] in *.
  destruct (Api.handle e r st) as [st1 resp] eqn:Hh.
  specialize (IH st1 Hrs Ht). destruct (Api.run rs st1) as [st2 resps].
  apply IH. replace st1 with (Api.handle e r st).1 by by rewrite Hh.
  destruct (api_sessions_step e r st) as [->|[[a ->]|[s' ->]]]; [done| |].
  - apply getAuth_keeps; [done|lia].
  - by rewrite lookup_insert_ne.
Qed.

End Steps.

(** The check at time [t'] of a session issued with expiry [t], whatever
    happened to the map in between. *)
Lemma getAuth_after (ss : session_map) (token : string) (u : value) (t t' : Z) :
  token <> "" ->
  let sess := {| sess_username := u; expires := t |} in
  (t' <= t -> ss !! token = Some sess -> getAuth (bearer token) t' ss = (Some u, ss)) /\
  (t < t' -> issued_or_gone token sess ss ->
   getAuth (bearer token) t' ss = (None, delete token ss)).
Proof.
  intros Hne sess. split.
  - intros Ht Hs. by apply (getAuth_expiry ss token u t t' Hne Hs).
  - intros Ht [Hs|Hs]; [|by apply getAuth_evicted].
    by apply (getAuth_expiry ss token u t t' Hne Hs).
Qed.

End SessionFacts.

(** ** Session expiry (claim C5) *)

(** C5, as amended: a session token issued by a login at time [t] (a login
    that answers 200, of either server) resolves to the identity of the
    login at every check at a time [t' <= t + 24h], and fails at every
    check at a time [t' > t + 24h], which evicts the session from the
    map if it is still there. The check may come after any requests [rs]
    made in between, none of them a login that draws the same token. *)
Theorem C5_session_expiry `{Shared.Platform} (e : Shared.env) (body : JS.value)
    (fs : FileServer.state) (db : Api.state) (rs : list (Shared.env * Shared.request))
    (t' : Z) :
  Shared.randomToken e <> "" ->
  Examples.may_follow (Shared.randomToken e) t' rs ->
  let token := Shared.randomToken e in
  let identity := JS.field (JS.or_else body (JS.VObj [])) "username" in
  let t := Shared.now e in
  (Shared.status (FileServer.login e body fs).2 = 200 ->
   let ss := FileServer.sessions (FileServer.run rs (FileServer.login e body fs).1).1 in
   (t' <= t + 24 * 60 * 60 * 1000 ->
    Shared.getAuth (Examples.bearer token) t' ss = (Some identity, ss)) /\
   (t + 24 * 60 * 60 * 1000 < t' ->
    Shared.getAuth (Examples.bearer token) t' ss = (None, delete token ss))) /\
  (forall r, (Api.login e body db).2 = Some r -> Shared.status r = 200 ->
   let ss := Api.sessions (Api.run rs (Api.login e body db).1).1 in
   (t' <= t + 24 * 60 * 60 * 1000 ->
    Shared.getAuth (Examples.bearer token) t' ss = (Some identity, ss)) /\
   (t + 24 * 60 * 60 * 1000 < t' ->
    Shared.getAuth (Examples.bearer token) t' ss = (None, delete token ss))).
Proof.
  intros Hne Hrs token identity t.
  pose (sess := {| Shared.sess_username := identity;
                   Shared.expires := t + Shared.TOKEN_TTL_MS |}).
  destruct (SessionFacts.getAuth_after
              (FileServer.sessions (FileServer.run rs (FileServer.login e body fs).1).1)
              token identity (t + Shared.TOKEN_TTL_MS) t' Hne) as [Hf1 Hf2].
  destruct (SessionFacts.getAuth_after
              (Api.sessions (Api.run rs (Api.login e body db).1).1)
              token identity (t + Shared.TOKEN_TTL_MS) t' Hne) as [Ha1 Ha2].
  split.
  - intros H200 ss.
    assert (Hs : FileServer.sessions (FileServer.login e body fs).1 !! token = Some sess).
    { rewrite (SessionFacts.file_login_200 _ _ _ H200). apply lookup_insert_eq. }
    split; intros Ht.
    + apply Hf1; [done|]. by apply (SessionFacts.file_run_keeps token sess t').
    + apply Hf2; [done|].
      apply (SessionFacts.file_run_issued_or_gone token sess t'); [done|by left].
  - intros r Hr H200 ss.
    assert (Hs : Api.sessions (Api.login e body db).1 !! token = Some sess).
    { rewrite (SessionFacts.api_login_200 _ _ _ _ Hr H200). apply lookup_insert_eq. }
    split; intros Ht.
    + apply Ha1; [done|]. by apply (SessionFacts.api_run_keeps token sess t').
    + apply Ha2; [done|].
      apply (SessionFacts.api_run_issued_or_gone token sess t'); [done|by left].
Qed.

(** Alice's token [t0], issued at time 2000, resolves at time 5000 on
    both servers, after she listed her entries at time 4000. *)
Lemma C5_session_expiry_witness :
  let rs := [(Examples.env_later, Shared.ListEntries (Examples.bearer "t0"))] in
  let fss := FileServer.sessions (FileServer.run (H := Examples.sample_platform) rs
                                    Examples.file_session).1 in
  let dbs := Api.sessions (Api.run (H := Examples.sample_platform) rs
                             Examples.api_session).1 in
  Shared.randomToken Examples.env_login <> "" /\
  Examples.may_follow (Shared.randomToken Examples.env_login) 5000 rs /\
  Shared.getAuth (Examples.bearer "t0") 5000 fss = (Some (JS.VStr "alice"), fss) /\
  Shared.getAuth (Examples.bearer "t0") 5000 dbs = (Some (JS.VStr "alice"), dbs).
Proof.
  intros rs fss dbs.
  assert (Hne : Shared.randomToken Examples.env_login <> "") by discriminate.
  assert (Hrs : Examples.may_follow (Shared.randomToken Examples.env_login) 5000 rs).
  { apply Forall_cons. split; [|apply Forall_nil_2].
    split; [discriminate|]. vm_compute. discriminate. }
  destruct (C5_session_expiry (H := Examples.sample_platform) Examples.env_login
              (Examples.credentials "alice" "secret1")
              Examples.file_alice Examples.api_alice rs 5000 Hne Hrs) as [Hf Ha].
  split; [exact Hne|]. split; [exact Hrs|]. split.
  - apply Hf; [vm_compute; reflexivity | vm_compute; discriminate].
  - eapply Ha; [vm_compute; reflexivity | vm_compute; reflexivity
               | vm_compute; discriminate].
Defined.

(** C5 as stated fails at the boundary: Alice's token, issued at time
    [t = 2000], still resolves at the check at time [t + 24h], on both
    servers; [getAuth] tests [sess.expires < Date.now()]. *)
Lemma C5_counterexample :
  let t := Shared.now Examples.env_login in
  let token := Shared.randomToken Examples.env_login in
  Shared.status (FileServer.login (H := Examples.sample_platform) Examples.env_login
                   (Examples.credentials "alice" "secret1") Examples.file_alice).2 = 200 /\
  t + 24 * 60 * 60 * 1000 >= t + 24 * 60 * 60 * 1000 /\
  Shared.getAuth (Examples.bearer token) (t + 24 * 60 * 60 * 1000)
    (FileServer.sessions Examples.file_session)
  = (Some (JS.VStr "alice"), FileServer.sessions Examples.file_session) /\
  Shared.getAuth (Examples.bearer token) (t + 24 * 60 * 60 * 1000)
    (Api.sessions Examples.api_session)
  = (Some (JS.VStr "alice"), Api.sessions Examples.api_session).
Proof. vm_compute. repeat split; congruence. Qed.

(** ** Registration and login *)

Module CredentialFacts.
Import JS Shared Examples SharedFacts SessionFacts.

Lemma is_user_char_not_zero (c : ascii) : is_user_char c = true -> c <> Ascii.zero.
Proof. intros Hc ->. discriminate. Qed.

(** A name of the class [[a-zA-Z0-9._-]] holds no character of code zero. *)
Lemma all_chars_no_nul (s : string) :
  all_chars is_user_char s = true -> Api.has_nul s = false.
Proof.
  induction s as [|c s IH]; [done|]. cbn [all_chars Api.has_nul].
  intros [Hc Hs]%andb_prop. rewrite (IH Hs), orb_false_r.
  apply Ascii.eqb_neq. by apply is_user_char_not_zero.
Qed.

Lemma isValidUser_no_nul (u : string) :
  isValidUser (VStr u) = true -> Api.has_nul u = false.
Proof.
  cbn [isValidUser]. intros [[Hc _]%andb_prop _]%andb_prop. by apply all_chars_no_nul.
Qed.

Section Credentials.
Context `{Platform}.

(** *** The file-backed server *)

Lemma file_register_new (e : env) (u p : string) (st : FileServer.state) :
  isValidUser (VStr u) = true -> isValidPassword (VStr p) = true ->
  FileServer.users_get (FileServer.users st) u = FileServer.Unset ->
  FileServer.register e (credentials u p) st =
    (FileServer.ensureUserVault u
       (FileServer.set_users <[u := file_record e p]> st),
     sendJson 201 ok_true).
Proof.
  intros Hu Hp Hget. unfold FileServer.register.
  change (field (or_else (credentials u p) (VObj [])) "username") with (VStr u).
  change (field (or_else (credentials u p) (VObj [])) "password") with (VStr p).
  rewrite Hu, Hp. cbn [negb orb to_string]. rewrite Hget. reflexivity.
Qed.

(** Registering a name for which [users[name]] finds something changes
    nothing; the answer is 409 when both credentials are well formed and
    400 otherwise. *)
Lemma file_register_taken (e : env) (u p : string) (st : FileServer.state) :
  FileServer.users_get (FileServer.users st) u <> FileServer.Unset ->
  FileServer.register e (credentials u p) st =
    (st, if isValidUser (VStr u) && isValidPassword (VStr p)
         then sendJson 409 (error "User exists")
         else sendJson 400 (error "Invalid username or password")).
Proof.
  intros Hget. unfold FileServer.register.
  change (field (or_else (credentials u p) (VObj [])) "username") with (VStr u).
  change (field (or_else (credentials u p) (VObj [])) "password") with (VStr p).
  destruct (isValidUser (VStr u)), (isValidPassword (VStr p)); cbn [negb orb andb];
    try reflexivity.
  cbn [to_string]. by destruct (FileServer.users_get _ u).
Qed.

Lemma file_users_get_own (us : gmap string FileServer.user_rec) (u : string)
    (urec : FileServer.user_rec) :
  us !! u = Some urec -> FileServer.users_get us u = FileServer.Own urec.
Proof. unfold FileServer.users_get. by intros ->. Qed.

(** A login with the password of the record succeeds. *)
Lemma file_login_ok (e : env) (u p : string) (st : FileServer.state)
    (urec : FileServer.user_rec) :
  FileServer.users st !! u = Some urec ->
  hashPassword (VStr p) (FileServer.salt urec) (FileServer.iterations urec)
  = Some (FileServer.hash urec) ->
  FileServer.login e (credentials u p) st =
    (FileServer.set_sessions
       (<[randomToken e := {| sess_username := VStr u; expires := now e + TOKEN_TTL_MS |}]>
          (FileServer.sessions st)) st,
     sendJson 200 (VObj [("token", VStr (randomToken e)); ("username", VStr u)])).
Proof.
  intros Hu Hh. unfold FileServer.login.
  change (field (or_else (credentials u p) (VObj [])) "username") with (VStr u).
  change (field (or_else (credentials u p) (VObj [])) "password") with (VStr p).
  cbn [to_string]. rewrite (file_users_get_own _ _ _ Hu).
  by rewrite (verifyPassword_stored _ _ _ _ Hh).
Qed.

(** A login with a password whose derived key differs is refused. *)
Lemma file_login_wrong (e : env) (u p p' : string) (st : FileServer.state)
    (salt : string) (iterations : Z) (created : string) :
  FileServer.users st !! u
  = Some {| FileServer.salt := salt;
            FileServer.hash := to_hex (pbkdf2Sync p salt iterations 32);
            FileServer.iterations := iterations;
            FileServer.createdAt := created |} ->
  1 <= iterations <= MAX_ITERATIONS ->
  pbkdf2Sync p' salt iterations 32 <> pbkdf2Sync p salt iterations 32 ->
  FileServer.login e (credentials u p') st
  = (st, sendJson 401 (error "Invalid credentials")).
Proof.
  intros Hu Hit Hne. unfold FileServer.login.
  change (field (or_else (credentials u p') (VObj [])) "username") with (VStr u).
  change (field (or_else (credentials u p') (VObj [])) "password") with (VStr p').
  cbn [to_string]. rewrite (file_users_get_own _ _ _ Hu).
  cbn [FileServer.salt FileServer.hash FileServer.iterations].
  by rewrite (verifyPassword_other _ _ _ _ Hit Hne).
Qed.

(** A login under a name for which [users[name]] is [undefined]. *)
Lemma file_login_unknown (e : env) (u p : string) (st : FileServer.state) :
  FileServer.users_get (FileServer.users st) u = FileServer.Unset ->
  FileServer.login e (credentials u p) st
  = (st, sendJson 401 (error "Invalid credentials")).
Proof.
  intros Hget. unfold FileServer.login.
  change (field (or_else (credentials u p) (VObj [])) "username") with (VStr u).
  cbn [to_string]. by rewrite Hget.
Qed.

(** *** The relational server *)

Lemma api_register_new (e : env) (u p : string) (st : Api.state) :
  isValidUser (VStr u) = true -> isValidPassword (VStr p) = true ->
  Api.pool st = true -> Api.users st !! u = None ->
  Api.register e (credentials u p) st =
    (Api.set_users <[u := api_record e p]> st, Some (sendJson 201 ok_true)).
Proof.
  intros Hu Hp Hpool Hget. unfold Api.register.
  change (field (or_else (credentials u p) (VObj [])) "username") with (VStr u).
  change (field (or_else (credentials u p) (VObj [])) "password") with (VStr p).
  rewrite Hu, Hp, Hpool. cbn [negb orb to_string]. rewrite Hget. reflexivity.
Qed.

Lemma api_register_taken (e : env) (u p : string) (st : Api.state) :
  Api.pool st = true -> is_Some (Api.users st !! u) ->
  Api.register e (credentials u p) st =
    (st, Some (if isValidUser (VStr u) && isValidPassword (VStr p)
               then sendJson 409 (error "User exists")
               else sendJson 400 (error "Invalid username or password"))).
Proof.
  intros Hpool [row Hrow]. unfold Api.register.
  change (field (or_else (credentials u p) (VObj [])) "username") with (VStr u).
  change (field (or_else (credentials u p) (VObj [])) "password") with (VStr p).
  destruct (isValidUser (VStr u)), (isValidPassword (VStr p)); cbn [negb orb andb];
    try reflexivity.
  rewrite Hpool. cbn [negb to_string]. by rewrite Hrow.
Qed.

Lemma api_login_ok (e : env) (u p : string) (st : Api.state) (row : Api.user_row) :
  Api.pool st = true -> Api.has_nul u = false ->
  Api.users st !! u = Some row ->
  hashPassword (VStr p) (Api.salt row) (Api.iterations row) = Some (Api.hash row) ->
  Api.login e (credentials u p) st =
    (Api.set_sessions
       (<[randomToken e := {| sess_username := VStr u; expires := now e + TOKEN_TTL_MS |}]>
          (Api.sessions st)) st,
     Some (sendJson 200 (VObj [("token", VStr (randomToken e)); ("username", VStr u)]))).
Proof.
  intros Hpool Hnul Hu Hh. unfold Api.login.
  change (field (or_else (credentials u p) (VObj [])) "username") with (VStr u).
  change (field (or_else (credentials u p) (VObj [])) "password") with (VStr p).
  rewrite Hpool. cbn [negb Api.bind_text]. rewrite Hnul. unfold_outcome.
  cbn [option_bind]. rewrite Hu.
  by rewrite (verifyPassword_stored _ _ _ _ Hh).
Qed.

Lemma api_login_wrong (e : env) (u p p' : string) (st : Api.state)
    (salt : string) (iterations created : Z) :
  Api.pool st = true -> Api.has_nul u = false ->
  Api.users st !! u
  = Some {| Api.salt := salt;
            Api.hash := to_hex (pbkdf2Sync p salt iterations 32);
            Api.iterations := iterations;
            Api.user_created_at := created |} ->
  1 <= iterations <= MAX_ITERATIONS ->
  pbkdf2Sync p' salt iterations 32 <> pbkdf2Sync p salt iterations 32 ->
  Api.login e (credentials u p') st
  = (st, Some (sendJson 401 (error "Invalid credentials"))).
Proof.
  intros Hpool Hnul Hu Hit Hne. unfold Api.login.
  change (field (or_else (credentials u p') (VObj [])) "username") with (VStr u).
  change (field (or_else (credentials u p') (VObj [])) "password") with (VStr p').
  rewrite Hpool. cbn [negb Api.bind_text]. rewrite Hnul. unfold_outcome.
  cbn [option_bind]. rewrite Hu. cbn [Api.salt Api.hash Api.iterations].
  by rewrite (verifyPassword_other _ _ _ _ Hit Hne).
Qed.

Lemma api_login_unknown (e : env) (u p : string) (st : Api.state) :
  Api.pool st = true -> Api.has_nul u = false -> Api.users st !! u = None ->
  Api.login e (credentials u p) st
  = (st, Some (sendJson 401 (error "Invalid credentials"))).
Proof.
  intros Hpool Hnul Hu. unfold Api.login.
  change (field (or_else (credentials u p) (VObj [])) "username") with (VStr u).
  rewrite Hpool. cbn [negb Api.bind_text]. rewrite Hnul. unfold_outcome.
  cbn [option_bind]. by rewrite Hu.
Qed.

End Credentials.

End CredentialFacts.

(** ** The user store *)

Module UserStoreFacts.
Import JS Shared Examples SharedFacts SessionFacts CredentialFacts.

Section UserStore.
Context `{Platform}.

Lemma file_users_ensureUserVault (key : string) (st : FileServer.state) :
  FileServer.users (FileServer.ensureUserVault key st) = FileServer.users st.
Proof. unfold FileServer.ensureUserVault. by destruct (_ !! _). Qed.

Lemma file_with_auth_users (e : env) (a : string) (st : FileServer.state)
    (k : value -> FileServer.state -> FileServer.state * response) :
  (forall username st', FileServer.users (k username st').1 = FileServer.users st') ->
  FileServer.users (FileServer.with_auth e a st k).1 = FileServer.users st.
Proof.
  intros Hk. unfold FileServer.with_auth.
  destruct (getAuth _ _ _) as [[username|] ss]; [|done]. by rewrite Hk.
Qed.

(** No request of the file-backed server removes or rewrites a record of
    [users.json]. *)
Lemma file_user_kept (e : env) (r : request) (st : FileServer.state) (u : string) :
  is_Some (FileServer.users st !! u) ->
  FileServer.users (FileServer.handle e r st).1 !! u = FileServer.users st !! u.
Proof.
  intros [urec Hu]. destruct r; cbn [FileServer.handle];
    try (unfold FileServer.me, FileServer.listEntries, FileServer.listCategories,
           FileServer.addCategory, FileServer.deleteCategory, FileServer.addEntry,
           FileServer.updateEntry, FileServer.deleteEntry, FileServer.export;
         rewrite file_with_auth_users; [done|];
         intros ??; unfold FileServer.loadEntries, FileServer.saveEntries;
         repeat case_match; cbn; by rewrite ?file_users_ensureUserVault).
  - unfold FileServer.register, FileServer.users_get.
    repeat case_match; try done; simplify_eq. cbn [fst].
    rewrite file_users_ensureUserVault. cbn.
    apply lookup_insert_ne. congruence.
  - unfold FileServer.login. by repeat case_match.
Qed.

Lemma api_with_auth_users (e : env) (a : string) (st : Api.state)
    (k : value -> Api.state -> Api.state * option response) :
  (forall username st', Api.users (k username st').1 = Api.users st') ->
  Api.users (Api.with_auth e a st k).1 = Api.users st.
Proof.
  intros Hk. unfold Api.with_auth.
  destruct (getAuth _ _ _) as [[username|] ss]; [|done]. by rewrite Hk.
Qed.

(** Nor does a request of the relational server touch a row of [users]. *)
Lemma api_user_kept (e : env) (r : request) (st : Api.state) (u : string) :
  is_Some (Api.users st !! u) ->
  Api.users (Api.handle e r st).1 !! u = Api.users st !! u.
Proof.
  intros [urec Hu]. destruct r; cbn [Api.handle];
    try (unfold Api.me, Api.listEntries, Api.listCategories,
           Api.addCategory, Api.deleteCategory, Api.addEntry, Api.bind_entry,
           Api.updateEntry, Api.deleteEntry, Api.export;
         rewrite api_with_auth_users; [done|];
         intros ??; unfold Api.finish; unfold_outcome;
         by repeat (case_match; simplify_eq/=)).
  - unfold Api.register.
    repeat case_match; try done; simplify_eq. cbn.
    apply lookup_insert_ne. congruence.
  - unfold Api.login, Api.finish. unfold_outcome.
    by repeat (case_match; simplify_eq/=).
Qed.

(** A registration that the file-backed server answers 201 has written
    the record of its username. *)
Lemma file_register_201 (e : env) (body : value) (st : FileServer.state) (u : string) :
  is_str (field (or_else body (VObj [])) "username") u = true ->
  status (FileServer.register e body st).2 = 201 ->
  FileServer.users_get (FileServer.users st) u = FileServer.Unset /\
  is_Some (FileServer.users (FileServer.register e body st).1 !! u).
Proof.
  unfold FileServer.register.
  destruct (field (or_else body (VObj [])) "username") as [| | | |s| |]; try done.
  cbn [is_str]. intros ->%String.eqb_eq. cbn [to_string].
  destruct (_ || _); [discriminate|].
  destruct (FileServer.users_get _ u); try discriminate.
  destruct (hashPassword _ _ _); [|discriminate]. intros _. split; [done|].
  cbn [fst]. rewrite file_users_ensureUserVault. cbn. rewrite lookup_insert_eq. eauto.
Qed.

Lemma file_users_get_set (us : gmap string FileServer.user_rec) (u : string) :
  is_Some (us !! u) -> FileServer.users_get us u <> FileServer.Unset.
Proof. intros [urec Hu]. unfold FileServer.users_get. by rewrite Hu. Qed.

(** Once the record of [u] exists, no run answers a registration under
    [u] with 201. *)
Lemma file_registered_none (u : string) (rs : list (env * request))
    (st : FileServer.state) :
  is_Some (FileServer.users st !! u) ->
  registered u rs (Some <$> (FileServer.run rs st).2) = 0%nat.
Proof.
  revert st. induction rs as [|[e r] rs IH]; intros st Hu; [done|].
  cbn [FileServer.run].
  destruct (FileServer.handle e r st) as [st1 resp] eqn:Hh.
  destruct (FileServer.run rs st1) as [st2 resps] eqn:Hr.
  cbn [snd fmap list_fmap registered].
  assert (Hu1 : is_Some (FileServer.users st1 !! u)).
  { replace st1 with (FileServer.handle e r st).1 by by rewrite Hh.
    by rewrite file_user_kept. }
  specialize (IH st1 Hu1). rewrite Hr in IH. cbn [snd] in IH.
  change (list_fmap _ _ Some resps) with (Some <$> resps). rewrite IH.
  destruct (registers u r) eqn:Hreg; [|done]. cbn [andb].
  case_bool_decide as H201; [|done]. exfalso.
  destruct r as [b| | | | | | | | | |]; try discriminate. cbn [registers FileServer.handle] in *.
  injection H201 as H201.
  replace resp with (FileServer.register e b st).2 in H201 by by rewrite Hh.
  destruct (file_register_201 _ _ _ _ Hreg H201) as [Hun _].
  by apply (file_users_get_set _ _ Hu).
Qed.

(** At most one registration under [u] is ever answered 201. *)
Lemma file_registered_once (u : string) (rs : list (env * request))
    (st : FileServer.state) :
  (registered u rs (Some <$> (FileServer.run rs st).2) <= 1)%nat.
Proof.
  revert st. induction rs as [|[e r] rs IH]; intros st; [cbn; lia|].
  cbn [FileServer.run].
  destruct (FileServer.handle e r st) as [st1 resp] eqn:Hh.
  destruct (FileServer.run rs st1) as [st2 resps] eqn:Hr.
  cbn [snd fmap list_fmap registered].
  change (list_fmap _ _ Some resps) with (Some <$> resps).
  destruct (registers u r) eqn:Hreg; cbn [andb];
    [|specialize (IH st1); rewrite Hr in IH; exact IH].
  case_bool_decide as H201; [|specialize (IH st1); rewrite Hr in IH; exact IH].
  destruct r as [b| | | | | | | | | |]; try discriminate. cbn [registers FileServer.handle] in *.
  injection H201 as H201.
  replace resp with (FileServer.register e b st).2 in H201 by by rewrite Hh.
  destruct (file_register_201 _ _ _ _ Hreg H201) as [_ Hu1].
  rewrite Hh in Hu1. cbn [fst] in Hu1.
  pose proof (file_registered_none u rs st1 Hu1) as Hnone.
  rewrite Hr in Hnone. cbn [snd] in Hnone. rewrite Hnone. lia.
Qed.

(** The same for the relational server. *)
Lemma api_register_201 (e : env) (body : value) (st : Api.state) (u : string) :
  is_str (field (or_else body (VObj [])) "username") u = true ->
  status <$> (Api.register e body st).2 = Some 201 ->
  Api.users st !! u = None /\
  is_Some (Api.users (Api.register e body st).1 !! u).
Proof.
  unfold Api.register.
  destruct (field (or_else body (VObj [])) "username") as [| | | |s| |]; try done.
  cbn [is_str]. intros ->%String.eqb_eq. cbn [to_string].
  destruct (_ || _); [discriminate|].
  destruct (negb _); [discriminate|].
  destruct (Api.users st !! u) eqn:Hu; [discriminate|].
  destruct (hashPassword _ _ _); [|discriminate]. intros _. split; [done|].
  cbn. rewrite lookup_insert_eq. eauto.
Qed.

Lemma api_registered_none (u : string) (rs : list (env * request)) (st : Api.state) :
  is_Some (Api.users st !! u) ->
  registered u rs (Api.run rs st).2 = 0%nat.
Proof.
  revert st. induction rs as [|[e r] rs IH]; intros st Hu; [done|].
  cbn [Api.run].
  destruct (Api.handle e r st) as [st1 resp] eqn:Hh.
  destruct (Api.run rs st1) as [st2 resps] eqn:Hr.
  cbn [snd registered].
  assert (Hu1 : is_Some (Api.users st1 !! u)).
  { replace st1 with (Api.handle e r st).1 by by rewrite Hh.
    by rewrite api_user_kept. }
  specialize (IH st1 Hu1). rewrite Hr in IH. cbn [snd] in IH. rewrite IH.
  destruct (registers u r) eqn:Hreg; [|done]. cbn [andb].
  case_bool_decide as H201; [|done]. exfalso.
  destruct r as [b| | | | | | | | | |]; try discriminate. cbn [registers Api.handle] in *.
  replace resp with (Api.register e b st).2 in H201 by by rewrite Hh.
  destruct (api_register_201 _ _ _ _ Hreg H201) as [Hun _].
  destruct Hu as [row Hu]. congruence.
Qed.

Lemma api_registered_once (u : string) (rs : list (env * request)) (st : Api.state) :
  (registered u rs (Api.run rs st).2 <= 1)%nat.
Proof.
  revert st. induction rs as [|[e r] rs IH]; intros st; [cbn; lia|].
  cbn [Api.run].
  destruct (Api.handle e r st) as [st1 resp] eqn:Hh.
  destruct (Api.run rs st1) as [st2 resps] eqn:Hr.
  cbn [snd registered].
  destruct (registers u r) eqn:Hreg; cbn [andb];
    [|specialize (IH st1); rewrite Hr in IH; exact IH].
  case_bool_decide as H201; [|specialize (IH st1); rewrite Hr in IH; exact IH].
  destruct r as [b| | | | | | | | | |]; try discriminate. cbn [registers Api.handle] in *.
  replace resp with (Api.register e b st).2 in H201 by by rewrite Hh.
  destruct (api_register_201 _ _ _ _ Hreg H201) as [_ Hu1].
  rewrite Hh in Hu1. cbn [fst] in Hu1.
  pose proof (api_registered_none u rs st1 Hu1) as Hnone.
  rewrite Hr in Hnone. cbn [snd] in Hnone. rewrite Hnone. lia.
Qed.

End UserStore.

End UserStoreFacts.

(** ** Uniqueness of usernames (claim C3) *)

(** C3, as amended: for every username [u], at most one [register(u, _)]
    is ever answered 201, in any run from any state; once a user record
    for [u] exists, every later [register(u, p)] fails and leaves the
    store unchanged, with AlreadyExists (409 'User exists') when the
    credentials are well formed and with InvalidInput (400) when they are
    not (a password shorter than six characters is refused before the
    store is read); and no request removes or changes the record. The
    relational server is taken with its database configured. *)
Theorem C3_register_existing `{Shared.Platform} (e : Shared.env) (u p : string)
    (fs : FileServer.state) (db : Api.state) :
  is_Some (FileServer.users fs !! u) ->
  is_Some (Api.users db !! u) ->
  Api.pool db = true ->
  let answer :=
    if Shared.isValidUser (JS.VStr u) && Shared.isValidPassword (JS.VStr p)
    then Shared.sendJson 409 (Shared.error "User exists")
    else Shared.sendJson 400 (Shared.error "Invalid username or password") in
  FileServer.register e (Examples.credentials u p) fs = (fs, answer) /\
  Api.register e (Examples.credentials u p) db = (db, Some answer) /\
  (forall e' r,
     FileServer.users (FileServer.handle e' r fs).1 !! u = FileServer.users fs !! u) /\
  (forall e' r, Api.users (Api.handle e' r db).1 !! u = Api.users db !! u) /\
  (forall rs st,
     (Examples.registered u rs (Some <$> (FileServer.run rs st).2) <= 1)%nat) /\
  (forall rs st, (Examples.registered u rs (Api.run rs st).2 <= 1)%nat).
Proof.
  intros Hf Ha Hpool answer. repeat split.
  - apply CredentialFacts.file_register_taken.
    destruct Hf as [urec Hf]. by rewrite (CredentialFacts.file_users_get_own _ _ _ Hf).
  - by apply CredentialFacts.api_register_taken.
  - intros e' r. by apply UserStoreFacts.file_user_kept.
  - intros e' r. by apply UserStoreFacts.api_user_kept.
  - intros rs st. apply UserStoreFacts.file_registered_once.
  - intros rs st. apply UserStoreFacts.api_registered_once.
Qed.

(** With Alice registered, a second registration under her name with a
    well-formed password is answered 409 by both servers. *)
Lemma C3_register_existing_witness :
  is_Some (FileServer.users Examples.file_alice !! "alice") /\
  is_Some (Api.users Examples.api_alice !! "alice") /\
  Api.pool Examples.api_alice = true /\
  FileServer.register (H := Examples.sample_platform) Examples.env_login
    (Examples.credentials "alice" "secret2") Examples.file_alice
  = (Examples.file_alice, Shared.sendJson 409 (Shared.error "User exists")) /\
  Api.register (H := Examples.sample_platform) Examples.env_login
    (Examples.credentials "alice" "secret2") Examples.api_alice
  = (Examples.api_alice, Some (Shared.sendJson 409 (Shared.error "User exists"))).
Proof.
  assert (Hf : is_Some (FileServer.users Examples.file_alice !! "alice"))
    by (vm_compute; eauto).
  assert (Ha : is_Some (Api.users Examples.api_alice !! "alice"))
    by (vm_compute; eauto).
  assert (Hp : Api.pool Examples.api_alice = true) by reflexivity.
  destruct (C3_register_existing (H := Examples.sample_platform) Examples.env_login
              "alice" "secret2" Examples.file_alice Examples.api_alice Hf Ha Hp)
    as (H1 & H2 & _).
  exact (conj Hf (conj Ha (conj Hp (conj H1 H2)))).
Defined.

(** C3 as stated fails for a password that is not well formed: with Alice
    registered, [register("alice", "abc")] is answered 400 'Invalid
    username or password', not 409 'User exists', by both servers. *)
Lemma C3_counterexample :
  is_Some (FileServer.users Examples.file_alice !! "alice") /\
  is_Some (Api.users Examples.api_alice !! "alice") /\
  FileServer.register (H := Examples.sample_platform) Examples.env_login
    (Examples.credentials "alice" "abc") Examples.file_alice
  = (Examples.file_alice,
     Shared.sendJson 400 (Shared.error "Invalid username or password")) /\
  Api.register (H := Examples.sample_platform) Examples.env_login
    (Examples.credentials "alice" "abc") Examples.api_alice
  = (Examples.api_alice,
     Some (Shared.sendJson 400 (Shared.error "Invalid username or password"))).
Proof. vm_compute. repeat split; eauto. Qed.

(** ** Password round trip (claim C4) *)

Module RoundTrip.
Import JS Shared Examples CredentialFacts.

Section RoundTrip.
Context `{Platform}.

(** On the file-backed server the round trip holds for every well-formed
    username for which [users[username]] is [undefined]: the registration
    succeeds, the login with the same password then succeeds, and a login
    with a password whose derived key differs gets the answer of a login
    under a name for which [users[name]] is [undefined]. *)
Lemma file_round_trip (e1 e2 : env) (u p : string) (st : FileServer.state) :
  isValidUser (VStr u) = true -> isValidPassword (VStr p) = true ->
  FileServer.users_get (FileServer.users st) u = FileServer.Unset ->
  let registered := FileServer.register e1 (credentials u p) st in
  registered.2 = sendJson 201 ok_true /\
  (FileServer.login e2 (credentials u p) registered.1).2
  = sendJson 200 (VObj [("token", VStr (randomToken e2)); ("username", VStr u)]) /\
  (forall p',
     pbkdf2Sync p' (randomSalt e1) 120000 32 <> pbkdf2Sync p (randomSalt e1) 120000 32 ->
     FileServer.login e2 (credentials u p') registered.1
     = (registered.1, sendJson 401 (error "Invalid credentials"))) /\
  (forall u' p',
     FileServer.users_get (FileServer.users registered.1) u' = FileServer.Unset ->
     FileServer.login e2 (credentials u' p') registered.1
     = (registered.1, sendJson 401 (error "Invalid credentials"))).
Proof.
  intros Hu Hp Hget registered. unfold registered.
  rewrite (file_register_new _ _ _ _ Hu Hp Hget). cbn [fst snd].
  assert (Hrec : FileServer.users
                   (FileServer.ensureUserVault u
                      (FileServer.set_users <[u := file_record e1 p]> st)) !! u
                 = Some (file_record e1 p)).
  { rewrite UserStoreFacts.file_users_ensureUserVault. apply lookup_insert_eq. }
  repeat split.
  - by rewrite (file_login_ok _ _ p _ _ Hrec).
  - intros p' Hne. by eapply file_login_wrong.
  - intros u' p' Hget'. by apply file_login_unknown.
Qed.

(** On the relational server it holds for every well-formed username
    that is not taken. *)
Lemma api_round_trip (e1 e2 : env) (u p : string) (st : Api.state) :
  isValidUser (VStr u) = true -> isValidPassword (VStr p) = true ->
  Api.pool st = true -> Api.users st !! u = None ->
  let registered := Api.register e1 (credentials u p) st in
  registered.2 = Some (sendJson 201 ok_true) /\
  (Api.login e2 (credentials u p) registered.1).2
  = Some (sendJson 200 (VObj [("token", VStr (randomToken e2)); ("username", VStr u)])) /\
  (forall p',
     pbkdf2Sync p' (randomSalt e1) 120000 32 <> pbkdf2Sync p (randomSalt e1) 120000 32 ->
     Api.login e2 (credentials u p') registered.1
     = (registered.1, Some (sendJson 401 (error "Invalid credentials")))) /\
  (forall u' p',
     isValidUser (VStr u') = true -> Api.users registered.1 !! u' = None ->
     Api.login e2 (credentials u' p') registered.1
     = (registered.1, Some (sendJson 401 (error "Invalid credentials")))).
Proof.
  intros Hu Hp Hpool Hget registered. unfold registered.
  rewrite (api_register_new _ _ _ _ Hu Hp Hpool Hget). cbn [fst snd].
  assert (Hrec : Api.users (Api.set_users <[u := api_record e1 p]> st) !! u
                 = Some (api_record e1 p)) by apply lookup_insert_eq.
  pose proof (isValidUser_no_nul _ Hu) as Hnul.
  repeat split.
  - by rewrite (api_login_ok e2 u p (Api.set_users <[u := api_record e1 p]> st)
                  (api_record e1 p) Hpool Hnul Hrec).
  - intros p' Hne.
    by apply (api_login_wrong e2 u p p' (Api.set_users <[u := api_record e1 p]> st)
                (randomSalt e1) 120000 (current_timestamp e1)).
  - intros u' p' Hu' Hget'.
    apply (api_login_unknown e2 u' p' (Api.set_users <[u := api_record e1 p]> st));
      [done| |done].
    by apply isValidUser_no_nul.
Qed.

End RoundTrip.

End RoundTrip.

(** C4 at the failing input: ["constructor"] is a well-formed username
    that no one has registered, yet the file-backed server answers its
    registration with 409 'User exists' and its login with 500 'Server
    error' ([users] is a plain object, and [users["constructor"]] is the
    function it inherits from [Object.prototype]); the relational server
    registers the name and logs it in. *)
Theorem C4_inherited_username `{Shared.Platform} (e1 e2 : Shared.env) :
  let body := Examples.credentials "constructor" "secret1" in
  Shared.isValidUser (JS.VStr "constructor") = true /\
  FileServer.users FileServer.initial !! "constructor" = None /\
  FileServer.register e1 body FileServer.initial
  = (FileServer.initial, Shared.sendJson 409 (Shared.error "User exists")) /\
  FileServer.login e2 body FileServer.initial
  = (FileServer.initial, Shared.sendJson 500 (Shared.error "Server error")) /\
  (Api.register e1 body Api.initial).2 = Some (Shared.sendJson 201 Shared.ok_true) /\
  (Api.login e2 body (Api.register e1 body Api.initial).1).2
  = Some (Shared.sendJson 200
            (JS.VObj [("token", JS.VStr (Shared.randomToken e2));
                      ("username", JS.VStr "constructor")])).
Proof.
  intros body.
  destruct (RoundTrip.api_round_trip e1 e2 "constructor" "secret1" Api.initial)
    as (Hreg & Hlogin & _); try reflexivity.
  repeat split; try reflexivity; assumption.
Qed.

(** ** Ownership isolation (claim C1) *)

Module IsolationFacts.
Import JS Shared Examples SharedFacts SessionFacts.

Lemma json_of_text_json (o : option string) : json_of (Api.text_json o) = Api.text_json o.
Proof. by destruct o. Qed.

Lemma json_of_tags_json (ts : option (list (option string))) :
  json_of (Api.tags_json ts) = Api.tags_json ts.
Proof.
  destruct ts as [l|]; [|done]. cbn [Api.tags_json json_of]. f_equal.
  induction l as [|o l IH]; [done|]. cbn [List.map]. rewrite IH. by destruct o.
Qed.

Section Isolation.
Context `{Platform}.

(** The entry built from a row is its own JSON. *)
Lemma json_of_entry_of_row (row : Api.entry_row) :
  json_of (Api.entry_of_row row) = Api.entry_of_row row.
Proof.
  unfold Api.entry_of_row. cbn [json_of List.flat_map app].
  rewrite json_of_tags_json.
  destruct (Api.favicon_url row), (Api.note row), (Api.tags row); reflexivity.
Qed.

Lemma json_of_entries (rows : list Api.entry_row) :
  List.map (fun x => match x with VUndef => VNull | _ => json_of x end)
    (List.map Api.entry_of_row rows)
  = List.map Api.entry_of_row rows.
Proof.
  induction rows as [|row rows IH]; [done|]. cbn [List.map]. rewrite IH. f_equal.
  apply json_of_entry_of_row.
Qed.

(** *** The file-backed server *)

Lemma file_set_sessions_same (st : FileServer.state) :
  FileServer.set_sessions (FileServer.sessions st) st = st.
Proof. by destruct st. Qed.

(** An authenticated route runs its body under the identity of the
    session, on the state as it was. *)
Lemma file_with_auth_as (e : env) (a : string) (st : FileServer.state) (u : value)
    (k : value -> FileServer.state -> FileServer.state * response) :
  (getAuth a (now e) (FileServer.sessions st)).1 = Some u ->
  FileServer.with_auth e a st k = k u st.
Proof.
  intros Hg. unfold FileServer.with_auth.
  destruct (getAuth _ _ _) as [o ss] eqn:Hga. cbn in Hg. subst o.
  apply getAuth_Some in Hga as ->. by rewrite file_set_sessions_same.
Qed.

Lemma file_ensureUserVault_other (key A : string) (st : FileServer.state) :
  A <> key ->
  FileServer.vaults (FileServer.ensureUserVault key st) !! A = FileServer.vaults st !! A.
Proof.
  intros Hne. unfold FileServer.ensureUserVault.
  destruct (_ !! key); [done|]. cbn. by apply lookup_insert_ne.
Qed.

Lemma file_saveEntries_other (key A : string) (entries : list obj) (st : FileServer.state) :
  A <> key ->
  FileServer.vaults (FileServer.saveEntries key entries st) !! A
  = FileServer.vaults st !! A.
Proof. intros Hne. cbn. by apply lookup_insert_ne. Qed.

(** Listing under the identity [B] returns the vault of [B]. *)
Lemma file_list_as (e : env) (a : string) (st : FileServer.state) (B : value) :
  (getAuth a (now e) (FileServer.sessions st)).1 = Some B ->
  FileServer.listEntries e a st
  = (FileServer.ensureUserVault (to_string B) st,
     sendJson 200
       (VObj [("entries",
               FileServer.entries_json
                 (default [] (FileServer.vaults st !! to_string B)))])).
Proof.
  intros Hg. unfold FileServer.listEntries. by rewrite (file_with_auth_as _ _ _ _ _ Hg).
Qed.

(** A request under the identity [B] leaves every other vault as it was,
    whichever route it takes. *)
Lemma file_vault_frame (e : env) (r : request) (st : FileServer.state) (B : value)
    (A : string) :
  match r with
  | Register _ | Login _ => False
  | Me a | ListEntries a | AddEntry a _ | UpdateEntry a _ _ | DeleteEntry a _
  | ListCategories a | AddCategory a _ | DeleteCategory a _ | Export a =>
      (getAuth a (now e) (FileServer.sessions st)).1 = Some B
  end ->
  A <> to_string B ->
  FileServer.vaults (FileServer.handle e r st).1 !! A = FileServer.vaults st !! A.
Proof.
  intros Hg Hne. destruct r; try done; cbn [FileServer.handle];
    unfold FileServer.me, FileServer.listEntries, FileServer.listCategories,
      FileServer.addCategory, FileServer.deleteCategory, FileServer.addEntry,
      FileServer.updateEntry, FileServer.deleteEntry, FileServer.export;
    rewrite (file_with_auth_as _ _ _ _ _ Hg); unfold FileServer.loadEntries;
    repeat case_match; cbn [fst];
    rewrite ?file_saveEntries_other, ?file_ensureUserVault_other; done.
Qed.

(** *** The relational server *)

Lemma api_set_sessions_same (st : Api.state) :
  Api.set_sessions (Api.sessions st) st = st.
Proof. by destruct st. Qed.

Lemma api_with_auth_as (e : env) (a : string) (st : Api.state) (u : value)
    (k : value -> Api.state -> Api.state * option response) :
  (getAuth a (now e) (Api.sessions st)).1 = Some u ->
  Api.with_auth e a st k = k u st.
Proof.
  intros Hg. unfold Api.with_auth.
  destruct (getAuth _ _ _) as [o ss] eqn:Hga. cbn in Hg. subst o.
  apply getAuth_Some in Hga as ->. by rewrite api_set_sessions_same.
Qed.

Lemma owned_by_spec (o : string) (r : Api.entry_row) :
  Api.owned_by o r = true <-> Api.owner r = o.
Proof. unfold Api.owned_by. apply String.eqb_eq. Qed.

Lemma is_entry_owner (i o : string) (r : Api.entry_row) :
  Api.is_entry i o r = true -> Api.owner r = o.
Proof. unfold Api.is_entry. intros [_ Ho]%andb_prop. by apply String.eqb_eq. Qed.

(** [ORDER BY] returns the rows it is given. *)
Lemma in_insert_desc (r x : Api.entry_row) (rs : list Api.entry_row) :
  In x (Api.insert_desc r rs) <-> x = r \/ In x rs.
Proof.
  induction rs as [|r' rs IH]; cbn [Api.insert_desc In]; [intuition congruence|].
  destruct (_ <=? _); cbn [In]; [intuition congruence|]. rewrite IH. tauto.
Qed.

Lemma in_order_by (x : Api.entry_row) (rs : list Api.entry_row) :
  In x (Api.order_by_created_at_desc rs) <-> In x rs.
Proof.
  unfold Api.order_by_created_at_desc. induction rs as [|r rs IH]; [done|].
  cbn [foldr In]. rewrite in_insert_desc, IH. intuition congruence.
Qed.

(** The owners of the entries a listing under the identity [B] returns. *)
Lemma api_list_owners (e : env) (a : string) (st : Api.state) (B : string)
    (r : response) (v : value) :
  (getAuth a (now e) (Api.sessions st)).1 = Some (VStr B) ->
  (Api.listEntries e a st).2 = Some r ->
  v ∈ entries_of r ->
  exists row, v = Api.entry_of_row row /\ row ∈ Api.password_entries st
              /\ Api.owner row = B.
Proof.
  intros Hg Hr Hv. unfold Api.listEntries in Hr.
  rewrite (api_with_auth_as _ _ _ _ _ Hg) in Hr.
  destruct (Api.pool st); cbn [negb] in Hr;
    [|injection Hr as <-; by apply elem_of_nil in Hv].
  cbn [Api.bind_text] in Hr. unfold_outcome.
  destruct (Api.has_nul B); cbn in Hr;
    [injection Hr as <-; by apply elem_of_nil in Hv|].
  injection Hr as <-. unfold entries_of in Hv. cbn in Hv.
  rewrite json_of_entries in Hv.
  apply list_elem_of_In, in_map_iff in Hv as (row & <- & Hin).
  apply in_order_by, filter_In in Hin as [Hin Ho]. exists row. split; [done|].
  split; [by apply list_elem_of_In | by apply owned_by_spec].
Qed.

Lemma entry_of_row_owner (row : Api.entry_row) :
  field (Api.entry_of_row row) "owner" = VStr (Api.owner row).
Proof. reflexivity. Qed.

(** Rewriting or deleting rows of another owner leaves the rows of [A]. *)
Lemma filter_map_other (A : string) (hit : Api.entry_row -> bool)
    (f : Api.entry_row -> Api.entry_row) (rs : list Api.entry_row) :
  (forall r, hit r = true -> Api.owner r <> A) ->
  (forall r, Api.owner (f r) = Api.owner r) ->
  List.filter (Api.owned_by A) (List.map (fun r => if hit r then f r else r) rs)
  = List.filter (Api.owned_by A) rs.
Proof.
  intros Hhit Hf. induction rs as [|r rs IH]; [done|]. cbn [List.map List.filter].
  rewrite IH. destruct (hit r) eqn:Hr; [|done].
  assert (Api.owned_by A (f r) = false) as ->.
  { apply not_true_is_false. rewrite owned_by_spec, Hf. by apply Hhit. }
  assert (Api.owned_by A r = false) as ->; [|done].
  apply not_true_is_false. rewrite owned_by_spec. by apply Hhit.
Qed.

Lemma filter_filter_other (A : string) (hit : Api.entry_row -> bool)
    (rs : list Api.entry_row) :
  (forall r, hit r = true -> Api.owner r <> A) ->
  List.filter (Api.owned_by A) (List.filter (fun r => negb (hit r)) rs)
  = List.filter (Api.owned_by A) rs.
Proof.
  intros Hhit. induction rs as [|r rs IH]; [done|]. cbn [List.filter].
  destruct (hit r) eqn:Hr; cbn [negb List.filter]; rewrite IH; [|done].
  assert (Api.owned_by A r = false) as ->; [|done].
  apply not_true_is_false. rewrite owned_by_spec. by apply Hhit.
Qed.

(** An update under the identity [B] leaves the rows of every other
    owner as they were. *)
Lemma api_update_frame (e : env) (a i : string) (updates : value) (st : Api.state)
    (A B : string) :
  (getAuth a (now e) (Api.sessions st)).1 = Some (VStr B) -> A <> B ->
  List.filter (Api.owned_by A) (Api.password_entries (Api.updateEntry e a i updates st).1)
  = List.filter (Api.owned_by A) (Api.password_entries st).
Proof.
  intros Hg Hne. unfold Api.updateEntry. rewrite (api_with_auth_as _ _ _ _ _ Hg).
  unfold Api.finish. unfold_outcome.
  repeat (case_match; simplify_eq/=); try done;
    apply filter_map_other; try done;
    intros r' Hr'; repeat case_match; simplify_eq/=;
    apply is_entry_owner in Hr'; congruence.
Qed.

(** So does a deletion. *)
Lemma api_delete_frame (e : env) (a i : string) (st : Api.state) (A B : string) :
  (getAuth a (now e) (Api.sessions st)).1 = Some (VStr B) -> A <> B ->
  List.filter (Api.owned_by A) (Api.password_entries (Api.deleteEntry e a i st).1)
  = List.filter (Api.owned_by A) (Api.password_entries st).
Proof.
  intros Hg Hne. unfold Api.deleteEntry. rewrite (api_with_auth_as _ _ _ _ _ Hg).
  unfold Api.finish. unfold_outcome.
  repeat (case_match; simplify_eq/=); try done;
    apply filter_filter_other;
    intros r' Hr'; repeat case_match; simplify_eq/=;
    apply is_entry_owner in Hr'; congruence.
Qed.

End Isolation.

End IsolationFacts.

(** What each server keeps apart, for distinct users [A] and [B]. On the
    file-backed server a request authenticated as [B] is answered from
    the vault file of [B], and listing, updating and deleting as [B]
    leave the vault file of [A] as it was. On the relational server a
    listing as [B] returns no entry of a row whose owner is [A], and
    updating and deleting as [B] leave those rows as they were. Which
    vault file, and which owner, a new entry is given is another matter:
    see the theorem that follows. *)
Lemma stores_kept_apart `{P : Shared.Platform} (e : Shared.env)
    (a id : string) (updates : JS.value) (A B : string)
    (fs : FileServer.state) (db : Api.state) :
  A <> B ->
  (Shared.getAuth a (Shared.now e) (FileServer.sessions fs)).1 = Some (JS.VStr B) ->
  (Shared.getAuth a (Shared.now e) (Api.sessions db)).1 = Some (JS.VStr B) ->
  ((FileServer.listEntries e a fs).2
   = Shared.sendJson 200
       (JS.VObj [("entries",
                  FileServer.entries_json (default [] (FileServer.vaults fs !! B)))]) /\
   FileServer.vaults (FileServer.listEntries e a fs).1 !! A
   = FileServer.vaults fs !! A /\
   FileServer.vaults (FileServer.updateEntry e a id updates fs).1 !! A
   = FileServer.vaults fs !! A /\
   FileServer.vaults (FileServer.deleteEntry e a id fs).1 !! A
   = FileServer.vaults fs !! A) /\
  ((forall r row,
      (Api.listEntries e a db).2 = Some r ->
      row ∈ Api.password_entries db -> Api.owner row = A ->
      Api.entry_of_row row ∉ Examples.entries_of r) /\
   List.filter (Api.owned_by A)
     (Api.password_entries (Api.updateEntry e a id updates db).1)
   = List.filter (Api.owned_by A) (Api.password_entries db) /\
   List.filter (Api.owned_by A) (Api.password_entries (Api.deleteEntry e a id db).1)
   = List.filter (Api.owned_by A) (Api.password_entries db)).
Proof.
  intros Hne Hf Ha. split; [repeat split|repeat split].
  - by rewrite (IsolationFacts.file_list_as _ _ _ _ Hf).
  - by apply (IsolationFacts.file_vault_frame e (Shared.ListEntries a) fs (JS.VStr B)).
  - by apply (IsolationFacts.file_vault_frame e (Shared.UpdateEntry a id updates) fs
                (JS.VStr B)).
  - by apply (IsolationFacts.file_vault_frame e (Shared.DeleteEntry a id) fs (JS.VStr B)).
  - intros r row Hr Hin Ho Hv.
    destruct (IsolationFacts.api_list_owners _ _ _ _ _ _ Ha Hr Hv) as (row' & Heq & _ & Ho').
    apply (f_equal (fun v => JS.field v "owner")) in Heq.
    rewrite !IsolationFacts.entry_of_row_owner in Heq. congruence.
  - by apply IsolationFacts.api_update_frame with B.
  - by apply IsolationFacts.api_delete_frame with B.
Qed.

(** C1 does not hold: the owner of a new entry is [owner ||
    auth.username], with [owner] read from the body, so that an entry
    created by one user can carry the name of another. On the relational
    server the row is then the other user's: Alice, logged in with token
    [t0], creates an entry whose body names Bob (201), and Bob, logged in
    with token [t1], is returned that entry by his listing (and no
    other), updates it (200) and deletes it (200), after which the row is
    gone. On the file-backed server the entry stays in the vault file of
    its creator whatever owner it names: Bob creates an entry whose body
    names Alice (201), and his listing returns that entry, its owner
    [alice]; he updates it (200), and Alice's listing does not have
    it. *)
Theorem C1_body_owner_crosses_users :
  let alice := Examples.bearer "t0" in
  let bob := Examples.bearer "t1" in
  let e := Scenarios.env_last in
  let id := Shared.randomUUID Examples.env_add in
  let note := JS.VObj [("note", JS.VStr "seen")] in
  let ids (r : Shared.response) :=
    List.map (fun v => JS.field v "id") (Examples.entries_of r) in
  let owners (r : Shared.response) :=
    List.map (fun v => JS.field v "owner") (Examples.entries_of r) in
  "alice" <> "bob" /\
  ((Shared.getAuth alice (Shared.now Examples.env_add)
      (Api.sessions Examples.api_vault)).1 = Some (JS.VStr "alice") /\
   (Shared.getAuth bob (Shared.now e) (Api.sessions Scenarios.api_crossed)).1
   = Some (JS.VStr "bob") /\
   (exists r,
      (Api.addEntry (H := Examples.sample_platform) Examples.env_add alice
         Examples.body_for_bob Examples.api_vault).2 = Some r /\
      Shared.status r = 201 /\
      JS.field (Examples.entry_of r) "id" = JS.VStr id) /\
   (exists r,
      (Api.listEntries (H := Examples.sample_platform) e bob Scenarios.api_crossed).2
      = Some r /\
      Shared.status r = 200 /\ ids r = [JS.VStr id]) /\
   (exists r,
      (Api.updateEntry (H := Examples.sample_platform) e bob id note
         Scenarios.api_crossed).2 = Some r /\
      Shared.status r = 200 /\
      JS.field (Examples.entry_of r) "id" = JS.VStr id /\
      JS.field (Examples.entry_of r) "note" = JS.VStr "seen") /\
   (Api.deleteEntry (H := Examples.sample_platform) e bob id Scenarios.api_crossed).2
   = Some (Shared.sendJson 200 Shared.ok_true) /\
   List.map Api.id (Api.password_entries Scenarios.api_crossed)
   = [Examples.entry_id; id] /\
   List.map Api.id
     (Api.password_entries
        (Api.deleteEntry (H := Examples.sample_platform) e bob id Scenarios.api_crossed).1)
   = [Examples.entry_id]) /\
  ((Shared.getAuth bob (Shared.now Scenarios.env_second)
      (FileServer.sessions Examples.file_vault)).1 = Some (JS.VStr "bob") /\
   Shared.status
     (FileServer.addEntry (H := Examples.sample_platform) Scenarios.env_second bob
        Scenarios.body_for_alice Examples.file_vault).2 = 201 /\
   (let r := (FileServer.listEntries e bob Scenarios.file_crossed).2 in
    Shared.status r = 200 /\
    ids r = [JS.VStr Scenarios.second_id] /\ owners r = [JS.VStr "alice"]) /\
   (let r := (FileServer.updateEntry (H := Examples.sample_platform) e bob
                Scenarios.second_id note Scenarios.file_crossed).2 in
    Shared.status r = 200 /\
    JS.field (Examples.entry_of r) "owner" = JS.VStr "alice" /\
    JS.field (Examples.entry_of r) "note" = JS.VStr "seen") /\
   ids (FileServer.listEntries e alice Scenarios.file_crossed).2
   = [JS.VStr Examples.entry_id]).
Proof.
  split; [discriminate|]. split.
  - split; [vm_compute; reflexivity|]. split; [vm_compute; reflexivity|].
    split; [eexists; split; [vm_compute; reflexivity|]; split; reflexivity|].
    split; [eexists; split; [vm_compute; reflexivity|]; split; reflexivity|].
    split; [eexists; split; [vm_compute; reflexivity|]; repeat split|].
    repeat split; vm_compute; reflexivity.
  - repeat split; vm_compute; reflexivity.
Qed.

(** ** The JSON of an object *)

Module JsonFacts.
Import JS Shared Examples.

Lemma json_obj_cons (k : string) (v : value) (o : obj) :
  json_obj ((k, v) :: o)
  = match v with VUndef => json_obj o | _ => (k, json_of v) :: json_obj o end.
Proof. unfold json_obj. cbn [json_of List.flat_map]. by destruct v. Qed.

Lemma prop_json_obj_absent (o : obj) (k : string) :
  k ∉ o.*1 -> prop (json_obj o) k = VUndef.
Proof.
  induction o as [|[k' v] o IH]; [done|]. cbn [fmap list_fmap fst].
  intros [Hne Hk]%not_elem_of_cons. rewrite json_obj_cons.
  assert (String.eqb k' k = false) as Heq by (apply String.eqb_neq; congruence).
  destruct v; cbn [prop]; rewrite ?Heq; by apply IH.
Qed.

(** Reading a property of the JSON of an object whose keys are distinct
    gives the JSON of the property. *)
Lemma prop_json_obj (o : obj) (k : string) :
  NoDup o.*1 -> prop (json_obj o) k = json_of (prop o k).
Proof.
  induction o as [|[k' v] o IH]; [done|]. cbn [fmap list_fmap fst].
  intros [Hk' Hnd]%NoDup_cons. rewrite json_obj_cons. cbn [prop].
  destruct (String.eqb k' k) eqn:Heq.
  - apply String.eqb_eq in Heq as ->.
    destruct v; cbn [prop]; rewrite ?String.eqb_refl; try done.
    by apply prop_json_obj_absent.
  - destruct v; cbn [prop]; rewrite ?Heq; by apply IH.
Qed.

(** The entry of an answer [{ entry }]. *)
Lemma entry_of_sendJson (s : Z) (en : obj) :
  entry_of (sendJson s (VObj [("entry", VObj en)])) = VObj (json_obj en).
Proof. reflexivity. Qed.

Lemma prop_set_prop (k k' : string) (v : value) (o : obj) :
  prop (set_prop k v o) k' = if String.eqb k k' then v else prop o k'.
Proof.
  induction o as [|[k0 v0] o IH]; cbn [set_prop prop].
  - by destruct (String.eqb k k').
  - destruct (String.eqb k0 k) eqn:H0; cbn [prop].
    + apply String.eqb_eq in H0 as ->. by destruct (String.eqb k k').
    + rewrite IH. destruct (String.eqb k0 k') eqn:H1; [|done].
      apply String.eqb_eq in H1 as ->. by rewrite String.eqb_sym, H0.
Qed.

Lemma set_prop_keys (k : string) (v : value) (o : obj) :
  (set_prop k v o).*1 = if bool_decide (k ∈ o.*1) then o.*1 else app (o.*1) [k].
Proof.
  induction o as [|[k0 v0] o IH]; [done|]. cbn [set_prop fmap list_fmap fst].
  destruct (String.eqb k0 k) eqn:H0.
  - apply String.eqb_eq in H0 as ->. cbn [fmap list_fmap fst].
    rewrite bool_decide_eq_true_2; [done|]. apply elem_of_cons. by left.
  - apply String.eqb_neq in H0. cbn [fmap list_fmap fst].
    change (list_fmap _ _ fst (set_prop k v o)) with ((set_prop k v o).*1).
    change (list_fmap _ _ fst o) with (o.*1). rewrite IH.
    destruct (decide (k ∈ o.*1)) as [Hin|Hin].
    + rewrite !bool_decide_eq_true_2; [done|by apply elem_of_cons; right|done].
    + rewrite !bool_decide_eq_false_2; [done| |done].
      intros [?|?]%elem_of_cons; congruence.
Qed.

Lemma set_prop_NoDup (k : string) (v : value) (o : obj) :
  NoDup o.*1 -> NoDup (set_prop k v o).*1.
Proof.
  intros Hnd. rewrite set_prop_keys. case_bool_decide as Hin; [done|].
  apply NoDup_app. split; [done|]. split; [|apply NoDup_singleton].
  intros x Hx ->%list_elem_of_singleton. done.
Qed.

End JsonFacts.

(** ** The owner of a new entry (claim C10) *)

Module AddEntryFacts.
Import JS Shared Examples SharedFacts SessionFacts IsolationFacts JsonFacts.

Lemma bind_text_not_null_Done (v : value) (s : string) :
  Api.bind_text_not_null v = Api.Done s -> v = VStr s.
Proof.
  unfold Api.bind_text_not_null. unfold_outcome.
  destruct v as [| | | |t| |]; cbn [Api.bind_text]; try discriminate.
  destruct (Api.has_nul t); [discriminate|]. by intros [= <-].
Qed.

Lemma bind_owner_Done (v : value) (s : string) :
  Api.bind_owner v = Api.Done s -> v = VStr s.
Proof.
  unfold Api.bind_owner. unfold_outcome.
  destruct (Api.bind_text_not_null v) as [t| |] eqn:Hv; try discriminate.
  destruct (_ <? _)%nat; [discriminate|]. intros [= <-].
  by apply bind_text_not_null_Done.
Qed.

Section AddEntry.
Context `{Platform}.

Lemma file_new_entry_keys (e : env) (b u : value) :
  NoDup (FileServer.new_entry e b u).*1.
Proof. apply (bool_decide_unpack _). by vm_compute. Qed.

(** What the file-backed [POST /api/entries] does when it answers 201. *)
Lemma file_addEntry_201 (e : env) (a : string) (body : value) (st : FileServer.state)
    (B : value) :
  (getAuth a (now e) (FileServer.sessions st)).1 = Some B ->
  status (FileServer.addEntry e a body st).2 = 201 ->
  let entry := FileServer.new_entry e (or_else body (VObj [])) B in
  FileServer.addEntry e a body st
  = (FileServer.saveEntries (to_string B)
       (entry :: default [] (FileServer.vaults st !! to_string B))
       (FileServer.ensureUserVault (to_string B) st),
     sendJson 201 (VObj [("entry", VObj entry)])).
Proof.
  intros Hg. unfold FileServer.addEntry. rewrite (file_with_auth_as _ _ _ _ _ Hg).
  destruct (_ || _); [discriminate|]. done.
Qed.

(** The row the relational server makes of a body has the owner it was
    asked for and the id the database drew. *)
Lemma bind_entry_Done (e : env) (b B : value) (row : Api.entry_row) :
  Api.bind_entry e b B = Api.Done row ->
  VStr (Api.owner row) = or_else (field b "owner") B /\ Api.id row = randomUUID e.
Proof.
  unfold Api.bind_entry. unfold_outcome.
  destruct (Api.bind_owner (or_else _ B)) as [p_owner| |] eqn:Ho; try discriminate.
  apply bind_owner_Done in Ho. intros Hrow.
  repeat (case_match; simplify_eq/=); by rewrite Ho.
Qed.

(** The file-backed [POST /api/entries] answers 201 exactly when the
    body has the three required fields. *)
Lemma file_addEntry_created (e : env) (a : string) (body : value)
    (st : FileServer.state) (B : value) :
  (getAuth a (now e) (FileServer.sessions st)).1 = Some B ->
  let b := or_else body (VObj []) in
  truthy (field b "url") && truthy (field b "username")
  && truthy (field b "passwordEncrypted") = true <->
  status (FileServer.addEntry e a body st).2 = 201.
Proof.
  intros Hg b. unfold FileServer.addEntry. rewrite (file_with_auth_as _ _ _ _ _ Hg).
  fold b.
  by destruct (truthy (field b "url")), (truthy (field b "username")),
    (truthy (field b "passwordEncrypted")).
Qed.

(** The relational one answers 201 whenever, besides, its parameters are
    of the types of their columns, the owner is a registered user and the
    id drawn is new. *)
Lemma api_addEntry_created (e : env) (a : string) (body : value) (st : Api.state)
    (B : value) (row : Api.entry_row) :
  (getAuth a (now e) (Api.sessions st)).1 = Some B ->
  let b := or_else body (VObj []) in
  truthy (field b "url") && truthy (field b "username")
  && truthy (field b "passwordEncrypted") = true ->
  Api.pool st = true ->
  Api.bind_entry e b B = Api.Done row ->
  is_Some (Api.users st !! Api.owner row) ->
  existsb (fun r => String.eqb (Api.id r) (Api.id row)) (Api.password_entries st) = false ->
  exists r, (Api.addEntry e a body st).2 = Some r /\ status r = 201.
Proof.
  intros Hg b Hb Hpool Hrow Hfk Hpk. unfold Api.addEntry.
  rewrite (api_with_auth_as _ _ _ _ _ Hg). fold b.
  apply andb_prop in Hb as [Hb Hp]. apply andb_prop in Hb as [Hu Hn].
  rewrite Hu, Hn, Hp, Hpool. cbn [negb orb].
  rewrite Hrow. unfold Api.finish. unfold_outcome.
  rewrite (bool_decide_eq_true_2 _ Hfk), Hpk. cbn [negb snd]. eauto.
Qed.

(** What the relational one does when it answers 201: the row it
    appends has the owner it was asked for. *)
Lemma api_addEntry_201 (e : env) (a : string) (body : value) (st : Api.state)
    (B : value) (r : response) :
  (getAuth a (now e) (Api.sessions st)).1 = Some B ->
  (Api.addEntry e a body st).2 = Some r -> status r = 201 ->
  let b := or_else body (VObj []) in
  r = sendJson 201 (VObj [("entry", Api.new_entry e b B)]) /\
  exists row,
    Api.password_entries (Api.addEntry e a body st).1
    = app (Api.password_entries st) [row] /\
    VStr (Api.owner row) = or_else (field b "owner") B /\
    Api.id row = randomUUID e.
Proof.
  intros Hg. unfold Api.addEntry. rewrite (api_with_auth_as _ _ _ _ _ Hg).
  destruct (_ || _); [not_this_answer|].
  destruct (Api.pool _); cbn [negb]; [|not_this_answer].
  unfold Api.finish. unfold_outcome.
  destruct (Api.bind_entry e _ B) as [row| |] eqn:Hrow; try not_this_answer.
  apply bind_entry_Done in Hrow.
  intros Hr H201.
  repeat (case_match; simplify_eq/=); try done.
  split; [done|]. by exists row.
Qed.

(** A field of the entry the relational server answers with. *)
Lemma api_new_entry_field (e : env) (b u : value) (s : Z) (k : string) :
  field (entry_of (sendJson s (VObj [("entry", Api.new_entry e b u)]))) k
  = json_of (field (Api.new_entry e b u) k).
Proof.
  unfold Api.new_entry. rewrite entry_of_sendJson. cbn [field].
  apply prop_json_obj. apply (bool_decide_unpack _). by vm_compute.
Qed.

End AddEntry.

End AddEntryFacts.

(** C10: an authenticated [addEntry] whose body has a truthy [owner]
    creates the entry with that owner, and one whose body has no [owner],
    or a falsy one, creates it with the authenticated username. This holds
    for the entry of the answer and for the entry as stored (first of the
    identity's vault on the file-backed server, a new row on the
    relational one). The file-backed server creates the entry (201)
    exactly when the body has [url], [username] and [passwordEncrypted];
    the relational one does whenever, besides, the parameters of its
    insertion have the types of their columns, the owner named is a
    registered user and the id drawn is new. [json_of] is the identity on
    a value parsed from JSON. *)
Theorem C10_owner_from_body `{P : Shared.Platform} (e : Shared.env) (a : string)
    (body : JS.value) (B : string) (fs : FileServer.state) (db : Api.state) :
  (Shared.getAuth a (Shared.now e) (FileServer.sessions fs)).1 = Some (JS.VStr B) ->
  (Shared.getAuth a (Shared.now e) (Api.sessions db)).1 = Some (JS.VStr B) ->
  let b := JS.or_else body (JS.VObj []) in
  let owner := JS.field b "owner" in
  let created_owner := if JS.truthy owner then owner else JS.VStr B in
  let required :=
    JS.truthy (JS.field b "url") && JS.truthy (JS.field b "username")
    && JS.truthy (JS.field b "passwordEncrypted") in
  ((required = true <-> Shared.status (FileServer.addEntry e a body fs).2 = 201) /\
   (Shared.status (FileServer.addEntry e a body fs).2 = 201 ->
    JS.field (Examples.entry_of (FileServer.addEntry e a body fs).2) "owner"
    = JS.json_of created_owner /\
    exists en rest,
      FileServer.vaults (FileServer.addEntry e a body fs).1 !! B = Some (en :: rest) /\
      JS.prop en "owner" = JS.json_of created_owner)) /\
  ((forall row,
      required = true -> Api.pool db = true ->
      Api.bind_entry e b (JS.VStr B) = Api.Done row ->
      is_Some (Api.users db !! Api.owner row) ->
      existsb (fun r => String.eqb (Api.id r) (Api.id row)) (Api.password_entries db)
      = false ->
      exists r, (Api.addEntry e a body db).2 = Some r /\ Shared.status r = 201) /\
   (forall r,
      (Api.addEntry e a body db).2 = Some r -> Shared.status r = 201 ->
      JS.field (Examples.entry_of r) "owner" = JS.json_of created_owner /\
      exists row,
        Api.password_entries (Api.addEntry e a body db).1
        = app (Api.password_entries db) [row] /\
        JS.VStr (Api.owner row) = created_owner)).
Proof.
  intros Hf Ha b owner created_owner required. split; split.
  - by apply (AddEntryFacts.file_addEntry_created e a body fs (JS.VStr B)).
  - intros H201. rewrite (AddEntryFacts.file_addEntry_201 _ _ _ _ _ Hf H201).
    cbn [fst snd JS.to_string]. rewrite JsonFacts.entry_of_sendJson. cbn [JS.field].
    rewrite JsonFacts.prop_json_obj by apply AddEntryFacts.file_new_entry_keys.
    split; [done|].
    eexists _, _. split; [apply lookup_insert_eq|].
    by rewrite JsonFacts.prop_json_obj by apply AddEntryFacts.file_new_entry_keys.
  - intros row Hreq Hpool Hrow Hfk Hpk.
    by apply (AddEntryFacts.api_addEntry_created e a body db (JS.VStr B) row).
  - intros r Hr H201.
    destruct (AddEntryFacts.api_addEntry_201 _ _ _ _ _ _ Ha Hr H201)
      as (-> & row & Hrows & Ho & _).
    split; [|by exists row].
    fold b owner in Ho. change (JS.or_else owner (JS.VStr B)) with created_owner in Ho.
    by rewrite AddEntryFacts.api_new_entry_field.
Qed.

(** Alice, logged in with token [t0], adds an entry whose body names Bob
    as the owner: both servers answer 201 with an entry owned by [bob]. *)
Lemma C10_owner_from_body_witness :
  let a := Examples.bearer "t0" in
  let e := Examples.env_add in
  (Shared.getAuth a (Shared.now e) (FileServer.sessions Examples.file_vault)).1
  = Some (JS.VStr "alice") /\
  (Shared.getAuth a (Shared.now e) (Api.sessions Examples.api_vault)).1
  = Some (JS.VStr "alice") /\
  JS.field
    (Examples.entry_of
       (FileServer.addEntry (H := Examples.sample_platform) e a Examples.body_for_bob
          Examples.file_vault).2) "owner"
  = JS.VStr "bob" /\
  exists r,
    (Api.addEntry (H := Examples.sample_platform) e a Examples.body_for_bob
       Examples.api_vault).2 = Some r /\
    Shared.status r = 201 /\
    JS.field (Examples.entry_of r) "owner" = JS.VStr "bob".
Proof.
  intros a e.
  assert (Hf : (Shared.getAuth a (Shared.now e)
                  (FileServer.sessions Examples.file_vault)).1 = Some (JS.VStr "alice"))
    by (vm_compute; reflexivity).
  assert (Ha : (Shared.getAuth a (Shared.now e)
                  (Api.sessions Examples.api_vault)).1 = Some (JS.VStr "alice"))
    by (vm_compute; reflexivity).
  destruct (C10_owner_from_body (P := Examples.sample_platform) e a Examples.body_for_bob
              "alice" Examples.file_vault Examples.api_vault Hf Ha) as [[Hcreated Hfile] Hapi].
  split; [exact Hf|]. split; [exact Ha|]. split.
  - destruct Hfile as [Ho _]; [by apply Hcreated|]. exact Ho.
  - eexists. split; [vm_compute; reflexivity|]. split; [reflexivity|].
    vm_compute. reflexivity.
Defined.

(** ** Updating an entry (claims C6 and C9) *)

Module UpdateFacts.
Import JS Shared Examples SharedFacts SessionFacts IsolationFacts JsonFacts AddEntryFacts.

Lemma prop_absent (o : obj) (k : string) : k ∉ o.*1 -> prop o k = VUndef.
Proof.
  induction o as [|[k' v] o IH]; [done|]. cbn [fmap list_fmap fst prop].
  intros [Hne Hk]%not_elem_of_cons.
  assert (String.eqb k' k = false) as -> by (apply String.eqb_neq; congruence).
  by apply IH.
Qed.

(** A property of [{ ...o, ...src }] for a source with distinct keys. *)
Lemma prop_spread_props (o src : obj) (k : string) :
  NoDup src.*1 ->
  prop (foldl (fun acc kv => set_prop kv.1 kv.2 acc) o src) k
  = if bool_decide (k ∈ src.*1) then prop src k else prop o k.
Proof.
  revert o. induction src as [|[k0 v0] src IH]; intros o; [done|].
  cbn [fmap list_fmap fst]. intros [Hk0 Hnd]%NoDup_cons. cbn [foldl fst snd prop].
  rewrite (IH _ Hnd), prop_set_prop.
  destruct (String.eqb k0 k) eqn:Heq.
  - apply String.eqb_eq in Heq as ->.
    rewrite (bool_decide_eq_false_2 _ Hk0).
    rewrite bool_decide_eq_true_2; [done|]. apply elem_of_cons. by left.
  - apply String.eqb_neq in Heq.
    destruct (decide (k ∈ src.*1)) as [Hin|Hin].
    + rewrite !bool_decide_eq_true_2; [done| |done]. apply elem_of_cons. by right.
    + rewrite !bool_decide_eq_false_2; [done| |done].
      intros [?|?]%elem_of_cons; congruence.
Qed.

Lemma prop_spread (o : obj) (v : value) (k : string) :
  NoDup (own_props v).*1 ->
  prop (spread o v) k
  = if bool_decide (k ∈ (own_props v).*1) then prop (own_props v) k else prop o k.
Proof. apply prop_spread_props. Qed.

Lemma spread_keys_NoDup (o : obj) (v : value) :
  NoDup o.*1 -> NoDup (spread o v).*1.
Proof.
  unfold spread. generalize (own_props v) as src. intros src. revert o.
  induction src as [|[k0 v0] src IH]; intros o Hnd; [done|].
  cbn [foldl]. apply IH. by apply set_prop_NoDup.
Qed.

(** A truthy field of a payload is an own property of it. *)
Lemma truthy_field_own (v : value) (k : string) :
  truthy (field v k) = true ->
  k ∈ (own_props v).*1 /\ prop (own_props v) k = field v k.
Proof.
  destruct v as [| | | | | |o]; try discriminate. cbn [field own_props].
  intros Ht. split; [|done].
  destruct (decide (k ∈ o.*1)) as [|Hk]; [done|].
  rewrite (prop_absent _ _ Hk) in Ht. discriminate.
Qed.

Lemma last_map {A B : Type} (f : A -> B) (l : list A) :
  last (List.map f l) = f <$> last l.
Proof.
  induction l as [|x l IH]; [done|]. destruct l as [|y l]; [done|]. exact IH.
Qed.

Section FileUpdate.
Context `{Platform}.

(** The fields of [{ ...en, ...updates, updatedAt }]. *)
Lemma prop_merged (e : env) (en : obj) (updates : value) (k : string) :
  NoDup (own_props updates).*1 ->
  prop (FileServer.merged e en updates) k
  = if String.eqb "updatedAt" k then FileServer.now_iso e
    else if bool_decide (k ∈ (own_props updates).*1) then prop (own_props updates) k
         else prop en k.
Proof.
  intros Hnd. unfold FileServer.merged. by rewrite prop_set_prop, prop_spread.
Qed.

Lemma merged_keys_NoDup (e : env) (en : obj) (updates : value) :
  NoDup en.*1 -> NoDup (FileServer.merged e en updates).*1.
Proof. intros Hnd. by apply set_prop_NoDup, spread_keys_NoDup. Qed.

Lemma mutable_not_updatedAt (k : string) :
  k ∈ mutable_fields -> String.eqb "updatedAt" k = false.
Proof.
  unfold mutable_fields. rewrite !elem_of_cons, elem_of_nil.
  intros [->|[->|[->|[->|[->|[->|[]]]]]]]; reflexivity.
Qed.

(** The merged entry, as answered, is the stored entry with the payload
    merged in. *)
Lemma file_merged_merges (e : env) (en : obj) (updates : value) :
  distinct_keys en -> distinct_keys (own_props updates) ->
  merges updates (VObj (json_obj en)) (VObj (json_obj (FileServer.merged e en updates)))
    (toISOString (now e)).
Proof.
  intros Hen Hup. unfold merges. cbn [field].
  pose proof (merged_keys_NoDup e en updates Hen) as Hm.
  repeat split.
  - intros k Hk Ht. rewrite (prop_json_obj _ _ Hm), (prop_merged _ _ _ _ Hup).
    rewrite (mutable_not_updatedAt _ Hk).
    destruct (truthy_field_own _ _ Ht) as [Hin ->].
    by rewrite bool_decide_eq_true_2.
  - intros k Hk Habs. rewrite (prop_json_obj _ _ Hm), (prop_merged _ _ _ _ Hup).
    rewrite (mutable_not_updatedAt _ Hk), (bool_decide_eq_false_2 _ Habs).
    by rewrite (prop_json_obj _ _ Hen).
  - by rewrite (prop_json_obj _ _ Hm), (prop_merged _ _ _ _ Hup).
Qed.

(** What [PUT /api/entries/:id] of the file-backed server does under the
    identity [B]. *)
Lemma file_update_as (e : env) (a id : string) (updates : value)
    (st : FileServer.state) (B : value) :
  (getAuth a (now e) (FileServer.sessions st)).1 = Some B ->
  let entries := default [] (FileServer.vaults st !! to_string B) in
  let is_it := fun en : obj => is_str (prop en "id") id in
  FileServer.updateEntry e a id updates st
  = (FileServer.saveEntries (to_string B)
       (List.map (fun en => if is_it en then FileServer.merged e en updates else en)
          entries)
       (FileServer.ensureUserVault (to_string B) st),
     match last (List.filter is_it entries) with
     | Some en =>
         sendJson 200 (VObj [("entry", VObj (FileServer.merged e en updates))])
     | None => sendJson 404 (error "Not found")
     end).
Proof.
  intros Hg entries is_it. unfold FileServer.updateEntry.
  rewrite (file_with_auth_as _ _ _ _ _ Hg). cbn [FileServer.loadEntries].
  unfold FileServer.loadEntries. f_equal.
  fold entries. fold is_it.
  rewrite last_map. by destruct (last _).
Qed.

End FileUpdate.

End UpdateFacts.

Module ApiUpdateFacts.
Import JS Shared Examples SharedFacts SessionFacts IsolationFacts JsonFacts AddEntryFacts.
Import UpdateFacts.

(** The array the database stores for a [tags] parameter is the JSON of
    the parameter. *)
Lemma bind_elements_json (xs : list value) (os : list (option string)) :
  Api.bind_elements xs = Api.Done os ->
  List.map Api.text_json os
  = List.map (fun x => match x with VUndef => VNull | _ => json_of x end) xs.
Proof.
  revert os. induction xs as [|x xs IH]; intros os; cbn [Api.bind_elements].
  - by intros [= <-].
  - unfold_outcome.
    destruct (Api.bind_text x) as [o| |] eqn:Hx; try discriminate.
    destruct (Api.bind_elements xs) as [os'| |]; try discriminate.
    intros [= <-]. cbn [List.map]. rewrite (IH _ eq_refl). f_equal.
    destruct x as [| | | |s| |]; cbn [Api.bind_text] in Hx; simplify_eq; try done.
    destruct (Api.has_nul s); by simplify_eq.
Qed.

Lemma bind_truthy_text (v : value) (o : option string) :
  Api.bind_if_truthy Api.bind_text_not_null v = Api.Done o ->
  match o with
  | Some s => v = VStr s
  | None => truthy v = false
  end.
Proof.
  unfold Api.bind_if_truthy. destruct (truthy v) eqn:Ht; [|by intros [= <-]].
  unfold_outcome.
  destruct (Api.bind_text_not_null v) as [s| |] eqn:Hv; try discriminate.
  intros [= <-]. by apply bind_text_not_null_Done.
Qed.

Lemma bind_truthy_tags (v : value) (o : option (option (list (option string)))) :
  Api.bind_if_truthy Api.bind_text_array v = Api.Done o ->
  match o with
  | Some t => truthy v = true /\ Api.tags_json t = json_of v
  | None => truthy v = false
  end.
Proof.
  unfold Api.bind_if_truthy. destruct (truthy v) eqn:Ht; [|by intros [= <-]].
  unfold_outcome.
  destruct (Api.bind_text_array v) as [t| |] eqn:Hv; try discriminate.
  intros [= <-]. split; [done|].
  destruct v as [| | | | |xs|]; cbn [Api.bind_text_array] in Hv; try discriminate.
  unfold_outcome.
  destruct (Api.bind_elements xs) as [os| |] eqn:Hxs; try discriminate.
  injection Hv as <-. cbn [Api.tags_json json_of]. f_equal.
  by apply bind_elements_json.
Qed.

(** What a [SET] list says of the payload it was bound from. *)
Lemma bind_changes_Done (updates : value) (c : Api.changes) :
  Api.bind_changes updates = Api.Done c ->
  match Api.set_url c with
  | Some s => field updates "url" = VStr s
  | None => truthy (field updates "url") = false
  end /\
  match Api.set_username c with
  | Some s => field updates "username" = VStr s
  | None => truthy (field updates "username") = false
  end /\
  match Api.set_password_encrypted c with
  | Some s => field updates "passwordEncrypted" = VStr s
  | None => truthy (field updates "passwordEncrypted") = false
  end /\
  match Api.set_favicon_url c with
  | Some s => field updates "faviconUrl" = VStr s
  | None => truthy (field updates "faviconUrl") = false
  end /\
  match Api.set_note c with
  | Some s => field updates "note" = VStr s
  | None => truthy (field updates "note") = false
  end /\
  match Api.set_tags c with
  | Some t => truthy (field updates "tags") = true
              /\ Api.tags_json t = json_of (field updates "tags")
  | None => truthy (field updates "tags") = false
  end.
Proof.
  unfold Api.bind_changes. unfold_outcome.
  destruct (Api.bind_if_truthy _ (field updates "url")) as [c1| |] eqn:H1;
    try discriminate.
  destruct (Api.bind_if_truthy _ (field updates "username")) as [c2| |] eqn:H2;
    try discriminate.
  destruct (Api.bind_if_truthy _ (field updates "passwordEncrypted")) as [c3| |] eqn:H3;
    try discriminate.
  destruct (Api.bind_if_truthy _ (field updates "faviconUrl")) as [c4| |] eqn:H4;
    try discriminate.
  destruct (Api.bind_if_truthy _ (field updates "note")) as [c5| |] eqn:H5;
    try discriminate.
  destruct (Api.bind_if_truthy _ (field updates "tags")) as [c6| |] eqn:H6;
    try discriminate.
  intros [= <-]. cbn.
  apply bind_truthy_text in H1, H2, H3, H4, H5. apply bind_truthy_tags in H6.
  done.
Qed.

Lemma field_absent (v : value) (k : string) :
  k ∉ (own_props v).*1 -> field v k = VUndef.
Proof. destruct v; try done. cbn [field own_props]. apply prop_absent. Qed.

Section ApiUpdate.
Context `{Platform}.

(** A row after the update is the row before with the payload merged
    in. *)
Lemma api_changes_merge (updates : value) (c : Api.changes) (ts : Z) (row : Api.entry_row) :
  Api.bind_changes updates = Api.Done c ->
  merges updates (Api.entry_of_row row) (Api.entry_of_row (Api.apply_changes c ts row))
    (toISOString ts).
Proof.
  intros (H1 & H2 & H3 & H4 & H5 & H6)%bind_changes_Done.
  unfold merges. repeat split.
  - intros k Hk Ht. unfold mutable_fields in Hk.
    rewrite !elem_of_cons, elem_of_nil in Hk.
    destruct Hk as [->|[->|[->|[->|[->|[->|[]]]]]]]; cbn.
    + destruct (Api.set_url c); [by rewrite H1|congruence].
    + destruct (Api.set_username c); [by rewrite H2|congruence].
    + destruct (Api.set_password_encrypted c); [by rewrite H3|congruence].
    + destruct (Api.set_favicon_url c); [by rewrite H4|congruence].
    + destruct (Api.set_note c); [by rewrite H5|congruence].
    + destruct (Api.set_tags c); [by destruct H6|congruence].
  - intros k Hk Habs%field_absent. unfold mutable_fields in Hk.
    rewrite !elem_of_cons, elem_of_nil in Hk.
    destruct Hk as [->|[->|[->|[->|[->|[->|[]]]]]]]; cbn.
    + destruct (Api.set_url c); [congruence|done].
    + destruct (Api.set_username c); [congruence|done].
    + destruct (Api.set_password_encrypted c); [congruence|done].
    + destruct (Api.set_favicon_url c); [congruence|done].
    + destruct (Api.set_note c); [congruence|done].
    + destruct (Api.set_tags c); [|done]. destruct H6 as [H6 _].
      rewrite Habs in H6. discriminate.
Qed.

(** The entry of an answer [{ entry }] built from a row. *)
Lemma entry_of_row_answer (s : Z) (row : Api.entry_row) :
  entry_of (sendJson s (VObj [("entry", Api.entry_of_row row)])) = Api.entry_of_row row.
Proof.
  unfold entry_of, sendJson. cbn [body json_of List.flat_map app field prop].
  cbn [String.eqb Ascii.eqb Bool.eqb].
  apply json_of_entry_of_row.
Qed.

(** What the relational [PUT /api/entries/:id] did when it answers 200. *)
Lemma api_update_200 (e : env) (a id_param : string) (updates : value) (st : Api.state)
    (B : string) (r : response) :
  (getAuth a (now e) (Api.sessions st)).1 = Some (VStr B) ->
  (Api.updateEntry e a id_param updates st).2 = Some r -> status r = 200 ->
  exists c i row rest,
    Api.bind_changes updates = Api.Done c /\
    uuid_in id_param = Some i /\
    List.filter (Api.is_entry i B) (Api.password_entries st) = row :: rest /\
    r = sendJson 200
          (VObj [("entry",
                  Api.entry_of_row (Api.apply_changes c (current_timestamp e) row))]) /\
    Api.password_entries (Api.updateEntry e a id_param updates st).1
    = List.map (fun r => if Api.is_entry i B r
                         then Api.apply_changes c (current_timestamp e) r else r)
        (Api.password_entries st).
Proof.
  intros Hg. unfold Api.updateEntry. rewrite (api_with_auth_as _ _ _ _ _ Hg).
  destruct (Api.pool st); cbn [negb]; [|not_this_answer].
  unfold Api.finish, Api.bind_uuid. unfold_outcome. cbn [Api.bind_text].
  intros Hr H200.
  destruct (Api.bind_changes updates) as [c| |] eqn:Hc;
    [|destruct updates; simplify_eq/=; done..].
  destruct (uuid_in id_param) as [i|] eqn:Hi;
    [|destruct updates; simplify_eq/=; done].
  destruct (Api.has_nul B); [destruct updates; simplify_eq/=; done|].
  destruct (List.filter (Api.is_entry i B) (Api.password_entries st))
    as [|row rest] eqn:Hrows; [destruct updates; simplify_eq/=; done|].
  exists c, i, row, rest.
  destruct updates; simplify_eq/=; done.
Qed.

(** With no row of that id and owner it answers 404 and changes no row,
    provided the query runs. *)
Lemma api_update_404 (e : env) (a id_param : string) (updates : value) (st : Api.state)
    (B : string) (c : Api.changes) (i : string) :
  (getAuth a (now e) (Api.sessions st)).1 = Some (VStr B) ->
  Api.pool st = true -> updates <> VNull -> updates <> VUndef ->
  Api.bind_changes updates = Api.Done c ->
  uuid_in id_param = Some i -> Api.has_nul B = false ->
  List.filter (Api.is_entry i B) (Api.password_entries st) = [] ->
  Api.updateEntry e a id_param updates st
  = (st, Some (sendJson 404 (error "Not found"))).
Proof.
  intros Hg Hpool Hn Hu Hc Hi Hnul Hnone. unfold Api.updateEntry.
  rewrite (api_with_auth_as _ _ _ _ _ Hg), Hpool. cbn [negb].
  unfold Api.finish, Api.bind_uuid. unfold_outcome. cbn [Api.bind_text].
  rewrite Hc, Hi, Hnul. cbn beta iota zeta.
  change (fun r : Api.entry_row => Api.is_entry i B r) with (Api.is_entry i B).
  rewrite Hnone.
  assert (List.map (fun r => if Api.is_entry i B r
                             then Api.apply_changes c (current_timestamp e) r else r)
            (Api.password_entries st) = Api.password_entries st) as Hsame.
  { revert Hnone. generalize (Api.password_entries st) as rows.
    induction rows as [|r0 rows IH]; [done|]. cbn [List.filter List.map].
    destruct (Api.is_entry i B r0); [discriminate|]. intros Hn'. by rewrite IH. }
  unfold Api.set_entries. rewrite Hsame.
  destruct updates; try done; by destruct st.
Qed.

(** With a row of that id and owner it answers 200 with the row as
    changed, provided the query runs. *)
Lemma api_update_found (e : env) (a id_param : string) (updates : value) (st : Api.state)
    (B : string) (c : Api.changes) (i : string) (row : Api.entry_row)
    (rest : list Api.entry_row) :
  (getAuth a (now e) (Api.sessions st)).1 = Some (VStr B) ->
  Api.pool st = true -> updates <> VNull -> updates <> VUndef ->
  Api.bind_changes updates = Api.Done c ->
  uuid_in id_param = Some i -> Api.has_nul B = false ->
  List.filter (Api.is_entry i B) (Api.password_entries st) = row :: rest ->
  (Api.updateEntry e a id_param updates st).2
  = Some (sendJson 200
            (VObj [("entry",
                    Api.entry_of_row (Api.apply_changes c (current_timestamp e) row))])).
Proof.
  intros Hg Hpool Hn Hu Hc Hi Hnul Hrows. unfold Api.updateEntry.
  rewrite (api_with_auth_as _ _ _ _ _ Hg), Hpool. cbn [negb].
  unfold Api.finish, Api.bind_uuid. unfold_outcome. cbn [Api.bind_text].
  rewrite Hc, Hi, Hnul. cbn beta iota zeta.
  change (fun r : Api.entry_row => Api.is_entry i B r) with (Api.is_entry i B).
  rewrite Hrows. by destruct updates.
Qed.

End ApiUpdate.

End ApiUpdateFacts.

(** ** The vault files hold objects *)

Module VaultInvariant.
Import JS Shared Examples SharedFacts SessionFacts IsolationFacts JsonFacts AddEntryFacts.
Import UpdateFacts.

Lemma json_obj_absent_key (o : obj) (k : string) :
  k ∉ o.*1 -> k ∉ (json_obj o).*1.
Proof.
  induction o as [|[k' v] o IH]; [done|]. cbn [fmap list_fmap fst].
  intros [Hne Hk]%not_elem_of_cons. rewrite json_obj_cons.
  destruct v; cbn [fmap list_fmap fst]; rewrite ?not_elem_of_cons; auto.
Qed.

Lemma json_obj_distinct (o : obj) : distinct_keys o -> distinct_keys (json_obj o).
Proof.
  unfold distinct_keys. induction o as [|[k v] o IH]; [done|].
  cbn [fmap list_fmap fst]. intros [Hk Hnd]%NoDup_cons. rewrite json_obj_cons.
  destruct v; cbn [fmap list_fmap fst]; rewrite ?NoDup_cons;
    auto using json_obj_absent_key.
Qed.

Lemma Forall_json_obj (entries : list obj) :
  Forall distinct_keys entries -> Forall distinct_keys (List.map json_obj entries).
Proof.
  induction 1 as [|en entries Hen _ IH]; cbn [List.map]; constructor;
    auto using json_obj_distinct.
Qed.

Lemma Forall_map_if (f : obj -> obj) (c : obj -> bool) (entries : list obj) :
  (forall en, distinct_keys en -> distinct_keys (f en)) ->
  Forall distinct_keys entries ->
  Forall distinct_keys (List.map (fun en => if c en then f en else en) entries).
Proof.
  intros Hf. induction 1 as [|en entries Hen _ IH]; cbn [List.map]; constructor;
    [|done]. destruct (c en); auto.
Qed.

Lemma Forall_filter (c : obj -> bool) (entries : list obj) :
  Forall distinct_keys entries -> Forall distinct_keys (List.filter c entries).
Proof.
  induction 1 as [|en entries Hen _ IH]; cbn [List.filter]; [done|].
  destruct (c en); [by constructor|done].
Qed.

Section Invariant.
Context `{Platform}.

Lemma well_formed_ensureUserVault (key : string) (st : FileServer.state) :
  well_formed st -> well_formed (FileServer.ensureUserVault key st).
Proof.
  intros Hst. unfold FileServer.ensureUserVault.
  destruct (FileServer.vaults st !! key) eqn:Hk; [done|].
  intros key' entries. cbn. rewrite lookup_insert.
  case_decide; [by intros [= <-]|]. apply Hst.
Qed.

Lemma well_formed_saveEntries (key : string) (entries : list obj) (st : FileServer.state) :
  Forall distinct_keys entries -> well_formed st ->
  well_formed (FileServer.saveEntries key entries st).
Proof.
  intros Hes Hst key' entries'. cbn. rewrite lookup_insert.
  case_decide; [|apply Hst]. intros [= <-]. by apply Forall_json_obj.
Qed.

Lemma well_formed_set_users (f : gmap string FileServer.user_rec
                                 -> gmap string FileServer.user_rec)
    (st : FileServer.state) :
  well_formed st -> well_formed (FileServer.set_users f st).
Proof. done. Qed.

Lemma well_formed_set_sessions (ss : session_map) (st : FileServer.state) :
  well_formed st -> well_formed (FileServer.set_sessions ss st).
Proof. done. Qed.

Lemma well_formed_loaded (key : string) (st : FileServer.state) :
  well_formed st -> Forall distinct_keys (default [] (FileServer.vaults st !! key)).
Proof.
  intros Hst. destruct (FileServer.vaults st !! key) eqn:Hk; [|by constructor].
  by apply (Hst key).
Qed.

Lemma well_formed_with_auth (e : env) (a : string) (st : FileServer.state)
    (k : value -> FileServer.state -> FileServer.state * response) :
  (forall u st', well_formed st' -> well_formed (k u st').1) ->
  well_formed st -> well_formed (FileServer.with_auth e a st k).1.
Proof.
  intros Hk Hst. unfold FileServer.with_auth.
  destruct (getAuth _ _ _) as [[u|] ss]; [|done].
  by apply Hk, well_formed_set_sessions.
Qed.

(** Every request keeps the entries of the vault files objects with
    distinct keys, whatever its payload. *)
Lemma well_formed_handle (e : env) (r : request) (st : FileServer.state) :
  well_formed st -> well_formed (FileServer.handle e r st).1.
Proof.
  intros Hst.
  destruct r as [b|b|a|a|a b|a i b|a i|a|a b|a n|a]; cbn [FileServer.handle].
  - unfold FileServer.register. repeat case_match; try done. cbn [fst].
    by apply well_formed_ensureUserVault, well_formed_set_users.
  - unfold FileServer.login. by repeat case_match.
  - by apply well_formed_with_auth.
  - apply well_formed_with_auth; [|done]. intros u st' Hst'; cbv beta zeta.
    by apply well_formed_ensureUserVault.
  - apply well_formed_with_auth; [|done]. intros u st' Hst'; cbv beta zeta.
    destruct (_ || _); [done|]. cbn [FileServer.loadEntries fst].
    apply well_formed_saveEntries; [|by apply well_formed_ensureUserVault].
    constructor; [apply file_new_entry_keys|by apply well_formed_loaded].
  - apply well_formed_with_auth; [|done]. intros u st' Hst'; cbv beta zeta.
    cbn [FileServer.loadEntries fst].
    apply well_formed_saveEntries; [|by apply well_formed_ensureUserVault].
    apply Forall_map_if; [|by apply well_formed_loaded].
    intros en Hen. by apply merged_keys_NoDup.
  - apply well_formed_with_auth; [|done]. intros u st' Hst'; cbv beta zeta.
    cbn [FileServer.loadEntries fst].
    apply well_formed_saveEntries; [|by apply well_formed_ensureUserVault].
    by apply Forall_filter, well_formed_loaded.
  - apply well_formed_with_auth; [|done]. intros u st' Hst'; cbv beta zeta.
    by apply well_formed_ensureUserVault.
  - apply well_formed_with_auth; [|done]. intros u st' Hst'; cbv beta zeta.
    destruct (FileServer.invalid_category _); [done|].
    by apply well_formed_ensureUserVault.
  - apply well_formed_with_auth; [|done]. intros u st' Hst'; cbv beta zeta.
    cbn [FileServer.loadEntries fst].
    apply well_formed_saveEntries; [|by apply well_formed_ensureUserVault].
    apply Forall_map_if; [|by apply well_formed_loaded].
    intros en Hen. by apply set_prop_NoDup, set_prop_NoDup.
  - apply well_formed_with_auth; [|done]. intros u st' Hst'; cbv beta zeta.
    by apply well_formed_ensureUserVault.
Qed.

(** So does every run; the vault files of a server started on an empty
    store are well formed throughout. *)
Lemma well_formed_run (rs : list (env * request)) (st : FileServer.state) :
  well_formed st -> well_formed (FileServer.run rs st).1.
Proof.
  revert st. induction rs as [|[e r] rs IH]; intros st Hst; [done|].
  cbn [FileServer.run]. pose proof (well_formed_handle e r st Hst) as H1.
  destruct (FileServer.handle e r st) as [st1 resp]. specialize (IH st1 H1).
  by destruct (FileServer.run rs st1).
Qed.

Lemma well_formed_initial : well_formed FileServer.initial.
Proof. intros key entries. cbn. by rewrite lookup_empty. Qed.

End Invariant.

End VaultInvariant.

(** What the two handlers of [PUT /api/entries/:id] share: the update
    merges into the stored entry every mutable field ([url], [username],
    [passwordEncrypted], [faviconUrl], [note], [tags]) that the payload
    gives a truthy value, leaves every mutable field that the payload does
    not have as it was, and always refreshes [updatedAt]; the merged entry
    is the one stored and the one answered. When no entry with that id is
    owned by the owner the file-backed server answers 404 NotFound; the
    relational server never answers 200 then, and whenever its query runs
    (the id is a uuid and the payload's values have the types of their
    columns) it answers 404 and changes no row when there is no such
    entry, and 200 when there is one. A payload and a stored entry
    are JavaScript objects, with each key once; the entries of a server
    started on an empty store are ([VaultInvariant.well_formed_run]). What
    becomes of a field that the payload gives a falsy value is the matter
    of the theorem that follows. *)
Lemma truthy_fields_merged `{P : Shared.Platform} (e : Shared.env) (a id : string)
    (updates : JS.value) (B : string) (fs : FileServer.state) (db : Api.state) :
  (Shared.getAuth a (Shared.now e) (FileServer.sessions fs)).1 = Some (JS.VStr B) ->
  (Shared.getAuth a (Shared.now e) (Api.sessions db)).1 = Some (JS.VStr B) ->
  Examples.distinct_keys (JS.own_props updates) ->
  Examples.well_formed fs ->
  (let owned :=
     List.filter (fun en => JS.is_str (JS.prop en "id") id)
       (default [] (FileServer.vaults fs !! B)) in
   let answer := (FileServer.updateEntry e a id updates fs).2 in
   let stored :=
     default [] (FileServer.vaults (FileServer.updateEntry e a id updates fs).1 !! B) in
   (owned = [] -> answer = Shared.sendJson 404 (Shared.error "Not found")) /\
   (forall en, last owned = Some en ->
      Shared.status answer = 200 /\
      Examples.merges updates (JS.VObj (JS.json_obj en)) (Examples.entry_of answer)
        (Shared.toISOString (Shared.now e)) /\
      Examples.entry_of answer ∈ List.map JS.VObj stored)) /\
  ((forall r,
      (Api.updateEntry e a id updates db).2 = Some r -> Shared.status r = 200 ->
      exists i row row',
        Shared.uuid_in id = Some i /\
        row ∈ Api.password_entries db /\ Api.is_entry i B row = true /\
        row' ∈ Api.password_entries (Api.updateEntry e a id updates db).1 /\
        Examples.entry_of r = Api.entry_of_row row' /\
        Examples.merges updates (Api.entry_of_row row) (Examples.entry_of r)
          (Shared.toISOString (Shared.current_timestamp e))) /\
   (forall c i,
      Api.pool db = true -> updates <> JS.VNull -> updates <> JS.VUndef ->
      Api.bind_changes updates = Api.Done c ->
      Shared.uuid_in id = Some i -> Api.has_nul B = false ->
      let owned := List.filter (Api.is_entry i B) (Api.password_entries db) in
      (owned = [] ->
       Api.updateEntry e a id updates db
       = (db, Some (Shared.sendJson 404 (Shared.error "Not found")))) /\
      (owned <> [] ->
       exists r, (Api.updateEntry e a id updates db).2 = Some r /\ Shared.status r = 200))).
Proof.
  intros Hf Ha Hup Hwf. split.
  - intros owned answer stored. subst owned answer stored.
    rewrite (UpdateFacts.file_update_as _ _ _ _ _ _ Hf). cbn [fst snd JS.to_string].
    split; [by intros ->|]. intros en Hlast. rewrite Hlast.
    pose proof (last_Some_elem_of _ _ Hlast) as Hel.
    apply list_elem_of_In, filter_In in Hel. destruct Hel as [Hin Hid].
    assert (Hen : Examples.distinct_keys en).
    { pose proof (VaultInvariant.well_formed_loaded B fs Hwf) as Hall.
      rewrite Forall_forall in Hall. apply Hall. by apply list_elem_of_In. }
    rewrite JsonFacts.entry_of_sendJson.
    split; [done|]. split; [by apply UpdateFacts.file_merged_merges|].
    cbn [FileServer.saveEntries FileServer.set_vaults FileServer.vaults].
    rewrite lookup_insert_eq. cbn [default].
    apply list_elem_of_In, in_map, in_map_iff.
    exists (FileServer.merged e en updates). split; [done|].
    apply in_map_iff. exists en. by rewrite Hid.
  - split.
    + intros r Hr H200.
      destruct (ApiUpdateFacts.api_update_200 _ _ _ _ _ _ _ Ha Hr H200)
        as (c & i & row & rest & Hc & Hi & Hrows & -> & Hafter).
      assert (Hrow : In row (List.filter (Api.is_entry i B) (Api.password_entries db)))
        by (rewrite Hrows; by left).
      apply filter_In in Hrow. destruct Hrow as [Hin Hit].
      exists i, row, (Api.apply_changes c (Shared.current_timestamp e) row).
      rewrite ApiUpdateFacts.entry_of_row_answer.
      repeat split; try done.
      * by apply list_elem_of_In.
      * rewrite Hafter. apply list_elem_of_In, in_map_iff. exists row.
        by rewrite Hit.
      * by apply ApiUpdateFacts.api_changes_merge.
      * by apply ApiUpdateFacts.api_changes_merge.
    + intros c i Hpool Hn Hu Hc Hi Hnul owned. split.
      * intros Hnone. by apply (ApiUpdateFacts.api_update_404 e a id updates db B c i).
      * intros Hsome. destruct owned as [|row rest] eqn:Hrows; [done|].
        rewrite (ApiUpdateFacts.api_update_found e a id updates db B c i row rest) by done.
        by eexists.
Qed.

(** C6 does not hold of the relational server: a field that is present
    in the payload with a falsy value is not merged. Alice has two
    entries, the first with the note [old]. Her update of that entry
    with the payload [{ note: "" }] is answered 200 with the note still
    [old], and the row keeps it ([if (updates.note)] skips the column),
    though its [updated_at] is refreshed. The file-backed server merges
    the field: the entry it answers and the entry it stores have the
    empty note. On both servers the other entry is as it was. *)
Theorem C6_falsy_field_not_merged :
  let a := Examples.bearer "t0" in
  let e := Scenarios.env_last in
  let id := Examples.entry_id in
  let other := Scenarios.second_id in
  let updates := JS.VObj [("note", JS.VStr "")] in
  let api :=
    Api.updateEntry (H := Examples.sample_platform) e a id updates Scenarios.api_two in
  let file :=
    FileServer.updateEntry (H := Examples.sample_platform) e a id updates
      Scenarios.file_two in
  let rows (st : Api.state) :=
    List.map (fun r => (Api.id r, Api.note r, Api.updated_at r))
      (Api.password_entries st) in
  let entries (st : FileServer.state) :=
    List.map (fun en => (JS.prop en "id", JS.prop en "note", JS.prop en "updatedAt"))
      (default [] (FileServer.vaults st !! "alice")) in
  JS.own_props updates = [("note", JS.VStr "")] /\
  (rows Scenarios.api_two = [(id, Some "old", 3000); (other, None, 5000)] /\
   (exists r,
      api.2 = Some r /\
      Shared.status r = 200 /\
      JS.field (Examples.entry_of r) "id" = JS.VStr id /\
      JS.field (Examples.entry_of r) "note" = JS.VStr "old" /\
      JS.field (Examples.entry_of r) "updatedAt" = JS.VStr "6000") /\
   rows api.1 = [(id, Some "old", 6000); (other, None, 5000)]) /\
  (entries Scenarios.file_two
   = [(JS.VStr other, JS.VUndef, JS.VStr "5000");
      (JS.VStr id, JS.VStr "old", JS.VStr "3000")] /\
   Shared.status file.2 = 200 /\
   JS.field (Examples.entry_of file.2) "id" = JS.VStr id /\
   JS.field (Examples.entry_of file.2) "note" = JS.VStr "" /\
   entries file.1
   = [(JS.VStr other, JS.VUndef, JS.VStr "5000");
      (JS.VStr id, JS.VStr "", JS.VStr "6000")]).
Proof.
  split; [reflexivity|]. split.
  - split; [vm_compute; reflexivity|]. split; [|vm_compute; reflexivity].
    eexists. split; [vm_compute; reflexivity|]. repeat split.
  - repeat split; vm_compute; reflexivity.
Qed.

(** ** The immutable fields of an entry (claim C9) *)

Module IdentityFacts.
Import JS Shared Examples SharedFacts SessionFacts IsolationFacts.

Section Identity.
Context `{Platform}.

(** The relational update sets a fixed list of columns: whatever the
    payload holds, every row keeps its [id], [owner] and [created_at]. *)
Lemma api_update_keeps_identity (e : env) (a id_param : string) (updates : value)
    (st : Api.state) :
  List.map identity_of (Api.password_entries (Api.updateEntry e a id_param updates st).1)
  = List.map identity_of (Api.password_entries st).
Proof.
  unfold Api.updateEntry, Api.with_auth.
  destruct (getAuth _ _ _) as [[u|] ss]; [|done].
  destruct (Api.pool _); cbn [negb]; [|done].
  unfold Api.finish. unfold_outcome.
  repeat (case_match; simplify_eq/=); try done;
    rewrite List.map_map; apply List.map_ext; intros r'; by repeat case_match.
Qed.

End Identity.

End IdentityFacts.

(** C9 at the failing input: Alice's payload names [id], [owner] and
    [createdAt]. The file-backed server spreads the payload over the
    entry, so the entry it answers with and stores has the payload's
    [id], [owner] and [createdAt]; the relational server, whose update
    sets a fixed list of columns, answers with all three unchanged. *)
Theorem C9_payload_overwrites_identity :
  let a := Examples.bearer "t0" in
  let e := Examples.env_later in
  let updates :=
    JS.VObj [("id", JS.VStr "x"); ("owner", JS.VStr "mallory");
             ("createdAt", JS.VStr "1970-01-01T00:00:00.000Z")] in
  let file_after :=
    FileServer.updateEntry (H := Examples.sample_platform) e a Examples.entry_id updates
      Examples.file_vault in
  FileServer.vaults Examples.file_vault !! "alice" = Some [Examples.stored_entry] /\
  Shared.status file_after.2 = 200 /\
  (exists en,
     FileServer.vaults file_after.1 !! "alice" = Some [en] /\
     Examples.entry_of file_after.2 = JS.VObj en /\
     JS.prop en "id" = JS.VStr "x" /\
     JS.prop en "owner" = JS.VStr "mallory" /\
     JS.prop en "createdAt" = JS.VStr "1970-01-01T00:00:00.000Z") /\
  (exists r,
     (Api.updateEntry (H := Examples.sample_platform) e a Examples.entry_id updates
        Examples.api_vault).2 = Some r /\
     Shared.status r = 200 /\
     JS.field (Examples.entry_of r) "id" = JS.VStr Examples.entry_id /\
     JS.field (Examples.entry_of r) "owner" = JS.VStr "alice" /\
     JS.field (Examples.entry_of r) "createdAt" = JS.VStr "3000").
Proof.
  split; [vm_compute; reflexivity|]. split; [vm_compute; reflexivity|]. split.
  - eexists. split; [vm_compute; reflexivity|]. repeat split.
  - eexists. split; [vm_compute; reflexivity|]. repeat split.
Qed.

(** ** Categories (claims C7, C8 and C2) *)

(** C7 at the failing input: Alice's only entry is tagged [work]. The
    file-backed server derives the categories from the [category] field of
    the entries, which [addEntry] never writes, and answers with no
    category; after a payload [{ category: "misc" }] it answers [misc],
    which is no tag of any entry. The relational server answers [work]. *)
Theorem C7_categories_ignore_tags :
  let a := Examples.bearer "t0" in
  let e := Examples.env_later in
  let recategorised :=
    (FileServer.updateEntry (H := Examples.sample_platform) e a Examples.entry_id
       (JS.VObj [("category", JS.VStr "misc")]) Examples.file_vault).1 in
  (exists en,
     FileServer.vaults Examples.file_vault !! "alice" = Some [en] /\
     JS.prop en "tags" = JS.VArr [JS.VStr "work"]) /\
  (FileServer.listCategories e a Examples.file_vault).2
  = Shared.sendJson 200 (JS.VObj [("categories", JS.VArr [])]) /\
  (exists en,
     FileServer.vaults recategorised !! "alice" = Some [en] /\
     JS.prop en "tags" = JS.VArr [JS.VStr "work"]) /\
  (FileServer.listCategories e a recategorised).2
  = Shared.sendJson 200 (JS.VObj [("categories", JS.VArr [JS.VStr "misc"])]) /\
  (Api.listCategories e a Examples.api_vault).2
  = Some (Shared.sendJson 200 (JS.VObj [("categories", JS.VArr [JS.VStr "work"])])).
Proof.
  repeat split; try (vm_compute; reflexivity);
    eexists; (split; [vm_compute; reflexivity|reflexivity]).
Qed.

(** C8 at the failing inputs. On the relational server Alice deletes the
    category [zzz], which no entry carries: her row keeps its tags but its
    [updated_at] moves from 3000 to 4000 (the update sets it on every row
    of the owner). On the file-backed server she deletes the category
    [work], which her entry carries as a tag: the entry is stored as it
    was, tag included (the route compares the [category] field). *)
Theorem C8_delete_category :
  let a := Examples.bearer "t0" in
  let e := Examples.env_later in
  let db_after :=
    Api.deleteCategory e a "zzz" Examples.api_vault in
  let file_after := FileServer.deleteCategory (H := Examples.sample_platform) e a "work"
                      Examples.file_vault in
  List.map (fun r => (Api.tags r, Api.updated_at r)) (Api.password_entries Examples.api_vault)
  = [(Some [Some "work"], 3000)] /\
  db_after.2 = Some (Shared.sendJson 200 Shared.ok_true) /\
  List.map (fun r => (Api.tags r, Api.updated_at r)) (Api.password_entries db_after.1)
  = [(Some [Some "work"], 4000)] /\
  FileServer.vaults Examples.file_vault !! "alice" = Some [Examples.stored_entry] /\
  file_after.2 = Shared.sendJson 200 Shared.ok_true /\
  FileServer.vaults file_after.1 !! "alice" = Some [Examples.stored_entry] /\
  JS.prop Examples.stored_entry "tags" = JS.VArr [JS.VStr "work"].
Proof. repeat split; vm_compute; reflexivity. Qed.

(** C2 at the failing input: the same script (Alice and Bob register
    and log in, Alice adds an entry tagged [work] and asks for her
    categories), with the same clock and random values, gets the same
    answers from both servers up to the last request, which the
    file-backed server answers with no category and the relational one
    with [work]. *)
Theorem C2_backends_diverge :
  let file_answers :=
    (FileServer.run (H := Examples.sample_platform) Examples.script_categories
       FileServer.initial).2 in
  let db_answers :=
    (Api.run (H := Examples.sample_platform) Examples.script_categories Api.initial).2 in
  List.map Shared.status file_answers = [201; 201; 200; 200; 201; 200] /\
  List.map (fun o => Shared.status <$> o) db_answers
  = [Some 201; Some 201; Some 200; Some 200; Some 201; Some 200] /\
  last file_answers
  = Some (Shared.sendJson 200 (JS.VObj [("categories", JS.VArr [])])) /\
  last db_answers
  = Some (Some (Shared.sendJson 200
                  (JS.VObj [("categories", JS.VArr [JS.VStr "work"])]))).
Proof. repeat split; vm_compute; reflexivity. Qed.

(** * Further properties *)

(** ** The guard of the authenticated routes *)

Module GuardFacts.
Import JS Shared Examples Scenarios SharedFacts SessionFacts IsolationFacts.

Section Guard.
Context `{Platform}.

Lemma file_with_auth_none (e : env) (a : string) (st : FileServer.state)
    (k : value -> FileServer.state -> FileServer.state * response) :
  (getAuth a (now e) (FileServer.sessions st)).1 = None ->
  FileServer.with_auth e a st k
  = (FileServer.set_sessions (getAuth a (now e) (FileServer.sessions st)).2 st,
     sendJson 401 (error "Unauthorized")).
Proof.
  intros Hg. unfold FileServer.with_auth.
  destruct (getAuth _ _ _) as [o ss]. cbn in Hg. by subst o.
Qed.

Lemma api_with_auth_none (e : env) (a : string) (st : Api.state)
    (k : value -> Api.state -> Api.state * option response) :
  (getAuth a (now e) (Api.sessions st)).1 = None ->
  Api.with_auth e a st k
  = (Api.set_sessions (getAuth a (now e) (Api.sessions st)).2 st,
     Some (sendJson 401 (error "Unauthorized"))).
Proof.
  intros Hg. unfold Api.with_auth.
  destruct (getAuth _ _ _) as [o ss]. cbn in Hg. by subst o.
Qed.

(** Every guarded route of the file-backed server is the guard followed
    by something. *)
Lemma file_handle_guarded (e : env) (r : request) (a : string) (st : FileServer.state) :
  authorization_of r = Some a ->
  exists k, FileServer.handle e r st = FileServer.with_auth e a st k.
Proof.
  destruct r; intros [= <-]; cbn [FileServer.handle]; eexists; reflexivity.
Qed.

Lemma api_handle_guarded (e : env) (r : request) (a : string) (st : Api.state) :
  authorization_of r = Some a ->
  exists k, Api.handle e r st = Api.with_auth e a st k.
Proof.
  destruct r; intros [= <-]; cbn [Api.handle]; eexists; reflexivity.
Qed.

End Guard.
End GuardFacts.

(** X1: a request to any route but registration and login whose
    [Authorization] header does not resolve to a session (no header, no
    [Bearer] token, an unknown token or an expired one) is answered 401
    'Unauthorized' by both servers and stores nothing: the users, the
    vaults and the rows are as they were, and the session map is as
    [getAuth] left it. *)
Theorem X1_unauthorized_stores_nothing `{Shared.Platform} (e : Shared.env)
    (r : Shared.request) (a : string) (fs : FileServer.state) (db : Api.state) :
  Scenarios.authorization_of r = Some a ->
  (Shared.getAuth a (Shared.now e) (FileServer.sessions fs)).1 = None ->
  (Shared.getAuth a (Shared.now e) (Api.sessions db)).1 = None ->
  FileServer.handle e r fs
  = (FileServer.set_sessions (Shared.getAuth a (Shared.now e) (FileServer.sessions fs)).2 fs,
     Shared.sendJson 401 (Shared.error "Unauthorized")) /\
  Api.handle e r db
  = (Api.set_sessions (Shared.getAuth a (Shared.now e) (Api.sessions db)).2 db,
     Some (Shared.sendJson 401 (Shared.error "Unauthorized"))).
Proof.
  intros Hr Hf Ha. split.
  - destruct (GuardFacts.file_handle_guarded e r a fs Hr) as [k ->].
    by apply GuardFacts.file_with_auth_none.
  - destruct (GuardFacts.api_handle_guarded e r a db Hr) as [k ->].
    by apply GuardFacts.api_with_auth_none.
Qed.

(** Bob's token [t1] at a time past its expiry: his request to delete
    Alice's entry is answered 401 and the session is evicted. *)
Lemma X1_unauthorized_stores_nothing_witness :
  let e := Examples.sample_env 90000000 "" "" "" in
  let r := Shared.DeleteEntry (Examples.bearer "t1") Examples.entry_id in
  Scenarios.authorization_of r = Some (Examples.bearer "t1") /\
  (FileServer.handle (H := Examples.sample_platform) e r Examples.file_vault).2
  = Shared.sendJson 401 (Shared.error "Unauthorized") /\
  FileServer.vaults (FileServer.handle (H := Examples.sample_platform) e r
                       Examples.file_vault).1
  = FileServer.vaults Examples.file_vault /\
  Api.password_entries (Api.handle (H := Examples.sample_platform) e r Examples.api_vault).1
  = Api.password_entries Examples.api_vault.
Proof.
  intros e r.
  assert (Hr : Scenarios.authorization_of r = Some (Examples.bearer "t1")) by reflexivity.
  assert (Hf : (Shared.getAuth (Examples.bearer "t1") (Shared.now e)
                  (FileServer.sessions Examples.file_vault)).1 = None)
    by (vm_compute; reflexivity).
  assert (Ha : (Shared.getAuth (Examples.bearer "t1") (Shared.now e)
                  (Api.sessions Examples.api_vault)).1 = None)
    by (vm_compute; reflexivity).
  destruct (X1_unauthorized_stores_nothing (H := Examples.sample_platform) e r
              (Examples.bearer "t1") Examples.file_vault Examples.api_vault Hr Hf Ha)
    as [Hfile Hapi].
  split; [exact Hr|]. rewrite Hfile, Hapi. repeat split.
Defined.

(** ** Logins and sessions *)

Module LoginFacts.
Import JS Shared Examples Scenarios SharedFacts SessionFacts IsolationFacts.

Section Login.
Context `{Platform}.

(** The three answers of the file-backed login, and what each leaves. *)
Lemma file_login_cases (e : env) (body : value) (st : FileServer.state) :
  let username := field (or_else body (VObj [])) "username" in
  FileServer.login e body st
  = (FileServer.set_sessions
       (<[randomToken e := session_of e body]> (FileServer.sessions st)) st,
     sendJson 200 (VObj [("token", VStr (randomToken e)); ("username", username)]))
  \/ FileServer.login e body st = (st, sendJson 401 (error "Invalid credentials"))
  \/ FileServer.login e body st = (st, sendJson 500 (error "Server error")).
Proof.
  intros username. unfold FileServer.login. fold username.
  destruct (string_throws username); [eauto|].
  destruct (FileServer.users_get _ _) as [urec| |]; eauto.
  destruct (verifyPassword _ _ _ _) as [[|]|]; eauto.
Qed.

Lemma api_login_cases (e : env) (body : value) (st : Api.state) :
  let username := field (or_else body (VObj [])) "username" in
  Api.login e body st
  = (Api.set_sessions (<[randomToken e := session_of e body]> (Api.sessions st)) st,
     Some (sendJson 200 (VObj [("token", VStr (randomToken e)); ("username", username)])))
  \/ (exists r, Api.login e body st = (st, Some r) /\ (status r = 401 \/ status r = 500))
  \/ Api.login e body st = (st, None).
Proof.
  intros username. unfold Api.login, Api.finish. fold username. unfold_outcome.
  repeat (case_match; simplify_eq/=); eauto 10.
Qed.

(** A request that is no login leaves the session map as it was or as
    its guard left it. *)
Lemma file_sessions_guard (e : env) (r : request) (st : FileServer.state) :
  (forall body, r <> Login body) ->
  let ss := FileServer.sessions st in
  let ss' := FileServer.sessions (FileServer.handle e r st).1 in
  ss' = ss \/ exists a, ss' = (getAuth a (now e) ss).2.
Proof.
  intros Hr ss ss'. subst ss ss'.
  destruct r as [b|b|a|a|a b|a i b|a i|a|a b|a n|a]; cbn [FileServer.handle];
    try (right; exists a; apply file_with_auth_sessions; intros ??;
         unfold FileServer.loadEntries; repeat case_match; cbn;
         by rewrite ?file_sessions_ensureUserVault).
  - left. unfold FileServer.register.
    repeat case_match; cbn [fst]; by rewrite ?file_sessions_ensureUserVault.
  - by destruct (Hr b).
Qed.

Lemma api_sessions_guard (e : env) (r : request) (st : Api.state) :
  (forall body, r <> Login body) ->
  let ss := Api.sessions st in
  let ss' := Api.sessions (Api.handle e r st).1 in
  ss' = ss \/ exists a, ss' = (getAuth a (now e) ss).2.
Proof.
  intros Hr ss ss'. subst ss ss'.
  destruct r as [b|b|a|a|a b|a i b|a i|a|a b|a n|a]; cbn [Api.handle];
    try (right; exists a;
         unfold Api.me, Api.listEntries, Api.listCategories, Api.addCategory,
           Api.deleteCategory, Api.addEntry, Api.bind_entry, Api.updateEntry,
           Api.deleteEntry, Api.export;
         apply api_with_auth_sessions; intros ??; unfold Api.finish; unfold_outcome;
         by repeat (case_match; simplify_eq/=)).
  - left. unfold Api.register. by repeat case_match.
  - by destruct (Hr b).
Qed.

(** What [getAuth] leaves of a session map: a part of it, short of
    expired sessions only. *)
Lemma getAuth_submap (a : string) (t : Z) (ss : session_map) :
  (getAuth a t ss).2 ⊆ ss /\
  forall token sess,
    ss !! token = Some sess -> (getAuth a t ss).2 !! token = None -> expires sess < t.
Proof.
  destruct (getAuth_map a t ss) as [->|(tok & s & Hs & Hexp & ->)].
  - split; [done|]. intros token sess Hs Hn. congruence.
  - split; [apply delete_subseteq|]. intros token sess Hs' Hn.
    destruct (decide (tok = token)) as [->|Hne]; [by simplify_eq|].
    rewrite lookup_delete_ne in Hn by done. congruence.
Qed.

(** The usernames of the sessions of the file-backed server convert to
    strings: a login stores a session after [users[username]] has
    converted the username, and no other request adds one. *)
Lemma file_sessions_plain (e : env) (r : request) (st : FileServer.state) :
  plain_sessions (FileServer.sessions st) ->
  plain_sessions (FileServer.sessions (FileServer.handle e r st).1).
Proof.
  intros Hss.
  assert (Hg : forall a, plain_sessions (getAuth a (now e) (FileServer.sessions st)).2).
  { intros a.
    destruct (getAuth_map a (now e) (FileServer.sessions st))
      as [->|(tok & s & _ & _ & ->)]; [done|].
    by apply map_Forall_delete. }
  destruct r as [b|b|a|a|a b|a i b|a i|a|a b|a n|a];
    try (match goal with
         | |- context [FileServer.handle e ?r st] =>
             destruct (file_sessions_guard e r st) as [->|[a' ->]]; done
         end).
  cbn [FileServer.handle]. unfold FileServer.login.
  destruct (string_throws _) eqn:Hplain; [done|].
  repeat case_match; try done. cbn [fst FileServer.sessions FileServer.set_sessions].
  by apply map_Forall_insert_2.
Qed.

Lemma file_run_sessions_plain (rs : list (env * request)) :
  plain_sessions (FileServer.sessions (FileServer.run rs FileServer.initial).1).
Proof.
  assert (Hrun : forall st, plain_sessions (FileServer.sessions st) ->
            plain_sessions (FileServer.sessions (FileServer.run rs st).1)).
  { induction rs as [|[e r] rs IH]; intros st Hst; [done|]. cbn [FileServer.run].
    pose proof (file_sessions_plain e r st Hst) as Hstep.
    destruct (FileServer.handle e r st) as [st1 resp].
    specialize (IH st1 Hstep). by destruct (FileServer.run rs st1). }
  apply Hrun, map_Forall_empty.
Qed.

End Login.
End LoginFacts.

(** X2: what a login does to the state of either server. Answered 200,
    it stores one session, under the token it returns, with the username
    of the body and an expiry 24 hours after the clock reading, and
    changes nothing else; answered anything else (401 'Invalid
    credentials', or 500), it leaves the whole state as it was. *)
Theorem X2_login_effect `{Shared.Platform} (e : Shared.env) (body : JS.value)
    (fs : FileServer.state) (db : Api.state) :
  let token := Shared.randomToken e in
  let session := Scenarios.session_of e body in
  let answer :=
    Shared.sendJson 200
      (JS.VObj [("token", JS.VStr token);
                ("username", JS.field (JS.or_else body (JS.VObj [])) "username")]) in
  (Shared.status (FileServer.login e body fs).2 ∈ [200; 401; 500] /\
   (Shared.status (FileServer.login e body fs).2 = 200 ->
    FileServer.login e body fs
    = (FileServer.set_sessions (<[token := session]> (FileServer.sessions fs)) fs,
       answer)) /\
   (Shared.status (FileServer.login e body fs).2 <> 200 ->
    (FileServer.login e body fs).1 = fs)) /\
  ((forall r,
      (Api.login e body db).2 = Some r ->
      Shared.status r ∈ [200; 401; 500] /\
      (Shared.status r = 200 ->
       Api.login e body db
       = (Api.set_sessions (<[token := session]> (Api.sessions db)) db, Some answer)) /\
      (Shared.status r <> 200 -> (Api.login e body db).1 = db)) /\
   ((Api.login e body db).2 = None -> (Api.login e body db).1 = db)).
Proof.
  intros token session answer. subst token session answer. split.
  - destruct (LoginFacts.file_login_cases e body fs) as [Hl|[Hl|Hl]]; rewrite Hl;
      cbn [fst snd Shared.status Shared.sendJson];
      (split; [set_solver|]); split; done.
  - destruct (LoginFacts.api_login_cases e body db) as [Hl|[(r' & Hl & Hs)|Hl]];
      rewrite Hl; cbn [fst snd]; (split; [|done]); intros r [= <-].
    + cbn [Shared.status Shared.sendJson]. split; [set_solver|]. split; done.
    + split; [destruct Hs as [-> | ->]; set_solver|]. split; [lia|done].
Qed.

(** X3: only a login creates a session. After any other request the
    session map of either server is a part of what it was: no token is
    added and no session is changed; and, after any request at all, a
    session that is gone had expired before the clock reading of the
    request. *)
Theorem X3_sessions_only_from_login `{Shared.Platform} (e : Shared.env)
    (r : Shared.request) (fs : FileServer.state) (db : Api.state) :
  (forall body, r <> Shared.Login body) ->
  (FileServer.sessions (FileServer.handle e r fs).1 ⊆ FileServer.sessions fs /\
   forall token sess,
     FileServer.sessions fs !! token = Some sess ->
     FileServer.sessions (FileServer.handle e r fs).1 !! token = None ->
     Shared.expires sess < Shared.now e) /\
  (Api.sessions (Api.handle e r db).1 ⊆ Api.sessions db /\
   forall token sess,
     Api.sessions db !! token = Some sess ->
     Api.sessions (Api.handle e r db).1 !! token = None ->
     Shared.expires sess < Shared.now e).
Proof.
  intros Hr. split.
  - destruct (LoginFacts.file_sessions_guard e r fs Hr) as [->|[a ->]].
    + split; [done|]. intros token sess Hs Hn. congruence.
    + apply LoginFacts.getAuth_submap.
  - destruct (LoginFacts.api_sessions_guard e r db Hr) as [->|[a ->]].
    + split; [done|]. intros token sess Hs Hn. congruence.
    + apply LoginFacts.getAuth_submap.
Qed.

(** Alice adds a second entry: the tokens [t0] and [t1] stay as they
    were on both servers. *)
Lemma X3_sessions_only_from_login_witness :
  let r := Shared.AddEntry (Examples.bearer "t0") Examples.body_for_bob in
  (forall body, r <> Shared.Login body) /\
  FileServer.sessions
    (FileServer.handle (H := Examples.sample_platform) Examples.env_add r
       Examples.file_vault).1 ⊆ FileServer.sessions Examples.file_vault /\
  Api.sessions
    (Api.handle (H := Examples.sample_platform) Examples.env_add r Examples.api_vault).1
  ⊆ Api.sessions Examples.api_vault.
Proof.
  intros r.
  assert (Hr : forall body, r <> Shared.Login body) by (intros body; discriminate).
  destruct (X3_sessions_only_from_login (H := Examples.sample_platform) Examples.env_add r
              Examples.file_vault Examples.api_vault Hr) as [[Hf _] [Ha _]].
  exact (conj Hr (conj Hf Ha)).
Defined.

(** ** JSON written and read back *)

Module JsonNormal.
Import JS Shared Examples Scenarios JsonFacts.

Lemma value_nested_ind (P : value -> Prop) :
  P VUndef -> P VNull -> (forall b, P (VBool b)) -> (forall n, P (VNum n)) ->
  (forall s, P (VStr s)) ->
  (forall xs, Forall P xs -> P (VArr xs)) ->
  (forall kvs, Forall (fun kv => P kv.2) kvs -> P (VObj kvs)) ->
  forall v, P v.
Proof.
  intros Hu Hn Hb Hz Hs Ha Ho. fix IH 1.
  intros [| |b|n|s|xs|kvs]; [exact Hu|exact Hn|apply Hb|apply Hz|apply Hs| |].
  - apply Ha. induction xs as [|x xs IHxs]; constructor; [apply IH|exact IHxs].
  - apply Ho. induction kvs as [|[k x] kvs IHkvs]; constructor; [apply IH|exact IHkvs].
Qed.

(** [JSON.stringify] of what was parsed from its output gives the output
    back. *)
Lemma json_of_idemp (v : value) : json_of (json_of v) = json_of v.
Proof.
  induction v as [| | | | |xs IH|kvs IH] using value_nested_ind; try done.
  - cbn [json_of]. f_equal. rewrite List.map_map. apply List.map_ext_in.
    intros x Hx. rewrite Forall_forall in IH. specialize (IH x).
    destruct x; try done; cbn [json_of] in *;
      (rewrite IH; [done|by apply list_elem_of_In]).
  - cbn [json_of]. f_equal. induction kvs as [|[k x] kvs IHkvs]; [done|].
    apply Forall_cons in IH as [Hx IH]. cbn [List.flat_map snd] in *.
    rewrite List.flat_map_app, (IHkvs IH).
    f_equal. destruct x; try done; cbn [List.flat_map app json_of] in *;
      by rewrite ?Hx.
Qed.

Lemma json_of_VObj (o : obj) : json_of (VObj o) = VObj (json_obj o).
Proof. reflexivity. Qed.

Lemma json_obj_idemp (o : obj) : json_obj (json_obj o) = json_obj o.
Proof.
  pose proof (json_of_idemp (VObj o)) as Hi. rewrite !json_of_VObj in Hi.
  by injection Hi.
Qed.

(** The entries of an answer [{ entries }]. *)
Lemma entries_of_sendJson (s : Z) (entries : list obj) :
  entries_of (sendJson s (VObj [("entries", FileServer.entries_json entries)]))
  = List.map (fun en => VObj (json_obj en)) entries.
Proof.
  unfold entries_of, sendJson, FileServer.entries_json. cbn.
  rewrite List.map_map. done.
Qed.

Lemma is_str_json_of (v : value) (s : string) : is_str (json_of v) s = is_str v s.
Proof. by destruct v. Qed.

End JsonNormal.

(** ** The entries of a vault file *)

Module VaultFacts.
Import JS Shared Examples Scenarios SharedFacts SessionFacts IsolationFacts JsonFacts
  AddEntryFacts UpdateFacts VaultInvariant JsonNormal.

Lemma file_vault_saved (key : string) (entries : list obj) (st : FileServer.state) :
  FileServer.vaults (FileServer.saveEntries key entries st) !! key
  = Some (List.map json_obj entries).
Proof. cbn. apply lookup_insert_eq. Qed.

Lemma file_sessions_saveEntries (key : string) (entries : list obj) (st : FileServer.state) :
  FileServer.sessions (FileServer.saveEntries key entries st) = FileServer.sessions st.
Proof. done. Qed.

Lemma file_vault_ensured (key : string) (st : FileServer.state) :
  default [] (FileServer.vaults (FileServer.ensureUserVault key st) !! key)
  = default [] (FileServer.vaults st !! key).
Proof.
  unfold FileServer.ensureUserVault.
  destruct (FileServer.vaults st !! key) eqn:Hk; [by rewrite Hk|].
  cbn. by rewrite lookup_insert_eq.
Qed.

(** An entry with distinct keys has the id of its JSON. *)
Lemma has_id_json_obj (id : string) (en : obj) :
  distinct_keys en ->
  is_str (prop (json_obj en) "id") id = is_str (prop en "id") id.
Proof. intros Hen. by rewrite (prop_json_obj _ _ Hen), is_str_json_of. Qed.

Lemma length_filter_negb {A} (f : A -> bool) (l : list A) :
  (length (List.filter (fun x => negb (f x)) l) =? length l)%nat = negb (existsb f l).
Proof.
  assert (Hle : forall l', (length (List.filter (fun x => negb (f x)) l') <= length l')%nat).
  { induction l' as [|x l' IH]; cbn; [lia|]. destruct (f x); cbn; lia. }
  induction l as [|x l IH]; [done|]. cbn [List.filter existsb].
  destruct (f x); cbn [negb orb length].
  - apply Nat.eqb_neq. specialize (Hle l). lia.
  - exact IH.
Qed.

Lemma existsb_filter_negb {A} (f : A -> bool) (l : list A) :
  existsb f (List.filter (fun x => negb (f x)) l) = false.
Proof.
  induction l as [|x l IH]; [done|]. cbn [List.filter].
  destruct (f x) eqn:Hx; cbn [negb existsb]; by rewrite ?Hx, ?IH.
Qed.

Lemma Forall_list_filter {A} (P : A -> Prop) (c : A -> bool) (l : list A) :
  Forall P l -> Forall P (List.filter c l).
Proof.
  induction 1 as [|x l Hx _ IH]; cbn [List.filter]; [done|].
  destruct (c x); [by constructor|done].
Qed.

Lemma existsb_map_ext {A B} (f : B -> bool) (g : A -> bool) (h : A -> B) (l : list A) :
  Forall (fun x => f (h x) = g x) l -> existsb f (List.map h l) = existsb g l.
Proof.
  induction 1 as [|x l Hx _ IH]; [done|]. cbn [List.map existsb]. by rewrite Hx, IH.
Qed.

Section Vault.
Context `{Platform}.

(** What [DELETE /api/entries/:id] of the file-backed server does under
    the identity [B]. *)
Lemma file_delete_as (e : env) (a id : string) (st : FileServer.state) (B : value) :
  (getAuth a (now e) (FileServer.sessions st)).1 = Some B ->
  let entries := default [] (FileServer.vaults st !! to_string B) in
  let is_it := fun en : obj => is_str (prop en "id") id in
  FileServer.deleteEntry e a id st
  = (FileServer.saveEntries (to_string B)
       (List.filter (fun en => negb (is_it en)) entries)
       (FileServer.ensureUserVault (to_string B) st),
     if existsb is_it entries then sendJson 200 ok_true
     else sendJson 404 (error "Not found")).
Proof.
  intros Hg entries is_it. unfold FileServer.deleteEntry.
  rewrite (file_with_auth_as _ _ _ _ _ Hg). unfold FileServer.loadEntries.
  fold entries. fold is_it. rewrite length_filter_negb, negb_involutive. done.
Qed.

End Vault.
End VaultFacts.

(** X4: on the file-backed server an added entry heads the listing. For
    a session that resolves at both times, the listing after an
    [addEntry] answered 201 is the entry that the [addEntry] answered
    with, followed by the listing as it was before. *)
Theorem X4_added_entry_listed_first `{P : Shared.Platform} (e e' : Shared.env)
    (a : string) (body : JS.value) (B : JS.value) (fs : FileServer.state) :
  (Shared.getAuth a (Shared.now e) (FileServer.sessions fs)).1 = Some B ->
  (Shared.getAuth a (Shared.now e') (FileServer.sessions fs)).1 = Some B ->
  Shared.status (FileServer.addEntry e a body fs).2 = 201 ->
  Examples.entries_of (FileServer.listEntries e' a (FileServer.addEntry e a body fs).1).2
  = Examples.entry_of (FileServer.addEntry e a body fs).2
    :: Examples.entries_of (FileServer.listEntries e' a fs).2.
Proof.
  intros Hg Hg' H201.
  rewrite (AddEntryFacts.file_addEntry_201 _ _ _ _ _ Hg H201). cbn [fst snd].
  rewrite !IsolationFacts.file_list_as with (B := B);
    [|done|by rewrite VaultFacts.file_sessions_saveEntries,
                SessionFacts.file_sessions_ensureUserVault].
  cbn [snd]. rewrite !JsonNormal.entries_of_sendJson, VaultFacts.file_vault_saved.
  cbn [from_option id List.map]. rewrite JsonFacts.entry_of_sendJson.
  rewrite JsonNormal.json_obj_idemp. f_equal.
  rewrite List.map_map. apply List.map_ext. intros en.
  by rewrite JsonNormal.json_obj_idemp.
Qed.

(** Alice adds a second entry at time 5000 and lists at the same time:
    two entries, the new one first. *)
Lemma X4_added_entry_listed_first_witness :
  let a := Examples.bearer "t0" in
  let e := Examples.env_add in
  let added := FileServer.addEntry (H := Examples.sample_platform) e a Examples.body_for_bob
                 Examples.file_vault in
  (Shared.getAuth a (Shared.now e) (FileServer.sessions Examples.file_vault)).1
  = Some (JS.VStr "alice") /\
  Shared.status added.2 = 201 /\
  List.map (fun en => JS.field en "url") (Examples.entries_of (FileServer.listEntries e a added.1).2)
  = [JS.VStr "https://y.com"; JS.VStr "https://x.com"].
Proof.
  intros a e added.
  assert (Hg : (Shared.getAuth a (Shared.now e)
                  (FileServer.sessions Examples.file_vault)).1 = Some (JS.VStr "alice"))
    by (vm_compute; reflexivity).
  assert (H201 : Shared.status added.2 = 201) by (vm_compute; reflexivity).
  split; [exact Hg|]. split; [exact H201|]. unfold added.
  rewrite (X4_added_entry_listed_first (P := Examples.sample_platform) e e a
             Examples.body_for_bob (JS.VStr "alice") Examples.file_vault Hg Hg H201).
  vm_compute. reflexivity.
Defined.

(** X5: [DELETE /api/entries/:id] of the file-backed server, under a
    session of the identity [B]. It answers 200 when an entry of the
    vault of [B] has that id and 404 'Not found' when none has; the vault
    is then the entries of other ids, in their order; and a second
    deletion of the same id is answered 404. The entries of the vault
    are objects with each key once. *)
Theorem X5_file_delete_entry `{P : Shared.Platform} (e e' : Shared.env)
    (a id : string) (B : JS.value) (fs : FileServer.state) :
  (Shared.getAuth a (Shared.now e) (FileServer.sessions fs)).1 = Some B ->
  (Shared.getAuth a (Shared.now e') (FileServer.sessions fs)).1 = Some B ->
  Examples.well_formed fs ->
  let has_id := fun en : JS.obj => JS.is_str (JS.prop en "id") id in
  let before := default [] (FileServer.vaults fs !! JS.to_string B) in
  let after := FileServer.deleteEntry e a id fs in
  after.2 = (if existsb has_id before then Shared.sendJson 200 Shared.ok_true
             else Shared.sendJson 404 (Shared.error "Not found")) /\
  FileServer.vaults after.1 !! JS.to_string B
  = Some (List.map JS.json_obj (List.filter (fun en => negb (has_id en)) before)) /\
  (FileServer.deleteEntry e' a id after.1).2
  = Shared.sendJson 404 (Shared.error "Not found").
Proof.
  intros Hg Hg' Hwf has_id before after. subst after.
  rewrite (VaultFacts.file_delete_as _ _ _ _ _ Hg). cbn [fst snd].
  fold before. fold has_id.
  split; [done|]. split; [apply VaultFacts.file_vault_saved|].
  rewrite VaultFacts.file_delete_as with (B := B)
    by by rewrite VaultFacts.file_sessions_saveEntries,
            SessionFacts.file_sessions_ensureUserVault.
  cbn [snd]. rewrite VaultFacts.file_vault_saved. cbn [from_option Datatypes.id]. fold has_id.
  rewrite (VaultFacts.existsb_map_ext has_id has_id).
  - by rewrite VaultFacts.existsb_filter_negb.
  - apply VaultFacts.Forall_list_filter.
    eapply Forall_impl; [apply (VaultInvariant.well_formed_loaded (JS.to_string B) fs Hwf)|].
    intros en Hen. by apply VaultFacts.has_id_json_obj.
Qed.

(** Alice deletes her entry, twice: 200, then 404, and her vault is
    empty. *)
Lemma X5_file_delete_entry_witness :
  let a := Examples.bearer "t0" in
  let e := Examples.env_later in
  let after := FileServer.deleteEntry e a Examples.entry_id Examples.file_vault in
  (Shared.getAuth a (Shared.now e) (FileServer.sessions Examples.file_vault)).1
  = Some (JS.VStr "alice") /\
  Examples.well_formed Examples.file_vault /\
  after.2 = Shared.sendJson 200 Shared.ok_true /\
  FileServer.vaults after.1 !! "alice" = Some [] /\
  (FileServer.deleteEntry e a Examples.entry_id after.1).2
  = Shared.sendJson 404 (Shared.error "Not found").
Proof.
  intros a e after.
  assert (Hg : (Shared.getAuth a (Shared.now e)
                  (FileServer.sessions Examples.file_vault)).1 = Some (JS.VStr "alice"))
    by (vm_compute; reflexivity).
  assert (Hwf : Examples.well_formed Examples.file_vault)
    by apply VaultInvariant.well_formed_run, VaultInvariant.well_formed_initial.
  destruct (X5_file_delete_entry (P := Examples.sample_platform) e e a Examples.entry_id
              (JS.VStr "alice") Examples.file_vault Hg Hg Hwf) as (Hans & Hvault & Hagain).
  split; [exact Hg|]. split; [exact Hwf|]. split; [|split].
  - etransitivity; [exact Hans|]. vm_compute. reflexivity.
  - etransitivity; [exact Hvault|]. vm_compute. reflexivity.
  - exact Hagain.
Defined.

(** ** The rows of the table *)

Module TableFacts.
Import JS Shared Examples Scenarios SharedFacts SessionFacts IsolationFacts JsonFacts
  JsonNormal VaultFacts.

(** [ORDER BY created_at DESC] rearranges the rows, newest first. *)
Lemma insert_desc_perm (r : Api.entry_row) (rs : list Api.entry_row) :
  Api.insert_desc r rs ≡ₚ r :: rs.
Proof.
  induction rs as [|r' rs IH]; [done|]. cbn [Api.insert_desc].
  destruct (_ <=? _); [done|]. rewrite IH. apply Permutation_swap.
Qed.

Lemma order_by_perm (rs : list Api.entry_row) : Api.order_by_created_at_desc rs ≡ₚ rs.
Proof.
  unfold Api.order_by_created_at_desc. induction rs as [|r rs IH]; [done|].
  cbn [foldr]. by rewrite insert_desc_perm, IH.
Qed.

Lemma insert_desc_sorted (r : Api.entry_row) (rs : list Api.entry_row) :
  newest_first rs -> newest_first (Api.insert_desc r rs).
Proof.
  unfold newest_first. induction 1 as [|r' rs Hs IH Hall]; cbn [Api.insert_desc].
  - repeat constructor.
  - destruct (Z.leb_spec (Api.created_at r') (Api.created_at r)) as [Hle|Hlt].
    + constructor; [by constructor|]. constructor; [done|].
      eapply Forall_impl; [exact Hall|]. cbn. intros x Hx. lia.
    + constructor; [done|].
      apply Forall_forall. intros x Hx%list_elem_of_In%in_insert_desc.
      destruct Hx as [->|Hx]; [lia|].
      rewrite Forall_forall in Hall. by apply Hall, list_elem_of_In.
Qed.

Lemma order_by_sorted (rs : list Api.entry_row) :
  newest_first (Api.order_by_created_at_desc rs).
Proof.
  unfold Api.order_by_created_at_desc. induction rs as [|r rs IH]; [constructor|].
  cbn [foldr]. by apply insert_desc_sorted.
Qed.

Section Tables.
Context `{Platform}.

Lemma entries_of_rows (s : Z) (rows : list Api.entry_row) :
  entries_of (sendJson s (VObj [("entries", VArr (List.map Api.entry_of_row rows))]))
  = List.map Api.entry_of_row rows.
Proof. unfold entries_of, sendJson. cbn. apply json_of_entries. Qed.

(** What [GET /api/entries] of the relational server does under the
    identity [B]. *)
Lemma api_list_as (e : env) (a : string) (st : Api.state) (B : string) :
  (getAuth a (now e) (Api.sessions st)).1 = Some (VStr B) ->
  Api.pool st = true -> Api.has_nul B = false ->
  Api.listEntries e a st
  = (st, Some (sendJson 200
                 (VObj [("entries",
                         VArr (List.map Api.entry_of_row
                                 (Api.order_by_created_at_desc
                                    (List.filter (Api.owned_by B)
                                       (Api.password_entries st)))))]))).
Proof.
  intros Hg Hpool Hnul. unfold Api.listEntries.
  rewrite (api_with_auth_as _ _ _ _ _ Hg), Hpool. cbn [negb Api.bind_text].
  rewrite Hnul. done.
Qed.

Lemma api_export_as (e : env) (a : string) (st : Api.state) (B : string) :
  (getAuth a (now e) (Api.sessions st)).1 = Some (VStr B) ->
  Api.pool st = true -> Api.has_nul B = false ->
  Api.export e a st
  = (st, Some (sendJson 200
                 (VObj [("version", VNum 1);
                        ("username", VStr B);
                        ("exportedAt", VStr (toISOString (now e)));
                        ("entries",
                         VArr (List.map Api.entry_of_row
                                 (List.filter (Api.owned_by B)
                                    (Api.password_entries st))))]))).
Proof.
  intros Hg Hpool Hnul. unfold Api.export.
  rewrite (api_with_auth_as _ _ _ _ _ Hg), Hpool. cbn [negb Api.bind_text].
  rewrite Hnul. done.
Qed.

(** What [DELETE /api/entries/:id] does under the identity [B], for an
    id that is a uuid. *)
Lemma api_delete_as (e : env) (a id_param : string) (st : Api.state) (B i : string) :
  (getAuth a (now e) (Api.sessions st)).1 = Some (VStr B) ->
  Api.pool st = true -> Api.has_nul B = false -> uuid_in id_param = Some i ->
  Api.deleteEntry e a id_param st
  = (Api.set_entries (List.filter (fun r => negb (Api.is_entry i B r))) st,
     Some (if existsb (Api.is_entry i B) (Api.password_entries st)
           then sendJson 200 ok_true else sendJson 404 (error "Not found"))).
Proof.
  intros Hg Hpool Hnul Hi. unfold Api.deleteEntry.
  rewrite (api_with_auth_as _ _ _ _ _ Hg), Hpool. cbn [negb Api.bind_text].
  unfold Api.bind_uuid. rewrite Hi, Hnul. cbn.
  change (fun r : Api.entry_row => Api.is_entry i B r) with (Api.is_entry i B).
  by destruct (existsb _ _).
Qed.

End Tables.
End TableFacts.

(** X6: [GET /api/entries] of the relational server, with the database
    configured and under a session of the user [B]: the answer is 200
    and its entries are the rows owned by [B], each once, newest first
    (no entry is older than one that follows it); the request changes
    nothing. *)
Theorem X6_api_list_newest_first `{P : Shared.Platform} (e : Shared.env) (a : string)
    (B : string) (db : Api.state) :
  (Shared.getAuth a (Shared.now e) (Api.sessions db)).1 = Some (JS.VStr B) ->
  Api.pool db = true -> Api.has_nul B = false ->
  exists r rows,
    Api.listEntries e a db = (db, Some r) /\
    Shared.status r = 200 /\
    Examples.entries_of r = List.map Api.entry_of_row rows /\
    rows ≡ₚ List.filter (Api.owned_by B) (Api.password_entries db) /\
    Scenarios.newest_first rows.
Proof.
  intros Hg Hpool Hnul. rewrite (TableFacts.api_list_as _ _ _ _ Hg Hpool Hnul).
  eexists _, _. split; [reflexivity|]. split; [reflexivity|].
  split; [apply TableFacts.entries_of_rows|].
  split; [apply TableFacts.order_by_perm | apply TableFacts.order_by_sorted].
Qed.

(** Alice's two entries, listed at time 6000: the one of time 5000
    before the one of time 3000. *)
Lemma X6_api_list_newest_first_witness :
  let a := Examples.bearer "t0" in
  (Shared.getAuth a (Shared.now Scenarios.env_last) (Api.sessions Scenarios.api_two)).1
  = Some (JS.VStr "alice") /\
  Api.pool Scenarios.api_two = true /\ Api.has_nul "alice" = false /\
  exists r,
    (Api.listEntries (H := Examples.sample_platform) Scenarios.env_last a
       Scenarios.api_two).2 = Some r /\
    List.map (fun en => JS.field en "createdAt") (Examples.entries_of r)
    = [JS.VStr "5000"; JS.VStr "3000"].
Proof.
  intros a.
  assert (Hg : (Shared.getAuth a (Shared.now Scenarios.env_last)
                  (Api.sessions Scenarios.api_two)).1 = Some (JS.VStr "alice"))
    by (vm_compute; reflexivity).
  assert (Hpool : Api.pool Scenarios.api_two = true) by reflexivity.
  assert (Hnul : Api.has_nul "alice" = false) by reflexivity.
  destruct (X6_api_list_newest_first (P := Examples.sample_platform) Scenarios.env_last a
              "alice" Scenarios.api_two Hg Hpool Hnul) as (r & rows & Hl & _).
  split; [exact Hg|]. split; [exact Hpool|]. split; [exact Hnul|].
  exists r. split; [by rewrite Hl|].
  revert Hl. vm_compute. intros [= <-]. reflexivity.
Defined.

(** X7: [DELETE /api/entries/:id] of the relational server, with the
    database configured and under a session of the user [B]. An id that
    is no uuid is answered 500 'Database error' and nothing changes. For
    a uuid, the answer is 200 when a row of that id is owned by [B] and
    404 'Not found' when none is; the table is then the other rows, in
    their order; and a second deletion of the same id is answered 404. *)
Theorem X7_api_delete_entry `{P : Shared.Platform} (e e' : Shared.env)
    (a id : string) (B : string) (db : Api.state) :
  (Shared.getAuth a (Shared.now e) (Api.sessions db)).1 = Some (JS.VStr B) ->
  (Shared.getAuth a (Shared.now e') (Api.sessions db)).1 = Some (JS.VStr B) ->
  Api.pool db = true -> Api.has_nul B = false ->
  let after := Api.deleteEntry e a id db in
  (Shared.uuid_in id = None -> after = (db, Some Api.database_error)) /\
  (forall i, Shared.uuid_in id = Some i ->
     after.2 = Some (if existsb (Api.is_entry i B) (Api.password_entries db)
                     then Shared.sendJson 200 Shared.ok_true
                     else Shared.sendJson 404 (Shared.error "Not found")) /\
     Api.password_entries after.1
     = List.filter (fun r => negb (Api.is_entry i B r)) (Api.password_entries db) /\
     (Api.deleteEntry e' a id after.1).2
     = Some (Shared.sendJson 404 (Shared.error "Not found"))).
Proof.
  intros Hg Hg' Hpool Hnul after. subst after. split.
  - intros Hi. unfold Api.deleteEntry.
    rewrite (IsolationFacts.api_with_auth_as _ _ _ _ _ Hg), Hpool. cbn [negb].
    unfold Api.bind_uuid. by rewrite Hi.
  - intros i Hi. rewrite (TableFacts.api_delete_as _ _ _ _ _ _ Hg Hpool Hnul Hi).
    cbn [fst snd Api.set_entries Api.password_entries].
    split; [done|]. split; [done|].
    rewrite (TableFacts.api_delete_as e' a id _ B i); [|done|done|done|done].
    cbn [snd Api.set_entries Api.password_entries].
    by rewrite VaultFacts.existsb_filter_negb.
Qed.

(** Alice deletes her entry on the relational server, and then asks
    again: 200, then 404; an id that is no uuid is answered 500. *)
Lemma X7_api_delete_entry_witness :
  let a := Examples.bearer "t0" in
  let e := Examples.env_later in
  let after := Api.deleteEntry (H := Examples.sample_platform) e a Examples.entry_id
                 Examples.api_vault in
  (Shared.getAuth a (Shared.now e) (Api.sessions Examples.api_vault)).1
  = Some (JS.VStr "alice") /\
  Api.pool Examples.api_vault = true /\ Api.has_nul "alice" = false /\
  after.2 = Some (Shared.sendJson 200 Shared.ok_true) /\
  Api.password_entries after.1 = [] /\
  (Api.deleteEntry (H := Examples.sample_platform) e a Examples.entry_id after.1).2
  = Some (Shared.sendJson 404 (Shared.error "Not found")).
Proof.
  intros a e after.
  assert (Hg : (Shared.getAuth a (Shared.now e) (Api.sessions Examples.api_vault)).1
               = Some (JS.VStr "alice")) by (vm_compute; reflexivity).
  assert (Hpool : Api.pool Examples.api_vault = true) by reflexivity.
  assert (Hnul : Api.has_nul "alice" = false) by reflexivity.
  destruct (X7_api_delete_entry (P := Examples.sample_platform) e e a Examples.entry_id
              "alice" Examples.api_vault Hg Hg Hpool Hnul) as [_ Huuid].
  destruct (Huuid Examples.entry_id) as (Hans & Hrows & Hagain); [reflexivity|].
  split; [exact Hg|]. split; [exact Hpool|]. split; [exact Hnul|]. split; [|split].
  - etransitivity; [exact Hans|]. vm_compute. reflexivity.
  - etransitivity; [exact Hrows|]. vm_compute. reflexivity.
  - exact Hagain.
Defined.

(** X8: [GET /api/export] returns the entries that [GET /api/entries]
    returns, under a session of the identity [B]. On the file-backed
    server the two answers hold the same list of entries, with
    [version: 1] and the username of the session, and the two requests
    leave the same state. On the relational server (database configured)
    the export holds the rows owned by [B] in the order of the table, a
    rearrangement of the listing, which is newest first. *)
Theorem X8_export_lists_entries `{P : Shared.Platform} (e : Shared.env) (a : string)
    (B : string) (fs : FileServer.state) (db : Api.state) :
  (Shared.getAuth a (Shared.now e) (FileServer.sessions fs)).1 = Some (JS.VStr B) ->
  (Shared.getAuth a (Shared.now e) (Api.sessions db)).1 = Some (JS.VStr B) ->
  Api.pool db = true -> Api.has_nul B = false ->
  (let exported := FileServer.export e a fs in
   let listed := FileServer.listEntries e a fs in
   Shared.status exported.2 = 200 /\
   JS.field (Shared.body exported.2) "version" = JS.VNum 1 /\
   JS.field (Shared.body exported.2) "username" = JS.VStr B /\
   JS.field (Shared.body exported.2) "exportedAt"
   = JS.VStr (Shared.toISOString (Shared.now e)) /\
   Examples.entries_of exported.2 = Examples.entries_of listed.2 /\
   exported.1 = listed.1) /\
  (exists r r',
     Api.export e a db = (db, Some r) /\ Api.listEntries e a db = (db, Some r') /\
     Shared.status r = 200 /\
     JS.field (Shared.body r) "version" = JS.VNum 1 /\
     JS.field (Shared.body r) "username" = JS.VStr B /\
     Examples.entries_of r
     = List.map Api.entry_of_row
         (List.filter (Api.owned_by B) (Api.password_entries db)) /\
     Examples.entries_of r ≡ₚ Examples.entries_of r').
Proof.
  intros Hf Ha Hpool Hnul. split.
  - unfold FileServer.export, FileServer.listEntries.
    rewrite !(IsolationFacts.file_with_auth_as _ _ _ _ _ Hf).
    cbn [FileServer.loadEntries fst snd]. unfold FileServer.loadEntries.
    repeat split.
  - rewrite (TableFacts.api_export_as _ _ _ _ Ha Hpool Hnul).
    rewrite (TableFacts.api_list_as _ _ _ _ Ha Hpool Hnul).
    eexists _, _. split; [reflexivity|]. split; [reflexivity|].
    split; [reflexivity|]. split; [reflexivity|]. split; [reflexivity|].
    assert (Hex : forall s o,
              Examples.entries_of
                (Shared.sendJson s
                   (JS.VObj [("version", JS.VNum 1); ("username", JS.VStr B);
                             ("exportedAt", JS.VStr o);
                             ("entries",
                              JS.VArr (List.map Api.entry_of_row
                                         (List.filter (Api.owned_by B)
                                            (Api.password_entries db))))]))
              = List.map Api.entry_of_row
                  (List.filter (Api.owned_by B) (Api.password_entries db))).
    { intros s o. unfold Examples.entries_of, Shared.sendJson. cbn.
      apply IsolationFacts.json_of_entries. }
    rewrite Hex, TableFacts.entries_of_rows. split; [done|].
    apply Permutation_map. symmetry. apply TableFacts.order_by_perm.
Qed.

(** Alice exports her two entries at time 6000: the relational export
    has them in the order of the table, the older first, where the
    listing has the newer first. *)
Lemma X8_export_lists_entries_witness :
  let a := Examples.bearer "t0" in
  let e := Scenarios.env_last in
  (Shared.getAuth a (Shared.now e) (FileServer.sessions Scenarios.file_two)).1
  = Some (JS.VStr "alice") /\
  (Shared.getAuth a (Shared.now e) (Api.sessions Scenarios.api_two)).1
  = Some (JS.VStr "alice") /\
  Examples.entries_of
    (FileServer.export (H := Examples.sample_platform) e a Scenarios.file_two).2
  = Examples.entries_of (FileServer.listEntries e a Scenarios.file_two).2 /\
  exists r,
    (Api.export (H := Examples.sample_platform) e a Scenarios.api_two).2 = Some r /\
    List.map (fun en => JS.field en "createdAt") (Examples.entries_of r)
    = [JS.VStr "3000"; JS.VStr "5000"].
Proof.
  intros a e.
  assert (Hf : (Shared.getAuth a (Shared.now e)
                  (FileServer.sessions Scenarios.file_two)).1 = Some (JS.VStr "alice"))
    by (vm_compute; reflexivity).
  assert (Ha : (Shared.getAuth a (Shared.now e) (Api.sessions Scenarios.api_two)).1
               = Some (JS.VStr "alice")) by (vm_compute; reflexivity).
  destruct (X8_export_lists_entries (P := Examples.sample_platform) e a "alice"
              Scenarios.file_two Scenarios.api_two Hf Ha)
    as [(_ & _ & _ & _ & Hsame & _) (r & r' & Hex & _ & _ & _ & _ & Hrows & _)];
    [reflexivity|reflexivity|].
  split; [exact Hf|]. split; [exact Ha|]. split; [exact Hsame|].
  exists r. split; [by rewrite Hex|]. rewrite Hrows. vm_compute. reflexivity.
Defined.

(** ** The database: missing, and its constraints *)

(** X9: the relational server with no database configured ([pool] is
    [null]). No request stores anything or opens a session: the users
    and the rows stay as they were and the session map only loses expired
    sessions. Every request is answered, and with 400, 401 or 500, but
    for [GET /api/me] and [POST /api/categories], which do not use the
    database. A login is answered 500 'Database connection not
    available', as is a listing under a valid session; the export, which
    does not test [pool], is answered 500 'Database error'. *)
Theorem X9_api_without_database `{P : Shared.Platform} (e : Shared.env)
    (r : Shared.request) (db : Api.state) :
  Api.pool db = false ->
  (Api.users (Api.handle e r db).1 = Api.users db /\
   Api.password_entries (Api.handle e r db).1 = Api.password_entries db /\
   Api.sessions (Api.handle e r db).1 ⊆ Api.sessions db) /\
  (exists resp,
     (Api.handle e r db).2 = Some resp /\
     (Shared.status resp ∈ [400; 401; 500] \/
      (exists a, r = Shared.Me a) \/ (exists a body, r = Shared.AddCategory a body))) /\
  (forall body, Api.login e body db = (db, Some Api.no_pool)) /\
  (forall a u,
     (Shared.getAuth a (Shared.now e) (Api.sessions db)).1 = Some u ->
     Api.listEntries e a db = (db, Some Api.no_pool) /\
     Api.export e a db = (db, Some Api.database_error)).
Proof.
  intros Hpool. split; [|split; [|split]].
  - assert (Hss : Api.sessions (Api.handle e r db).1 ⊆ Api.sessions db).
    { assert (Hr : (exists body, r = Shared.Login body)
                   \/ forall body, r <> Shared.Login body)
        by (destruct r; eauto; right; intros body'; discriminate).
      destruct Hr as [[body ->]|Hr].
      - cbn [Api.handle]. unfold Api.login. by rewrite Hpool.
      - destruct (LoginFacts.api_sessions_guard e r db Hr) as [->|[a ->]]; [done|].
        apply LoginFacts.getAuth_submap. }
    split; [|split; [|exact Hss]].
    all: destruct r; cbn [Api.handle];
      unfold Api.register, Api.login, Api.me, Api.listEntries, Api.addEntry,
        Api.updateEntry, Api.deleteEntry, Api.listCategories, Api.addCategory,
        Api.deleteCategory, Api.export, Api.with_auth;
      repeat case_match; simplify_eq/=; rewrite ?Hpool in *; done.
  - destruct r; cbn [Api.handle];
      unfold Api.register, Api.login, Api.me, Api.listEntries, Api.addEntry,
        Api.updateEntry, Api.deleteEntry, Api.listCategories, Api.addCategory,
        Api.deleteCategory, Api.export, Api.with_auth;
      repeat case_match; simplify_eq/=; rewrite ?Hpool in *; simplify_eq/=;
      eexists; (split; [reflexivity|]); cbn; eauto 6; left; set_solver.
  - intros body. unfold Api.login. by rewrite Hpool.
  - intros a u Hg. unfold Api.listEntries, Api.export.
    rewrite !(IsolationFacts.api_with_auth_as _ _ _ _ _ Hg), Hpool. done.
Qed.

(** Every request to the server without a database is refused or
    answered without it: Alice's login is answered 500. *)
Lemma X9_api_without_database_witness :
  Api.pool Scenarios.api_no_pool = false /\
  Api.login (H := Examples.sample_platform) Examples.env_later
    (Examples.credentials "alice" "secret1") Scenarios.api_no_pool
  = (Scenarios.api_no_pool, Some Api.no_pool).
Proof.
  assert (Hpool : Api.pool Scenarios.api_no_pool = false) by reflexivity.
  destruct (X9_api_without_database (P := Examples.sample_platform) Examples.env_later
              (Shared.Login (Examples.credentials "alice" "secret1"))
              Scenarios.api_no_pool Hpool) as (_ & _ & Hlogin & _).
  split; [exact Hpool|]. apply Hlogin.
Defined.

Module ConstraintFacts.
Import JS Shared Examples Scenarios SharedFacts SessionFacts IsolationFacts.

Lemma referential_rows (st st' : Api.state) :
  Api.users st' = Api.users st -> Api.password_entries st' = Api.password_entries st ->
  referential st -> referential st'.
Proof. unfold referential. by intros -> ->. Qed.

Lemma not_in_ids (i : string) (rows : list Api.entry_row) :
  existsb (fun r => String.eqb (Api.id r) i) rows = false ->
  i ∉ List.map Api.id rows.
Proof.
  induction rows as [|r rows IH]; cbn [existsb List.map]; [intros _; apply not_elem_of_nil|].
  intros [Hr Hrows]%orb_false_elim. apply not_elem_of_cons. split; [|by apply IH].
  apply String.eqb_neq in Hr. congruence.
Qed.

(** Inserting a row whose owner is a user and whose id is new. *)
Lemma referential_insert (users : gmap string Api.user_row) (rows : list Api.entry_row)
    (row : Api.entry_row) :
  Forall (fun r => is_Some (users !! Api.owner r)) rows ->
  NoDup (List.map Api.id rows) ->
  is_Some (users !! Api.owner row) ->
  existsb (fun r => String.eqb (Api.id r) (Api.id row)) rows = false ->
  Forall (fun r => is_Some (users !! Api.owner r)) (app rows [row]) /\
  NoDup (List.map Api.id (app rows [row])).
Proof.
  intros Hall Hnd Ho Hi. split.
  - apply Forall_app. split; [done|]. by constructor.
  - rewrite List.map_app. apply NoDup_app. split; [done|]. cbn [List.map].
    split; [|apply NoDup_singleton].
    intros x Hx ->%list_elem_of_singleton. by apply (not_in_ids _ _ Hi).
Qed.

(** Rewriting rows in place, their ids and owners kept. *)
Lemma referential_map (users : gmap string Api.user_row) (rows : list Api.entry_row)
    (f : Api.entry_row -> Api.entry_row) :
  (forall r, Api.id (f r) = Api.id r /\ Api.owner (f r) = Api.owner r) ->
  Forall (fun r => is_Some (users !! Api.owner r)) rows ->
  NoDup (List.map Api.id rows) ->
  Forall (fun r => is_Some (users !! Api.owner r)) (List.map f rows) /\
  NoDup (List.map Api.id (List.map f rows)).
Proof.
  intros Hf Hall Hnd. split.
  - clear Hnd. induction Hall as [|r rows Hr _ IH]; cbn [List.map]; [constructor|].
    constructor; [|done]. by destruct (Hf r) as [_ ->].
  - rewrite List.map_map.
    rewrite (List.map_ext (fun r => Api.id (f r)) Api.id); [done|].
    intros r. by destruct (Hf r).
Qed.

(** Deleting rows. *)
Lemma referential_filter (users : gmap string Api.user_row) (rows : list Api.entry_row)
    (c : Api.entry_row -> bool) :
  Forall (fun r => is_Some (users !! Api.owner r)) rows ->
  NoDup (List.map Api.id rows) ->
  Forall (fun r => is_Some (users !! Api.owner r)) (List.filter c rows) /\
  NoDup (List.map Api.id (List.filter c rows)).
Proof.
  intros Hall Hnd. split; [by apply VaultFacts.Forall_list_filter|].
  induction rows as [|r rows IH]; [done|]. cbn [List.map List.filter] in *.
  apply Forall_cons in Hall as [_ Hall]. apply NoDup_cons in Hnd as [Hr Hnd].
  destruct (c r); [|by apply IH]. cbn [List.map]. apply NoDup_cons.
  split; [|by apply IH].
  intros Hin. apply Hr. apply list_elem_of_In, in_map_iff in Hin as (r' & Hid & Hin).
  apply filter_In in Hin as [Hin _].
  apply list_elem_of_In, in_map_iff. by exists r'.
Qed.

Section Constraints.
Context `{Platform}.

(** Every request keeps the constraints of the table. *)
Lemma referential_handle (e : env) (r : request) (st : Api.state) :
  referential st -> referential (Api.handle e r st).1.
Proof.
  intros [Hall Hnd]. unfold referential.
  destruct r as [b|b|a|a|a b|a i b|a i|a|a b|a n|a]; cbn [Api.handle];
    unfold Api.register, Api.login, Api.me, Api.listEntries, Api.addEntry,
      Api.updateEntry, Api.deleteEntry, Api.listCategories, Api.addCategory,
      Api.deleteCategory, Api.export, Api.with_auth, Api.finish;
    unfold_outcome;
    repeat (case_match; simplify_eq/=); try done.
  all: try (apply referential_filter; done).
  all: try (apply referential_map; [|done|done]; intros r'; by repeat case_match).
  - split; [|done]. eapply Forall_impl; [exact Hall|]. cbn. intros r' [urec Hr'].
    destruct (decide (to_string (field (or_else b (VObj [])) "username") = Api.owner r'))
      as [Heq|Hne].
    + rewrite <- Heq, lookup_insert_eq. eauto.
    + rewrite lookup_insert_ne by done. eauto.
  - apply referential_insert; try done.
    match goal with Hfk : negb (bool_decide _) = false |- _ =>
      apply negb_false_iff in Hfk; by apply (bool_decide_eq_true_1 _) in Hfk end.
Qed.

Lemma referential_run (rs : list (env * request)) (st : Api.state) :
  referential st -> referential (Api.run rs st).1.
Proof.
  revert st. induction rs as [|[e r] rs IH]; intros st Hst; [done|].
  cbn [Api.run]. pose proof (referential_handle e r st Hst) as Hh.
  destruct (Api.handle e r st) as [st1 resp]. specialize (IH st1 Hh).
  by destruct (Api.run rs st1) as [st2 resps].
Qed.

End Constraints.

Lemma referential_initial : referential Api.initial.
Proof. split; [constructor|apply NoDup_nil_2]. Qed.

End ConstraintFacts.

(** X10: the relational server keeps the constraints of the table
    [password_entries] through every sequence of requests: the owner of
    every row is a row of [users], and no two rows have the same id.
    They hold of the empty database. *)
Theorem X10_api_constraints_kept `{P : Shared.Platform}
    (rs : list (Shared.env * Shared.request)) (db : Api.state) :
  Scenarios.referential db ->
  Scenarios.referential (Api.run rs db).1 /\
  Scenarios.referential (Api.run rs Api.initial).1.
Proof.
  intros Hdb. split; [by apply ConstraintFacts.referential_run|].
  apply ConstraintFacts.referential_run, ConstraintFacts.referential_initial.
Qed.

(** The database after the script and Alice's second entry. *)
Lemma X10_api_constraints_kept_witness :
  Scenarios.referential Examples.api_vault /\ Scenarios.referential Scenarios.api_two.
Proof.
  assert (Hdb : Scenarios.referential Examples.api_vault)
    by apply ConstraintFacts.referential_run, ConstraintFacts.referential_initial.
  split; [exact Hdb|].
  exact (proj1 (X10_api_constraints_kept (P := Examples.sample_platform)
                  [Scenarios.second_request] Examples.api_vault Hdb)).
Defined.

(** X11: an entry that names an owner who is no registered user. The
    relational server, whose [owner] column references [users], answers
    500 'Database error' and inserts nothing; the file-backed server,
    which has no such check, answers 201 and keeps the entry, under that
    owner, in the vault of the session's user. *)
Theorem X11_unregistered_owner `{P : Shared.Platform} (e : Shared.env) (a : string)
    (body : JS.value) (B : string) (row : Api.entry_row)
    (fs : FileServer.state) (db : Api.state) :
  (Shared.getAuth a (Shared.now e) (FileServer.sessions fs)).1 = Some (JS.VStr B) ->
  (Shared.getAuth a (Shared.now e) (Api.sessions db)).1 = Some (JS.VStr B) ->
  Api.pool db = true ->
  let b := JS.or_else body (JS.VObj []) in
  JS.truthy (JS.field b "url") && JS.truthy (JS.field b "username")
  && JS.truthy (JS.field b "passwordEncrypted") = true ->
  Api.bind_entry e b (JS.VStr B) = Api.Done row ->
  Api.users db !! Api.owner row = None ->
  Api.addEntry e a body db = (db, Some Api.database_error) /\
  Shared.status (FileServer.addEntry e a body fs).2 = 201 /\
  exists en rest,
    FileServer.vaults (FileServer.addEntry e a body fs).1 !! B = Some (en :: rest) /\
    JS.prop en "owner" = JS.VStr (Api.owner row).
Proof.
  intros Hf Ha Hpool b Hb Hrow Hnone.
  assert (H201 : Shared.status (FileServer.addEntry e a body fs).2 = 201)
    by by apply (AddEntryFacts.file_addEntry_created e a body fs (JS.VStr B)).
  split; [|split; [done|]].
  - unfold Api.addEntry. rewrite (IsolationFacts.api_with_auth_as _ _ _ _ _ Ha).
    fold b. apply andb_prop in Hb as [Hb Hp]. apply andb_prop in Hb as [Hu Hn].
    rewrite Hu, Hn, Hp, Hpool. cbn [negb orb]. rewrite Hrow.
    unfold Api.finish. Examples.unfold_outcome.
    rewrite bool_decide_eq_false_2; [done|]. rewrite Hnone. by intros [??].
  - rewrite (AddEntryFacts.file_addEntry_201 _ _ _ _ _ Hf H201). cbn [fst JS.to_string].
    rewrite VaultFacts.file_vault_saved. cbn [List.map].
    eexists _, _. split; [reflexivity|].
    rewrite JsonFacts.prop_json_obj by apply AddEntryFacts.file_new_entry_keys.
    destruct (AddEntryFacts.bind_entry_Done _ _ _ _ Hrow) as [Ho _].
    change (JS.json_of (JS.or_else (JS.field b "owner") (JS.VStr B))
            = JS.VStr (Api.owner row)).
    by rewrite <- Ho.
Qed.

(** Alice names the owner [ghost]: 500 from the relational server, 201
    from the file-backed one. *)
Lemma X11_unregistered_owner_witness :
  let a := Examples.bearer "t0" in
  let e := Scenarios.env_second in
  (Shared.getAuth a (Shared.now e) (FileServer.sessions Examples.file_vault)).1
  = Some (JS.VStr "alice") /\
  Api.users Examples.api_vault !! "ghost" = None /\
  Api.addEntry (H := Examples.sample_platform) e a Scenarios.ghost_body Examples.api_vault
  = (Examples.api_vault, Some Api.database_error) /\
  Shared.status
    (FileServer.addEntry (H := Examples.sample_platform) e a Scenarios.ghost_body
       Examples.file_vault).2 = 201.
Proof.
  intros a e.
  assert (Hf : (Shared.getAuth a (Shared.now e)
                  (FileServer.sessions Examples.file_vault)).1 = Some (JS.VStr "alice"))
    by (vm_compute; reflexivity).
  assert (Ha : (Shared.getAuth a (Shared.now e) (Api.sessions Examples.api_vault)).1
               = Some (JS.VStr "alice")) by (vm_compute; reflexivity).
  assert (Hnone : Api.users Examples.api_vault !! "ghost" = None)
    by (vm_compute; reflexivity).
  destruct (X11_unregistered_owner (P := Examples.sample_platform) e a Scenarios.ghost_body
              "alice" Scenarios.ghost_row Examples.file_vault Examples.api_vault Hf Ha)
    as (Hapi & H201 & _); [reflexivity|reflexivity|reflexivity|exact Hnone|].
  exact (conj Hf (conj Hnone (conj Hapi H201))).
Defined.

(** ** Categories *)

Module CategoryFacts.
Import JS Shared Examples Scenarios SharedFacts SessionFacts IsolationFacts JsonFacts
  JsonNormal VaultFacts TableFacts.

(** A category is refused unless it is a string that is not empty and
    does not trim to the empty string. *)
Lemma invalid_category_spec `{Platform} (category : value) :
  FileServer.invalid_category category = false
  <-> exists s, category = VStr s /\ s <> "" /\ trim s <> "".
Proof.
  unfold FileServer.invalid_category. split.
  - destruct category as [| | | |s| |]; try discriminate. cbn [truthy].
    intros [Hs Ht]%orb_false_elim. exists s. split; [done|].
    rewrite negb_involutive in Hs.
    split; by apply String.eqb_neq.
  - intros (s & -> & Hs & Ht). cbn [truthy].
    apply String.eqb_neq in Hs, Ht. by rewrite Hs, Ht.
Qed.

Lemma file_vault_ensured_any (key k : string) (st : FileServer.state) :
  default [] (FileServer.vaults (FileServer.ensureUserVault key st) !! k)
  = default [] (FileServer.vaults st !! k).
Proof.
  destruct (decide (k = key)) as [->|Hne]; [apply file_vault_ensured|].
  by rewrite file_ensureUserVault_other.
Qed.

(** Making a vault file that is missing does not change what a listing
    of the categories answers. *)
Lemma file_listCategories_ensured (e : env) (a key : string) (st : FileServer.state) :
  (FileServer.listCategories e a (FileServer.ensureUserVault key st)).2
  = (FileServer.listCategories e a st).2.
Proof.
  unfold FileServer.listCategories, FileServer.with_auth.
  rewrite file_sessions_ensureUserVault.
  destruct (getAuth _ _ _) as [[u|] ss]; [|done].
  unfold FileServer.loadEntries. cbn [snd FileServer.vaults FileServer.set_sessions].
  assert (Hv : FileServer.vaults (FileServer.ensureUserVault key st) !! to_string u
               = FileServer.vaults st !! to_string u
               \/ (FileServer.vaults st !! to_string u = None /\
                   FileServer.vaults (FileServer.ensureUserVault key st) !! to_string u
                   = Some [])).
  { unfold FileServer.ensureUserVault.
    destruct (FileServer.vaults st !! key) eqn:Hk; [by left|]. cbn.
    destruct (decide (to_string u = key)) as [->|Hne].
    - right. by rewrite lookup_insert_eq.
    - left. by rewrite lookup_insert_ne. }
  destruct Hv as [-> | [Hn ->]]; [done|]. by rewrite Hn.
Qed.

(** [DISTINCT] and a filter. *)
Lemma remove_dups_filter {A} `{EqDecision A} (c : A -> bool) (l : list A) :
  remove_dups (List.filter c l) = List.filter c (remove_dups l).
Proof.
  induction l as [|x l IH]; [done|]. cbn [List.filter remove_dups].
  destruct (c x) eqn:Hx.
  - cbn [remove_dups].
    destruct (decide_rel elem_of x l) as [Hin|Hin],
      (decide_rel elem_of x (List.filter c l)) as [Hin'|Hin']; [done| | |].
    + destruct Hin'. apply list_elem_of_In, filter_In.
      split; [by apply list_elem_of_In|done].
    + destruct Hin. apply list_elem_of_In, filter_In in Hin'.
      apply list_elem_of_In, Hin'.
    + cbn [List.filter]. by rewrite Hx, IH.
  - destruct (decide_rel elem_of x l); [done|]. cbn [List.filter]. by rewrite Hx.
Qed.

Lemma flat_map_filter {A B} (f : A -> list B) (c : B -> bool) (l : list A) :
  List.flat_map (fun x => List.filter c (f x)) l = List.filter c (List.flat_map f l).
Proof.
  induction l as [|x l IH]; [done|]. cbn [List.flat_map].
  by rewrite List.filter_app, IH.
Qed.

(** The rows of an owner after [array_remove] on those rows. *)
Lemma filter_owned_map (B : string) (f : Api.entry_row -> Api.entry_row)
    (rows : list Api.entry_row) :
  (forall r, Api.owner (f r) = Api.owner r) ->
  List.filter (Api.owned_by B)
    (List.map (fun r => if Api.owned_by B r then f r else r) rows)
  = List.map f (List.filter (Api.owned_by B) rows).
Proof.
  intros Hf. induction rows as [|r rows IH]; [done|]. cbn [List.map List.filter].
  destruct (Api.owned_by B r) eqn:Hr.
  - assert (Api.owned_by B (f r) = true) as ->; [|by rewrite IH].
    unfold Api.owned_by in *. by rewrite Hf.
  - by rewrite Hr, IH.
Qed.

(** The distinct tags of an owner after the deletion of a category. *)
Lemma distinct_tags_removed (B c : string) (ts : Z) (rows : list Api.entry_row) :
  let removed r :=
    {| Api.id := Api.id r; Api.owner := Api.owner r; Api.url := Api.url r;
       Api.username := Api.username r;
       Api.password_encrypted := Api.password_encrypted r;
       Api.favicon_url := Api.favicon_url r; Api.note := Api.note r;
       Api.tags := Api.array_remove (Api.tags r) c;
       Api.created_at := Api.created_at r; Api.updated_at := ts |} in
  Api.distinct_tags B (List.map (fun r => if Api.owned_by B r then removed r else r) rows)
  = List.filter (fun t => negb (bool_decide (t = Some c))) (Api.distinct_tags B rows).
Proof.
  intros removed. unfold Api.distinct_tags.
  rewrite filter_owned_map by done. rewrite <- remove_dups_filter. f_equal.
  rewrite <- flat_map_filter. generalize (List.filter (Api.owned_by B) rows) as l.
  induction l as [|r l IH]; [done|]. cbn [List.map List.flat_map]. rewrite IH. f_equal.
  cbn [removed Api.tags]. unfold Api.array_remove. by destruct (Api.tags r).
Qed.

(** Removing a tag and then dropping the empty values, or the other way
    round. *)
Lemma categories_removed (c : string) (l : list (option string)) :
  List.filter truthy
    (List.map Api.text_json
       (List.filter (fun t => negb (bool_decide (t = Some c))) l))
  = List.filter (fun v => negb (is_str v c))
      (List.filter truthy (List.map Api.text_json l)).
Proof.
  induction l as [|[s|] l IH]; [done| |].
  - cbn [List.filter List.map]. case_bool_decide as Hs; cbn [negb].
    + injection Hs as ->. cbn [List.map List.filter Api.text_json].
      destruct (truthy (VStr c)); [|done].
      cbn [List.filter is_str]. by rewrite String.eqb_refl.
    + cbn [List.map List.filter Api.text_json].
      destruct (truthy (VStr s)); [|done]. cbn [List.filter is_str].
      assert (String.eqb s c = false) as -> by (apply String.eqb_neq; congruence).
      cbn [negb]. by rewrite IH.
  - cbn [List.filter List.map bool_decide]. rewrite bool_decide_eq_false_2 by done.
    cbn [negb List.map Api.text_json List.filter truthy]. exact IH.
Qed.

Section Categories.
Context `{Platform}.

(** What [GET /api/categories] of the relational server answers under
    the identity [B]. *)
Lemma api_categories_as (e : env) (a : string) (st : Api.state) (B : string) :
  (getAuth a (now e) (Api.sessions st)).1 = Some (VStr B) ->
  Api.pool st = true -> Api.has_nul B = false ->
  Api.listCategories e a st
  = (st, Some (sendJson 200
                 (VObj [("categories",
                         VArr (List.filter truthy
                                 (List.map Api.text_json
                                    (Api.distinct_tags B (Api.password_entries st)))))]))).
Proof.
  intros Hg Hpool Hnul. unfold Api.listCategories.
  rewrite (api_with_auth_as _ _ _ _ _ Hg), Hpool. cbn [negb Api.bind_text].
  rewrite Hnul. done.
Qed.

(** What [DELETE /api/categories/:name] of the relational server does
    under the identity [B]. *)
Lemma api_delete_category_as (e : env) (a c : string) (st : Api.state) (B : string) :
  (getAuth a (now e) (Api.sessions st)).1 = Some (VStr B) ->
  Api.pool st = true -> Api.has_nul B = false -> Api.has_nul c = false ->
  Api.deleteCategory e a c st
  = (Api.set_entries
       (List.map (fun r =>
          if Api.owned_by B r then
            {| Api.id := Api.id r; Api.owner := Api.owner r; Api.url := Api.url r;
               Api.username := Api.username r;
               Api.password_encrypted := Api.password_encrypted r;
               Api.favicon_url := Api.favicon_url r; Api.note := Api.note r;
               Api.tags := Api.array_remove (Api.tags r) c;
               Api.created_at := Api.created_at r;
               Api.updated_at := current_timestamp e |}
          else r)) st,
     Some (sendJson 200 ok_true)).
Proof.
  intros Hg Hpool Hnul Hc. unfold Api.deleteCategory.
  rewrite (api_with_auth_as _ _ _ _ _ Hg), Hpool.
  cbn [negb]. unfold Api.bind_text_not_null. unfold_outcome.
  cbn [Api.bind_text]. cbv beta. rewrite Hc, Hnul. done.
Qed.

End Categories.
End CategoryFacts.

(** X12: [POST /api/categories] stores nothing. Under a valid session
    both servers answer 201 with the category when it is a string that
    is not empty and does not trim to the empty string, and 400 'Invalid
    category' otherwise; the relational server leaves its state as it
    was, the file-backed one at most makes the empty vault file of the
    user; and whoever asks for the categories afterwards gets the answer
    they would have got before. *)
Theorem X12_add_category_stores_nothing `{P : Shared.Platform} (e : Shared.env)
    (a : string) (body : JS.value) (u : JS.value) (fs : FileServer.state) (db : Api.state) :
  (Shared.getAuth a (Shared.now e) (FileServer.sessions fs)).1 = Some u ->
  (Shared.getAuth a (Shared.now e) (Api.sessions db)).1 = Some u ->
  let category := JS.field (JS.or_else body (JS.VObj [])) "category" in
  let valid := exists s, category = JS.VStr s /\ s <> "" /\ Shared.trim s <> "" in
  ((valid -> (FileServer.addCategory e a body fs).2
             = Shared.sendJson 201 (JS.VObj [("category", category)])) /\
   (~ valid -> FileServer.addCategory e a body fs
               = (fs, Shared.sendJson 400 (Shared.error "Invalid category"))) /\
   FileServer.users (FileServer.addCategory e a body fs).1 = FileServer.users fs /\
   FileServer.sessions (FileServer.addCategory e a body fs).1 = FileServer.sessions fs /\
   (forall k, default [] (FileServer.vaults (FileServer.addCategory e a body fs).1 !! k)
              = default [] (FileServer.vaults fs !! k)) /\
   (forall e' a',
      (FileServer.listCategories e' a' (FileServer.addCategory e a body fs).1).2
      = (FileServer.listCategories e' a' fs).2)) /\
  ((valid -> Api.addCategory e a body db
             = (db, Some (Shared.sendJson 201 (JS.VObj [("category", category)])))) /\
   (~ valid -> Api.addCategory e a body db
               = (db, Some (Shared.sendJson 400 (Shared.error "Invalid category"))))).
Proof.
  intros Hf Ha category valid. subst valid.
  pose proof (CategoryFacts.invalid_category_spec category) as Hspec.
  split.
  - unfold FileServer.addCategory.
    rewrite (IsolationFacts.file_with_auth_as _ _ _ _ _ Hf). fold category.
    unfold FileServer.loadEntries.
    destruct (FileServer.invalid_category category) eqn:Hinv.
    + assert (Hno : ~ exists s, category = JS.VStr s /\ s <> "" /\ Shared.trim s <> "")
        by (intros Hv; apply Hspec in Hv; congruence).
      cbn [fst snd]. repeat split; done.
    + assert (Hyes : exists s, category = JS.VStr s /\ s <> "" /\ Shared.trim s <> "")
        by by apply Hspec.
      cbn [fst snd]. repeat split; try done.
      * apply UserStoreFacts.file_users_ensureUserVault.
      * apply SessionFacts.file_sessions_ensureUserVault.
      * intros k. apply CategoryFacts.file_vault_ensured_any.
      * intros e' a'. apply CategoryFacts.file_listCategories_ensured.
  - unfold Api.addCategory.
    rewrite (IsolationFacts.api_with_auth_as _ _ _ _ _ Ha). fold category.
    change (Api.invalid_category category) with (FileServer.invalid_category category).
    destruct (FileServer.invalid_category category) eqn:Hinv.
    + split; [|done]. intros Hv. apply Hspec in Hv. congruence.
    + split; [done|]. intros Hno. destruct Hno. by apply Hspec.
Qed.

(** X13: on the relational server a deleted category is gone from the
    listing and every other category stays. With the database
    configured and under a session of the user [B], the categories
    listed after [DELETE /api/categories/c] are those listed before
    without [c], in the same order. *)
Theorem X13_api_deleted_category_gone `{P : Shared.Platform} (e e' : Shared.env)
    (a c : string) (B : string) (db : Api.state) :
  (Shared.getAuth a (Shared.now e) (Api.sessions db)).1 = Some (JS.VStr B) ->
  (Shared.getAuth a (Shared.now e') (Api.sessions db)).1 = Some (JS.VStr B) ->
  Api.pool db = true -> Api.has_nul B = false -> Api.has_nul c = false ->
  let categories :=
    List.filter JS.truthy
      (List.map Api.text_json (Api.distinct_tags B (Api.password_entries db))) in
  Api.listCategories e' a db
  = (db, Some (Shared.sendJson 200 (JS.VObj [("categories", JS.VArr categories)]))) /\
  (Api.deleteCategory e a c db).2 = Some (Shared.sendJson 200 Shared.ok_true) /\
  (Api.listCategories e' a (Api.deleteCategory e a c db).1).2
  = Some (Shared.sendJson 200
            (JS.VObj [("categories",
                       JS.VArr (List.filter (fun v => negb (JS.is_str v c))
                                  categories))])).
Proof.
  intros Hg Hg' Hpool Hnul Hc categories. subst categories.
  rewrite (CategoryFacts.api_delete_category_as _ _ _ _ _ Hg Hpool Hnul Hc).
  split; [by apply CategoryFacts.api_categories_as|]. split; [done|].
  cbn [fst]. rewrite (CategoryFacts.api_categories_as e' a _ B); [|done|done|done].
  cbn [snd Api.set_entries Api.password_entries].
  rewrite (CategoryFacts.distinct_tags_removed B c (Shared.current_timestamp e)).
  by rewrite CategoryFacts.categories_removed.
Qed.

(** Alice's entries carry [work] and [bank]; after she deletes [work]
    the listing is [bank]. *)
Lemma X13_api_deleted_category_gone_witness :
  let a := Examples.bearer "t0" in
  let e := Scenarios.env_last in
  (Shared.getAuth a (Shared.now e) (Api.sessions Scenarios.api_two)).1
  = Some (JS.VStr "alice") /\
  Api.pool Scenarios.api_two = true /\
  (Api.listCategories e a Scenarios.api_two).2
  = Some (Shared.sendJson 200
            (JS.VObj [("categories", JS.VArr [JS.VStr "work"; JS.VStr "bank"])])) /\
  (Api.listCategories e a (Api.deleteCategory e a "work" Scenarios.api_two).1).2
  = Some (Shared.sendJson 200 (JS.VObj [("categories", JS.VArr [JS.VStr "bank"])])).
Proof.
  intros a e.
  assert (Hg : (Shared.getAuth a (Shared.now e) (Api.sessions Scenarios.api_two)).1
               = Some (JS.VStr "alice")) by (vm_compute; reflexivity).
  assert (Hpool : Api.pool Scenarios.api_two = true) by reflexivity.
  destruct (X13_api_deleted_category_gone (P := Examples.sample_platform) e e a "work"
              "alice" Scenarios.api_two Hg Hg Hpool)
    as (Hbefore & _ & Hafter); [reflexivity|reflexivity|].
  split; [exact Hg|]. split; [exact Hpool|].
  split; [by rewrite Hbefore|]. etransitivity; [exact Hafter|]. reflexivity.
Defined.

(** Alice creates the category [new]: 201, and her categories are listed
    as before. *)
Lemma X12_add_category_stores_nothing_witness :
  let a := Examples.bearer "t0" in
  let e := Examples.env_later in
  let body := JS.VObj [("category", JS.VStr "new")] in
  (Shared.getAuth a (Shared.now e) (FileServer.sessions Examples.file_vault)).1
  = Some (JS.VStr "alice") /\
  (Shared.getAuth a (Shared.now e) (Api.sessions Examples.api_vault)).1
  = Some (JS.VStr "alice") /\
  Api.addCategory (H := Examples.sample_platform) e a body Examples.api_vault
  = (Examples.api_vault,
     Some (Shared.sendJson 201 (JS.VObj [("category", JS.VStr "new")]))) /\
  (FileServer.listCategories e a
     (FileServer.addCategory (H := Examples.sample_platform) e a body
        Examples.file_vault).1).2
  = (FileServer.listCategories e a Examples.file_vault).2.
Proof.
  intros a e body.
  assert (Hf : (Shared.getAuth a (Shared.now e)
                  (FileServer.sessions Examples.file_vault)).1 = Some (JS.VStr "alice"))
    by (vm_compute; reflexivity).
  assert (Ha : (Shared.getAuth a (Shared.now e) (Api.sessions Examples.api_vault)).1
               = Some (JS.VStr "alice")) by (vm_compute; reflexivity).
  destruct (X12_add_category_stores_nothing (P := Examples.sample_platform) e a body
              (JS.VStr "alice") Examples.file_vault Examples.api_vault Hf Ha)
    as [(_ & _ & _ & _ & _ & Hlist) [Hapi _]].
  split; [exact Hf|]. split; [exact Ha|]. split; [|apply Hlist].
  apply Hapi. exists "new". repeat split; discriminate.
Defined.

Module FileCategoryFacts.
Import JS Shared Examples Scenarios SharedFacts SessionFacts IsolationFacts JsonFacts
  JsonNormal VaultFacts VaultInvariant.

Lemma truthy_json_of (v : value) : truthy (json_of v) = truthy v.
Proof. by destruct v. Qed.

Lemma same_value_zero_json_of (x y : value) :
  same_value_zero (json_of x) (json_of y) = same_value_zero x y.
Proof. by destruct x, y. Qed.

Lemma filter_ext_map {A B} (f : A -> B) (c : B -> bool) (d : A -> bool) (l : list A) :
  (forall x, c (f x) = d x) ->
  List.filter c (List.map f l) = List.map f (List.filter d l).
Proof.
  intros Hcd. induction l as [|x l IH]; [done|]. cbn [List.map List.filter].
  rewrite Hcd. destruct (d x); cbn [List.map]; by rewrite IH.
Qed.

Lemma filter_comm {A} (c d : A -> bool) (l : list A) :
  List.filter c (List.filter d l) = List.filter d (List.filter c l).
Proof.
  induction l as [|x l IH]; [done|]. cbn [List.filter].
  destruct (c x) eqn:Hc, (d x) eqn:Hd; cbn [List.filter]; by rewrite ?Hc, ?Hd, IH.
Qed.

Lemma filter_and {A} (c d : A -> bool) (l : list A) :
  List.filter (fun x => c x && d x) l = List.filter d (List.filter c l).
Proof.
  induction l as [|x l IH]; [done|]. cbn [List.filter].
  destruct (c x); cbn [andb List.filter]; [|done]. destruct (d x); by rewrite IH.
Qed.

Lemma filter_all {A} (c : A -> bool) (l : list A) :
  Forall (fun x => c x = true) l -> List.filter c l = l.
Proof.
  induction 1 as [|x l Hx _ IH]; [done|]. cbn [List.filter]. by rewrite Hx, IH.
Qed.

(** A [Set] of the JSON of values. *)
Lemma set_of_json_of (l : list value) :
  set_of (List.map json_of l) = List.map json_of (set_of l).
Proof.
  induction l as [|x l IH]; [done|]. cbn [List.map set_of]. rewrite IH. f_equal.
  apply filter_ext_map. intros y. by rewrite same_value_zero_json_of.
Qed.

(** A [Set] without the string [c]. *)
Lemma set_of_without (c : string) (l : list value) :
  set_of (List.filter (fun v => negb (is_str v c)) l)
  = List.filter (fun v => negb (is_str v c)) (set_of l).
Proof.
  induction l as [|x l IH]; [done|]. cbn [List.filter set_of].
  destruct (is_str x c) eqn:Hx; cbn [negb List.filter set_of].
  - rewrite IH.
    rewrite (filter_comm (fun v => negb (is_str v c))). symmetry. apply filter_all.
    apply Forall_forall. intros y Hy%list_elem_of_In%filter_In. destruct Hy as [_ Hy].
    destruct x as [| | | |s| |]; try done. cbn [is_str] in Hx.
    apply String.eqb_eq in Hx as ->.
    destruct y as [| | | |t| |]; try done. cbn [same_value_zero is_str] in *.
    by rewrite String.eqb_sym.
  - rewrite IH. f_equal. apply filter_comm.
Qed.

Section FileCategories.
Context `{Platform}.

(** The [category] of an entry as stored by the deletion of [c]. *)
Lemma category_after (e : env) (c : string) (en : obj) :
  distinct_keys en ->
  let updated :=
    if is_str (prop en "category") c
    then set_prop "updatedAt" (FileServer.now_iso e) (set_prop "category" VUndef en)
    else en in
  prop (json_obj updated) "category"
  = if is_str (prop en "category") c then VUndef else json_of (prop en "category").
Proof.
  intros Hen updated. subst updated. destruct (is_str _ c).
  - rewrite prop_json_obj by by apply set_prop_NoDup, set_prop_NoDup.
    by rewrite !prop_set_prop.
  - by apply prop_json_obj.
Qed.

(** The categories of a vault after the deletion of [c]. *)
Lemma categories_after (e : env) (c : string) (entries : list obj) :
  Forall distinct_keys entries ->
  FileServer.categories_of
    (List.map json_obj
       (List.map (fun en =>
          if is_str (prop en "category") c
          then set_prop "updatedAt" (FileServer.now_iso e)
                 (set_prop "category" VUndef en)
          else en) entries))
  = List.map json_of
      (List.filter (fun v => negb (is_str v c)) (FileServer.categories_of entries)).
Proof.
  intros Hall. unfold FileServer.categories_of.
  rewrite <- set_of_without, <- set_of_json_of. f_equal.
  induction Hall as [|en entries Hen _ IH]; [done|].
  cbn [List.map List.filter]. rewrite (category_after e c en Hen), IH.
  destruct (is_str (prop en "category") c) eqn:Hc.
  - cbn [truthy]. destruct (truthy (prop en "category")); [|done].
    cbn [List.filter]. by rewrite Hc.
  - rewrite truthy_json_of. destruct (truthy (prop en "category")); [|done].
    cbn [List.filter]. by rewrite Hc.
Qed.

Lemma file_categories_as (e : env) (a : string) (st : FileServer.state) (B : value) :
  (getAuth a (now e) (FileServer.sessions st)).1 = Some B ->
  (FileServer.listCategories e a st).2
  = sendJson 200
      (VObj [("categories",
              VArr (FileServer.categories_of
                      (default [] (FileServer.vaults st !! to_string B))))]).
Proof.
  intros Hg. unfold FileServer.listCategories.
  by rewrite (file_with_auth_as _ _ _ _ _ Hg).
Qed.

Lemma file_delete_category_as (e : env) (a c : string) (st : FileServer.state)
    (B : value) :
  (getAuth a (now e) (FileServer.sessions st)).1 = Some B ->
  FileServer.deleteCategory e a c st
  = (FileServer.saveEntries (to_string B)
       (List.map (fun en =>
          if is_str (prop en "category") c
          then set_prop "updatedAt" (FileServer.now_iso e)
                 (set_prop "category" VUndef en)
          else en) (default [] (FileServer.vaults st !! to_string B)))
       (FileServer.ensureUserVault (to_string B) st),
     sendJson 200 ok_true).
Proof.
  intros Hg. unfold FileServer.deleteCategory.
  by rewrite (file_with_auth_as _ _ _ _ _ Hg).
Qed.

(** The categories of an answer [{ categories }]. *)
Lemma categories_answer (s : Z) (l : list value) :
  Forall (fun v => truthy v = true) l ->
  sendJson s (VObj [("categories", VArr l)])
  = {| status := s; body := VObj [("categories", VArr (List.map json_of l))] |}.
Proof.
  intros Hl. unfold sendJson. cbn [json_of List.flat_map app]. do 5 f_equal.
  apply List.map_ext_in. intros v Hv%list_elem_of_In. rewrite Forall_forall in Hl.
  specialize (Hl v Hv). by destruct v.
Qed.

Lemma set_of_Forall (Q : value -> Prop) (l : list value) :
  Forall Q l -> Forall Q (set_of l).
Proof.
  induction 1 as [|x l Hx _ IH]; [constructor|]. cbn [set_of].
  constructor; [done|]. by apply Forall_list_filter.
Qed.

Lemma categories_truthy (entries : list obj) :
  Forall (fun v => truthy v = true) (FileServer.categories_of entries).
Proof.
  unfold FileServer.categories_of. apply set_of_Forall.
  apply Forall_forall. intros v Hv%list_elem_of_In%filter_In. by destruct Hv.
Qed.

End FileCategories.
End FileCategoryFacts.

(** X14: the category routes of the file-backed server work on the field
    [category] of the entries, and are consistent on it: under a session
    of the identity [B], after [DELETE /api/categories/c] (always
    answered 200) the categories listed are those listed before without
    [c], in the same order. The entries of the vault are objects with
    each key once. *)
Theorem X14_file_deleted_category_gone `{P : Shared.Platform} (e e' : Shared.env)
    (a c : string) (B : JS.value) (fs : FileServer.state) :
  (Shared.getAuth a (Shared.now e) (FileServer.sessions fs)).1 = Some B ->
  (Shared.getAuth a (Shared.now e') (FileServer.sessions fs)).1 = Some B ->
  Examples.well_formed fs ->
  (FileServer.deleteCategory e a c fs).2 = Shared.sendJson 200 Shared.ok_true /\
  Shared.status (FileServer.listCategories e' a (FileServer.deleteCategory e a c fs).1).2
  = 200 /\
  Scenarios.categories_of
    (FileServer.listCategories e' a (FileServer.deleteCategory e a c fs).1).2
  = List.filter (fun v => negb (JS.is_str v c))
      (Scenarios.categories_of (FileServer.listCategories e' a fs).2).
Proof.
  intros Hg Hg' Hwf. unfold Scenarios.categories_of.
  rewrite (FileCategoryFacts.file_delete_category_as _ _ _ _ _ Hg). cbn [fst snd].
  split; [done|].
  rewrite !FileCategoryFacts.file_categories_as with (B := B);
    [|done|by rewrite VaultFacts.file_sessions_saveEntries,
                SessionFacts.file_sessions_ensureUserVault].
  rewrite VaultFacts.file_vault_saved. cbn [from_option Datatypes.id].
  rewrite !FileCategoryFacts.categories_answer
    by apply FileCategoryFacts.categories_truthy.
  cbn [Shared.status Shared.body JS.field JS.prop String.eqb Ascii.eqb Bool.eqb].
  split; [done|].
  rewrite (FileCategoryFacts.categories_after e c)
    by by apply VaultInvariant.well_formed_loaded.
  rewrite List.map_map.
  rewrite (List.map_ext (fun x => JS.json_of (JS.json_of x)) JS.json_of)
    by apply JsonNormal.json_of_idemp.
  symmetry. apply FileCategoryFacts.filter_ext_map.
  intros v. by rewrite JsonNormal.is_str_json_of.
Qed.

(** Alice's entry has the category [misc]; after she deletes [misc] no
    category is listed. *)
Lemma X14_file_deleted_category_gone_witness :
  let a := Examples.bearer "t0" in
  let e := Scenarios.env_last in
  (Shared.getAuth a (Shared.now e) (FileServer.sessions Scenarios.file_categorised)).1
  = Some (JS.VStr "alice") /\
  Examples.well_formed Scenarios.file_categorised /\
  (FileServer.listCategories e a Scenarios.file_categorised).2
  = Shared.sendJson 200 (JS.VObj [("categories", JS.VArr [JS.VStr "misc"])]) /\
  Scenarios.categories_of
    (FileServer.listCategories e a
       (FileServer.deleteCategory (H := Examples.sample_platform) e a "misc"
          Scenarios.file_categorised).1).2
  = [].
Proof.
  intros a e.
  assert (Hg : (Shared.getAuth a (Shared.now e)
                  (FileServer.sessions Scenarios.file_categorised)).1
               = Some (JS.VStr "alice")) by (vm_compute; reflexivity).
  assert (Hwf : Examples.well_formed Scenarios.file_categorised).
  { apply VaultInvariant.well_formed_run, VaultInvariant.well_formed_run.
    apply VaultInvariant.well_formed_initial. }
  destruct (X14_file_deleted_category_gone (P := Examples.sample_platform) e e a "misc"
              (JS.VStr "alice") Scenarios.file_categorised Hg Hg Hwf) as (_ & _ & Hafter).
  split; [exact Hg|]. split; [exact Hwf|]. split; [vm_compute; reflexivity|].
  rewrite Hafter. vm_compute. reflexivity.
Defined.

(** X15: [PUT /api/entries/:id] with no body, or with one that is no
    JSON ([readJson] resolves [null]), under a valid session. The
    relational server, which reads [updates.url] of [null], answers 500
    'Database error' and changes nothing. The file-backed server treats
    it as an empty payload: 404 'Not found' when no entry of the vault
    has the id, and otherwise 200 with the entry as it was but for a
    fresh [updatedAt]. *)
Theorem X15_update_without_body `{P : Shared.Platform} (e : Shared.env) (a id : string)
    (B : JS.value) (fs : FileServer.state) (db : Api.state) :
  (Shared.getAuth a (Shared.now e) (FileServer.sessions fs)).1 = Some B ->
  (Shared.getAuth a (Shared.now e) (Api.sessions db)).1 = Some B ->
  Api.pool db = true ->
  Api.updateEntry e a id JS.VNull db = (db, Some Api.database_error) /\
  (let owned :=
     List.filter (fun en => JS.is_str (JS.prop en "id") id)
       (default [] (FileServer.vaults fs !! JS.to_string B)) in
   let answer := (FileServer.updateEntry e a id JS.VNull fs).2 in
   (owned = [] -> answer = Shared.sendJson 404 (Shared.error "Not found")) /\
   (forall en, last owned = Some en ->
      answer
      = Shared.sendJson 200
          (JS.VObj [("entry",
                     JS.VObj (JS.set_prop "updatedAt" (FileServer.now_iso e) en))]))).
Proof.
  intros Hf Ha Hpool. split.
  - unfold Api.updateEntry.
    by rewrite (IsolationFacts.api_with_auth_as _ _ _ _ _ Ha), Hpool.
  - intros owned answer. subst owned answer.
    rewrite (UpdateFacts.file_update_as _ _ _ _ _ _ Hf). cbn [snd].
    split; [by intros ->|]. by intros en ->.
Qed.

(** Alice sends no body for her entry: 500 from the relational server,
    200 from the file-backed one, the note as it was. *)
Lemma X15_update_without_body_witness :
  let a := Examples.bearer "t0" in
  let e := Examples.env_later in
  (Shared.getAuth a (Shared.now e) (FileServer.sessions Examples.file_vault)).1
  = Some (JS.VStr "alice") /\
  (Shared.getAuth a (Shared.now e) (Api.sessions Examples.api_vault)).1
  = Some (JS.VStr "alice") /\
  Api.pool Examples.api_vault = true /\
  Api.updateEntry (H := Examples.sample_platform) e a Examples.entry_id JS.VNull
    Examples.api_vault = (Examples.api_vault, Some Api.database_error) /\
  (FileServer.updateEntry (H := Examples.sample_platform) e a Examples.entry_id JS.VNull
     Examples.file_vault).2
  = Shared.sendJson 200
      (JS.VObj [("entry",
                 JS.VObj (JS.set_prop "updatedAt" (JS.VStr "4000") Examples.stored_entry))]).
Proof.
  intros a e.
  assert (Hf : (Shared.getAuth a (Shared.now e)
                  (FileServer.sessions Examples.file_vault)).1 = Some (JS.VStr "alice"))
    by (vm_compute; reflexivity).
  assert (Ha : (Shared.getAuth a (Shared.now e) (Api.sessions Examples.api_vault)).1
               = Some (JS.VStr "alice")) by (vm_compute; reflexivity).
  assert (Hpool : Api.pool Examples.api_vault = true) by reflexivity.
  destruct (X15_update_without_body (P := Examples.sample_platform) e a Examples.entry_id
              (JS.VStr "alice") Examples.file_vault Examples.api_vault Hf Ha Hpool)
    as [Hapi [_ Hfile]].
  split; [exact Hf|]. split; [exact Ha|]. split; [exact Hpool|]. split; [exact Hapi|].
  apply (Hfile Examples.stored_entry). vm_compute. reflexivity.
Defined.

(** ** Routing *)

Module RouteFacts.
Import JS Shared Examples Scenarios SharedFacts Http.

Lemma split_slash_cons (s : string) : exists seg segs, split_slash s = seg :: segs.
Proof.
  induction s as [|c s (seg & segs & IH)]; cbn [split_slash]; [eauto|].
  destruct (Ascii.eqb c "/"); [eauto|]. rewrite IH. eauto.
Qed.

(** The segments of [p/s] are those of [p] followed by those of [s]. *)
Lemma split_slash_app (p s : string) :
  split_slash (p ++ String "/" s) = app (split_slash p) (split_slash s).
Proof.
  induction p as [|c p IH].
  - reflexivity.
  - change (String c p ++ String "/" s) with (String c (p ++ String "/" s)).
    cbn [split_slash]. rewrite IH. destruct (Ascii.eqb c "/"); [done|].
    by destruct (split_slash_cons p) as (seg & segs & ->).
Qed.

(** A string with no [/] is its own last segment. *)
Lemma split_slash_none (s : string) :
  all_chars (fun c => negb (Ascii.eqb c "/")) s = true -> split_slash s = [s].
Proof.
  induction s as [|c s IH]; [done|]. cbn [all_chars split_slash].
  intros [Hc Hs]%andb_prop. apply negb_true_iff in Hc. rewrite Hc, (IH Hs). done.
Qed.

Lemma last_segment_app (p s : string) :
  last_segment (p ++ String "/" s) = last_segment s.
Proof.
  unfold last_segment. rewrite split_slash_app, last_app.
  by destruct (split_slash_cons s) as (seg & segs & ->), (last (seg :: segs)) eqn:Hl;
    [|apply last_None in Hl].
Qed.

(** The id of [/api/entries/id] and the name of [/api/categories/name]:
    what follows the last [/]. *)
Lemma last_segment_entries (s : string) :
  last_segment ("/api/entries/" ++ s) = last_segment s.
Proof. apply (last_segment_app "/api/entries" s). Qed.

Lemma last_segment_categories (s : string) :
  last_segment ("/api/categories/" ++ s) = last_segment s.
Proof. apply (last_segment_app "/api/categories" s). Qed.

Lemma last_segment_none (s : string) :
  all_chars (fun c => negb (Ascii.eqb c "/")) s = true -> last_segment s = s.
Proof. intros Hs. unfold last_segment. by rewrite (split_slash_none _ Hs). Qed.

Lemma starts_with_app (p s : string) : starts_with p (p ++ s) = true.
Proof. unfold starts_with. by rewrite strip_prefix_app. Qed.

Lemma strip_prefix_Some (p s r : string) : strip_prefix p s = Some r -> s = p ++ r.
Proof.
  revert s. induction p as [|c p IH]; intros s; cbn [strip_prefix].
  - by intros [= ->].
  - destruct s as [|c' s]; [done|]. destruct (Ascii.eqb_spec c c') as [->|]; [|done].
    intros Hs. by rewrite (IH _ Hs).
Qed.

Lemma categories_not_entries (p : string) :
  starts_with "/api/categories/" p = true -> starts_with "/api/entries/" p = false.
Proof.
  unfold starts_with at 1.
  destruct (strip_prefix "/api/categories/" p) as [r|] eqn:Hp; [|done].
  apply strip_prefix_Some in Hp as ->. reflexivity.
Qed.

Lemma entries_not_categories (s : string) :
  starts_with "/api/categories/" ("/api/entries/" ++ s) = false.
Proof. reflexivity. Qed.

End RouteFacts.

(** X16: the id of an entry route is the last segment of the path. A
    [PUT] or a [DELETE] whose target parses to the pathname
    [/api/entries/id], for an [id] with no [/] in it, is the update or the
    deletion of the entry [id] on both servers, and a [DELETE] of
    [/api/categories/name], for a [name] with no [/] that decodes to [c],
    is the deletion of the category [c]. *)
Theorem X16_route_parameters `{P : Shared.Platform}
    (pathname_of decodeURIComponent : string -> option string) (e : Shared.env)
    (req : Http.http_request) (id : string) (fs : FileServer.state) (db : Api.state) :
  Shared.all_chars (fun c => negb (Ascii.eqb c "/")) id = true ->
  let a := Http.authorization req in
  let file_path := pathname_of (Http.file_target req) in
  let api_path := pathname_of (Http.url req) in
  (Http.method req = "PUT" ->
   (file_path = Some ("/api/entries/" ++ id) ->
    Http.file_server pathname_of decodeURIComponent e req fs
    = ((FileServer.updateEntry e a id (Http.json req) fs).1,
       Http.Json (FileServer.updateEntry e a id (Http.json req) fs).2)) /\
   (api_path = Some ("/api/entries/" ++ id) ->
    Http.api_server pathname_of decodeURIComponent e req db
    = Http.api_reply (Api.updateEntry e a id (Http.json req) db))) /\
  (Http.method req = "DELETE" ->
   (file_path = Some ("/api/entries/" ++ id) ->
    Http.file_server pathname_of decodeURIComponent e req fs
    = ((FileServer.deleteEntry e a id fs).1,
       Http.Json (FileServer.deleteEntry e a id fs).2)) /\
   (api_path = Some ("/api/entries/" ++ id) ->
    Http.api_server pathname_of decodeURIComponent e req db
    = Http.api_reply (Api.deleteEntry e a id db))) /\
  (forall c,
     Http.method req = "DELETE" -> decodeURIComponent id = Some c ->
     (file_path = Some ("/api/categories/" ++ id) ->
      Http.file_server pathname_of decodeURIComponent e req fs
      = ((FileServer.deleteCategory e a c fs).1,
         Http.Json (FileServer.deleteCategory e a c fs).2)) /\
     (api_path = Some ("/api/categories/" ++ id) ->
      Http.api_server pathname_of decodeURIComponent e req db
      = Http.api_reply (Api.deleteCategory e a c db))).
Proof.
  intros Hid a file_path api_path. subst a file_path api_path.
  pose proof (RouteFacts.last_segment_none id Hid) as Hlast.
  split; [|split].
  - intros Hm. split; intros Hp;
      unfold Http.file_server, Http.is_page, Http.is_preflight, Http.file_routes,
        Http.api_server, Http.api_routes;
      rewrite Hm, Hp; cbn [String.eqb Ascii.eqb Bool.eqb andb orb negb];
      rewrite ?andb_false_r;
      rewrite RouteFacts.starts_with_app, RouteFacts.last_segment_entries, Hlast; done.
  - intros Hm. split; intros Hp;
      unfold Http.file_server, Http.is_page, Http.is_preflight, Http.file_routes,
        Http.api_server, Http.api_routes;
      rewrite Hm, Hp; cbn [String.eqb Ascii.eqb Bool.eqb andb orb negb];
      rewrite ?andb_false_r, ?RouteFacts.entries_not_categories;
      rewrite RouteFacts.starts_with_app, RouteFacts.last_segment_entries, Hlast; done.
  - intros c Hm Hc.
    assert (Hne : Http.starts_with "/api/entries/" ("/api/categories/" ++ id) = false)
      by reflexivity.
    split; intros Hp;
      unfold Http.file_server, Http.is_page, Http.is_preflight, Http.file_routes,
        Http.api_server, Http.api_routes;
      rewrite Hm, Hp; cbn [String.eqb Ascii.eqb Bool.eqb andb orb negb];
      rewrite ?andb_false_r, ?Hne;
      rewrite RouteFacts.starts_with_app, RouteFacts.last_segment_categories, Hlast, Hc;
      done.
Qed.

(** Alice's update of her note, as a request. *)
Lemma X16_route_parameters_witness :
  Shared.all_chars (fun c => negb (Ascii.eqb c "/")) Examples.entry_id = true /\
  Http.method Scenarios.put_request = "PUT" /\
  Scenarios.parse_path (Http.url Scenarios.put_request)
  = Some ("/api/entries/" ++ Examples.entry_id) /\
  Http.api_server (H := Examples.sample_platform) Scenarios.parse_path
    Scenarios.decode_plain Examples.env_later Scenarios.put_request Examples.api_vault
  = Http.api_reply
      (Api.updateEntry (H := Examples.sample_platform) Examples.env_later
         (Examples.bearer "t0") Examples.entry_id (JS.VObj [("note", JS.VStr "n")])
         Examples.api_vault).
Proof.
  assert (Hid : Shared.all_chars (fun c => negb (Ascii.eqb c "/")) Examples.entry_id = true)
    by reflexivity.
  assert (Hm : Http.method Scenarios.put_request = "PUT") by reflexivity.
  assert (Hp : Scenarios.parse_path (Http.url Scenarios.put_request)
               = Some ("/api/entries/" ++ Examples.entry_id)) by reflexivity.
  destruct (X16_route_parameters (P := Examples.sample_platform) Scenarios.parse_path
              Scenarios.decode_plain Examples.env_later Scenarios.put_request
              Examples.entry_id Examples.file_vault Examples.api_vault Hid) as [Hput _].
  destruct (Hput Hm) as [_ Hapi].
  split; [exact Hid|]. split; [exact Hm|]. split; [exact Hp|]. exact (Hapi Hp).
Defined.

(** X17: what the routes do not serve. Both servers parse the URL
    outside their [try]: a request whose target does not parse makes the
    handler throw, and no response is written; this holds of every
    request of the relational server but an [OPTIONS] one, and of every
    request of the file-backed server short of the page and the
    preflight, which are answered before. A request whose method is none
    of [GET], [POST], [PUT], [DELETE] and [OPTIONS] changes nothing and,
    when its target parses, is answered 404 'Not found' by both servers,
    whatever its path. An [OPTIONS] request is answered 200 with an empty
    object by the relational server, whatever its target and without a
    session; by the file-backed server it is answered with the CORS
    headers and status 200 when [req.url] starts with [/api], and
    otherwise, when its target parses, with 404 'Not found'. *)
Theorem X17_unrouted_requests `{P : Shared.Platform}
    (pathname_of decodeURIComponent : string -> option string) (e : Shared.env)
    (req : Http.http_request) (fs : FileServer.state) (db : Api.state) :
  let file_path := pathname_of (Http.file_target req) in
  let api_path := pathname_of (Http.url req) in
  let unrouted (path : option string) :=
    match path with
    | Some _ => Http.Json Http.not_found
    | None => Http.Thrown
    end in
  ((Http.method req ∉ ["GET"; "POST"; "PUT"; "DELETE"; "OPTIONS"]) ->
   Http.file_server pathname_of decodeURIComponent e req fs = (fs, unrouted file_path) /\
   Http.api_server pathname_of decodeURIComponent e req db
   = (db, Some (unrouted api_path))) /\
  (Http.method req = "OPTIONS" ->
   Http.api_server pathname_of decodeURIComponent e req db
   = (db, Some (Http.Json (Shared.sendJson 200 (JS.VObj [])))) /\
   Http.file_server pathname_of decodeURIComponent e req fs
   = (fs, if Http.starts_with "/api" (Http.url req) then Http.Cors 200
          else unrouted file_path)) /\
  (api_path = None -> Http.method req <> "OPTIONS" ->
   Http.api_server pathname_of decodeURIComponent e req db = (db, Some Http.Thrown)) /\
  (file_path = None -> Http.is_page req = false -> Http.is_preflight req = false ->
   Http.file_server pathname_of decodeURIComponent e req fs = (fs, Http.Thrown)).
Proof.
  intros file_path api_path unrouted. subst file_path api_path unrouted.
  split; [|split; [|split]].
  - intros Hm.
    assert (Hget : String.eqb (Http.method req) "GET" = false)
      by (apply String.eqb_neq; intros Heq; apply Hm; rewrite Heq; set_solver).
    assert (Hpost : String.eqb (Http.method req) "POST" = false)
      by (apply String.eqb_neq; intros Heq; apply Hm; rewrite Heq; set_solver).
    assert (Hput : String.eqb (Http.method req) "PUT" = false)
      by (apply String.eqb_neq; intros Heq; apply Hm; rewrite Heq; set_solver).
    assert (Hdel : String.eqb (Http.method req) "DELETE" = false)
      by (apply String.eqb_neq; intros Heq; apply Hm; rewrite Heq; set_solver).
    assert (Hopt : String.eqb (Http.method req) "OPTIONS" = false)
      by (apply String.eqb_neq; intros Heq; apply Hm; rewrite Heq; set_solver).
    unfold Http.file_server, Http.is_page, Http.is_preflight, Http.file_routes,
      Http.api_server, Http.api_routes.
    rewrite Hget, Hpost, Hput, Hdel, Hopt. cbn [andb orb]. rewrite andb_false_r.
    split; by destruct (pathname_of _).
  - intros Hm.
    unfold Http.file_server, Http.is_page, Http.is_preflight, Http.file_routes,
      Http.api_server.
    rewrite Hm. cbn [String.eqb Ascii.eqb Bool.eqb andb orb negb]. rewrite andb_true_r.
    split; [done|].
    destruct (Http.starts_with "/api" (Http.url req)); [done|].
    by destruct (pathname_of _).
  - intros Hp Hm. unfold Http.api_server. rewrite Hp.
    by apply String.eqb_neq in Hm as ->.
  - intros Hp Hpage Hpre. unfold Http.file_server. by rewrite Hpage, Hpre, Hp.
Qed.

(** Alice's [GET //]: the target does not parse, and neither server
    writes a response. *)
Lemma X17_unrouted_requests_witness :
  let req := Scenarios.slashes_request in
  let e := Examples.env_later in
  Scenarios.parse_path (Http.file_target req) = None /\
  Scenarios.parse_path (Http.url req) = None /\
  Http.api_server (H := Examples.sample_platform) Scenarios.parse_path
    Scenarios.decode_plain e req Examples.api_vault = (Examples.api_vault, Some Http.Thrown) /\
  Http.file_server (H := Examples.sample_platform) Scenarios.parse_path
    Scenarios.decode_plain e req Examples.file_vault = (Examples.file_vault, Http.Thrown).
Proof.
  intros req e.
  destruct (X17_unrouted_requests (P := Examples.sample_platform) Scenarios.parse_path
              Scenarios.decode_plain e req Examples.file_vault Examples.api_vault)
    as (_ & _ & Hapi & Hfile).
  split; [reflexivity|]. split; [reflexivity|]. split.
  - apply Hapi; [reflexivity|discriminate].
  - apply Hfile; reflexivity.
Defined.

(** X18: a category name with a malformed escape. A [DELETE] whose
    target parses to a pathname [/api/categories/...] whose last segment
    [decodeURIComponent] refuses is answered 500 'Server error' by both
    servers when the session is valid, and changes nothing; the guard
    comes first, so without a valid session the answer is 401. *)
Theorem X18_malformed_category_name `{P : Shared.Platform}
    (pathname_of decodeURIComponent : string -> option string) (e : Shared.env)
    (req : Http.http_request) (p : string) (fs : FileServer.state) (db : Api.state) :
  Http.method req = "DELETE" ->
  Http.starts_with "/api/categories/" p = true ->
  decodeURIComponent (Http.last_segment p) = None ->
  let a := Http.authorization req in
  (pathname_of (Http.file_target req) = Some p ->
   (forall u,
      (Shared.getAuth a (Shared.now e) (FileServer.sessions fs)).1 = Some u ->
      Http.file_server pathname_of decodeURIComponent e req fs
      = (fs, Http.Json Http.server_error)) /\
   ((Shared.getAuth a (Shared.now e) (FileServer.sessions fs)).1 = None ->
    (Http.file_server pathname_of decodeURIComponent e req fs).2
    = Http.Json (Shared.sendJson 401 (Shared.error "Unauthorized")))) /\
  (pathname_of (Http.url req) = Some p ->
   (forall u,
      (Shared.getAuth a (Shared.now e) (Api.sessions db)).1 = Some u ->
      Http.api_server pathname_of decodeURIComponent e req db
      = (db, Some (Http.Json Http.server_error))) /\
   ((Shared.getAuth a (Shared.now e) (Api.sessions db)).1 = None ->
    (Http.api_server pathname_of decodeURIComponent e req db).2
    = Some (Http.Json (Shared.sendJson 401 (Shared.error "Unauthorized"))))).
Proof.
  intros Hm Hp Hbad a. subst a. split.
  - intros Hpath.
    assert (Hfile : Http.file_server pathname_of decodeURIComponent e req fs
                    = Http.file_reply
                        (FileServer.with_auth e (Http.authorization req) fs
                           (fun _ st' => (st', Http.server_error)))).
    { unfold Http.file_server, Http.is_page, Http.is_preflight, Http.file_routes.
      rewrite Hm, Hpath, Hp, Hbad.
      cbn [String.eqb Ascii.eqb Bool.eqb andb orb negb]. by rewrite andb_false_r. }
    rewrite Hfile. split.
    + intros u Hg. by rewrite (IsolationFacts.file_with_auth_as _ _ _ _ _ Hg).
    + intros Hg. by rewrite (GuardFacts.file_with_auth_none _ _ _ _ Hg).
  - intros Hpath.
    assert (Hapi : Http.api_server pathname_of decodeURIComponent e req db
                   = Http.api_reply
                       (Api.with_auth e (Http.authorization req) db
                          (fun _ st' => (st', Some Http.server_error)))).
    { unfold Http.api_server, Http.api_routes. rewrite Hm, Hpath.
      cbn [String.eqb Ascii.eqb Bool.eqb andb orb negb].
      pose proof (RouteFacts.categories_not_entries _ Hp) as Hne.
      by rewrite Hne, Hp, Hbad. }
    rewrite Hapi. split.
    + intros u Hg. by rewrite (IsolationFacts.api_with_auth_as _ _ _ _ _ Hg).
    + intros Hg. by rewrite (GuardFacts.api_with_auth_none _ _ _ _ Hg).
Qed.

(** Alice asks to delete the category [%]: 500 from both servers. *)
Lemma X18_malformed_category_name_witness :
  let req := Scenarios.bad_name_request in
  let e := Examples.env_later in
  let p := "/api/categories/%" in
  Http.method req = "DELETE" /\
  Http.starts_with "/api/categories/" p = true /\
  Scenarios.decode_plain (Http.last_segment p) = None /\
  Scenarios.parse_path (Http.file_target req) = Some p /\
  Scenarios.parse_path (Http.url req) = Some p /\
  Http.file_server (H := Examples.sample_platform) Scenarios.parse_path
    Scenarios.decode_plain e req Examples.file_vault
  = (Examples.file_vault, Http.Json Http.server_error) /\
  Http.api_server (H := Examples.sample_platform) Scenarios.parse_path
    Scenarios.decode_plain e req Examples.api_vault
  = (Examples.api_vault, Some (Http.Json Http.server_error)).
Proof.
  intros req e p.
  assert (Hm : Http.method req = "DELETE") by reflexivity.
  assert (Hp : Http.starts_with "/api/categories/" p = true) by reflexivity.
  assert (Hbad : Scenarios.decode_plain (Http.last_segment p) = None) by reflexivity.
  assert (Hf : Scenarios.parse_path (Http.file_target req) = Some p) by reflexivity.
  assert (Ha : Scenarios.parse_path (Http.url req) = Some p) by reflexivity.
  destruct (X18_malformed_category_name (P := Examples.sample_platform)
              Scenarios.parse_path Scenarios.decode_plain e req p
              Examples.file_vault Examples.api_vault Hm Hp Hbad) as [Hfile Hapi].
  destruct (Hfile Hf) as [Hfile500 _]. destruct (Hapi Ha) as [Hapi500 _].
  split; [exact Hm|]. split; [exact Hp|]. split; [exact Hbad|].
  split; [exact Hf|]. split; [exact Ha|]. split.
  - apply (Hfile500 (JS.VStr "alice")). vm_compute. reflexivity.
  - apply (Hapi500 (JS.VStr "alice")). vm_compute. reflexivity.
Defined.

(** ** Credentials *)

Module HashFacts.
Import JS Shared Examples Scenarios SharedFacts.

Lemma hex_digit_lower (b : byte) :
  is_lower_hex (hex_digit (Byte.to_N b / 16)) = true /\
  is_lower_hex (hex_digit (Byte.to_N b mod 16)) = true.
Proof. destruct b; split; reflexivity. Qed.

(** The hexadecimal text of a buffer: two characters of [0-9a-f] a
    byte. *)
Lemma to_hex_shape (bs : list byte) :
  String.length (to_hex bs) = (2 * length bs)%nat /\
  all_chars is_lower_hex (to_hex bs) = true.
Proof.
  induction bs as [|b bs [IHl IHc]]; [done|]. cbn [to_hex String.length all_chars length].
  destruct (hex_digit_lower b) as [-> ->]. rewrite IHl, IHc. split; [lia|done].
Qed.

End HashFacts.

(** X19: after a login answered 200, [GET /api/me] with the token of the
    answer, at any time up to 24 hours after the login, is answered 200
    with the username the login was made under, and changes nothing; on
    both servers. *)
Theorem X19_me_after_login `{Shared.Platform} (e e' : Shared.env) (body : JS.value)
    (fs : FileServer.state) (db : Api.state) :
  Shared.randomToken e <> "" ->
  Shared.now e' <= Shared.now e + 24 * 60 * 60 * 1000 ->
  let a := Examples.bearer (Shared.randomToken e) in
  let answer :=
    Shared.sendJson 200
      (JS.VObj [("username", JS.field (JS.or_else body (JS.VObj [])) "username")]) in
  (Shared.status (FileServer.login e body fs).2 = 200 ->
   FileServer.me e' a (FileServer.login e body fs).1
   = ((FileServer.login e body fs).1, answer)) /\
  (forall r, (Api.login e body db).2 = Some r -> Shared.status r = 200 ->
   Api.me e' a (Api.login e body db).1 = ((Api.login e body db).1, Some answer)).
Proof.
  intros Hne Ht a answer. subst a answer.
  assert (Hg : forall ss : Shared.session_map,
            (Shared.getAuth (Examples.bearer (Shared.randomToken e)) (Shared.now e')
               (<[Shared.randomToken e := Scenarios.session_of e body]> ss)).1
            = Some (JS.field (JS.or_else body (JS.VObj [])) "username")).
  { intros ss. rewrite (SharedFacts.getAuth_known _ _ (Scenarios.session_of e body));
      [|done|apply lookup_insert_eq].
    cbn [Scenarios.session_of Shared.expires Shared.sess_username].
    unfold Shared.TOKEN_TTL_MS. by destruct (Z.ltb_spec (Shared.now e + 24 * 60 * 60 * 1000)
                                               (Shared.now e')); [lia|]. }
  split.
  - intros H200. unfold FileServer.me.
    rewrite (IsolationFacts.file_with_auth_as _ _ _
               (JS.field (JS.or_else body (JS.VObj [])) "username")); [done|].
    rewrite (SessionFacts.file_login_200 _ _ _ H200). apply Hg.
  - intros r Hr H200. unfold Api.me.
    rewrite (IsolationFacts.api_with_auth_as _ _ _
               (JS.field (JS.or_else body (JS.VObj [])) "username")); [done|].
    rewrite (SessionFacts.api_login_200 _ _ _ _ Hr H200). apply Hg.
Qed.

(** Alice, with her token [t0] of time 2000, asks who she is at time
    4000. *)
Lemma X19_me_after_login_witness :
  Shared.randomToken Examples.env_login <> "" /\
  Shared.now Examples.env_later <= Shared.now Examples.env_login + 24 * 60 * 60 * 1000 /\
  FileServer.me Examples.env_later (Examples.bearer "t0") Examples.file_session
  = (Examples.file_session,
     Shared.sendJson 200 (JS.VObj [("username", JS.VStr "alice")])).
Proof.
  assert (Hne : Shared.randomToken Examples.env_login <> "") by discriminate.
  assert (Ht : Shared.now Examples.env_later
               <= Shared.now Examples.env_login + 24 * 60 * 60 * 1000)
    by (vm_compute; discriminate).
  destruct (X19_me_after_login (H := Examples.sample_platform) Examples.env_login
              Examples.env_later (Examples.credentials "alice" "secret1")
              Examples.file_alice Examples.api_alice Hne Ht) as [Hfile _].
  split; [exact Hne|]. split; [exact Ht|].
  apply Hfile. vm_compute. reflexivity.
Defined.

(** X20: the round trip of the credentials. For a well-formed username
    that is not taken (and, on the file-backed server, is no member of
    [Object.prototype]) and a well-formed password, the registration is
    answered 201 and a login with the same credentials is then answered
    200 with a token and the username; a login with a password whose
    derived key differs is answered 401 'Invalid credentials' and
    changes nothing. *)
Theorem X20_register_then_login `{Shared.Platform} (e1 e2 : Shared.env) (u p : string)
    (fs : FileServer.state) (db : Api.state) :
  Shared.isValidUser (JS.VStr u) = true -> Shared.isValidPassword (JS.VStr p) = true ->
  (u ∉ FileServer.object_prototype_keys) -> FileServer.users fs !! u = None ->
  Api.pool db = true -> Api.users db !! u = None ->
  let created := Shared.sendJson 201 Shared.ok_true in
  let granted :=
    Shared.sendJson 200
      (JS.VObj [("token", JS.VStr (Shared.randomToken e2)); ("username", JS.VStr u)]) in
  let refused := Shared.sendJson 401 (Shared.error "Invalid credentials") in
  let fs' := (FileServer.register e1 (Examples.credentials u p) fs).1 in
  let db' := (Api.register e1 (Examples.credentials u p) db).1 in
  (FileServer.register e1 (Examples.credentials u p) fs).2 = created /\
  (FileServer.login e2 (Examples.credentials u p) fs').2 = granted /\
  (Api.register e1 (Examples.credentials u p) db).2 = Some created /\
  (Api.login e2 (Examples.credentials u p) db').2 = Some granted /\
  (forall p',
     Shared.pbkdf2Sync p' (Shared.randomSalt e1) 120000 32
     <> Shared.pbkdf2Sync p (Shared.randomSalt e1) 120000 32 ->
     FileServer.login e2 (Examples.credentials u p') fs' = (fs', refused) /\
     Api.login e2 (Examples.credentials u p') db' = (db', Some refused)).
Proof.
  intros Hu Hp Hproto Hfree Hpool Hnone created granted refused fs' db'.
  assert (Hget : FileServer.users_get (FileServer.users fs) u = FileServer.Unset).
  { unfold FileServer.users_get. rewrite Hfree. by rewrite bool_decide_eq_false_2. }
  destruct (RoundTrip.file_round_trip e1 e2 u p fs Hu Hp Hget) as (Hf1 & Hf2 & Hf3 & _).
  destruct (RoundTrip.api_round_trip e1 e2 u p db Hu Hp Hpool Hnone)
    as (Ha1 & Ha2 & Ha3 & _).
  repeat split; try done.
  - by apply Hf3.
  - by apply Ha3.
Qed.

(** Bob is not yet registered with the servers that know Alice. *)
Lemma X20_register_then_login_witness :
  let e1 := Examples.sample_env 1100 "5a18" "" "" in
  let e2 := Examples.sample_env 2100 "" "t1" "" in
  let body := Examples.credentials "bob" "secret2" in
  Shared.isValidUser (JS.VStr "bob") = true /\
  ("bob" ∉ FileServer.object_prototype_keys) /\
  FileServer.users Examples.file_alice !! "bob" = None /\
  (FileServer.login (H := Examples.sample_platform) e2 body
     (FileServer.register (H := Examples.sample_platform) e1 body Examples.file_alice).1).2
  = Shared.sendJson 200 (JS.VObj [("token", JS.VStr "t1"); ("username", JS.VStr "bob")]).
Proof.
  intros e1 e2 body.
  assert (Hu : Shared.isValidUser (JS.VStr "bob") = true) by reflexivity.
  assert (Hproto : "bob" ∉ FileServer.object_prototype_keys)
    by (apply (bool_decide_unpack _); vm_compute; exact I).
  assert (Hfree : FileServer.users Examples.file_alice !! "bob" = None)
    by (vm_compute; reflexivity).
  destruct (X20_register_then_login (H := Examples.sample_platform) e1 e2 "bob" "secret2"
              Examples.file_alice Examples.api_alice Hu)
    as (_ & Hlogin & _); [reflexivity|exact Hproto|exact Hfree|reflexivity| |].
  - vm_compute. reflexivity.
  - exact (conj Hu (conj Hproto (conj Hfree Hlogin))).
Defined.

(** X21: [hashPassword] of a string password, for an iteration count
    from one to [2^31 - 1], is 64 characters of [0-9a-f], the hexadecimal
    text of the 32 bytes of the derived key: decoding it gives the key
    back, and [verifyPassword] of the same password, salt and count
    accepts it. A password that is no string, a count below one and a
    count above [2^31 - 1] throw, and then [verifyPassword] throws too,
    whatever the stored hash. *)
Theorem X21_hash_password_text `{Shared.Platform} (password : JS.value) (salt : string)
    (iterations : Z) :
  (forall p, password = JS.VStr p -> 1 <= iterations <= 2147483647 ->
     exists h,
       Shared.hashPassword password salt iterations = Some h /\
       String.length h = 64%nat /\
       Shared.all_chars Scenarios.is_lower_hex h = true /\
       Shared.from_hex h = Shared.pbkdf2Sync p salt iterations 32 /\
       Shared.verifyPassword password salt iterations h = Some true) /\
  ((forall p, password <> JS.VStr p) \/ iterations < 1 \/ 2147483647 < iterations ->
   Shared.hashPassword password salt iterations = None /\
   forall expectedHex, Shared.verifyPassword password salt iterations expectedHex = None).
Proof.
  assert (Hin : forall p, 1 <= iterations <= 2147483647 ->
            Shared.hashPassword (JS.VStr p) salt iterations
            = Some (Shared.to_hex (Shared.pbkdf2Sync p salt iterations 32))).
  { intros p Hit. unfold Shared.hashPassword, Shared.MAX_ITERATIONS.
    destruct (Z.ltb_spec iterations 1); [lia|].
    by destruct (Z.ltb_spec 2147483647 iterations); [lia|]. }
  assert (Hout : (forall p, password <> JS.VStr p) \/ iterations < 1
                 \/ 2147483647 < iterations ->
            Shared.hashPassword password salt iterations = None).
  { intros Hcase. unfold Shared.hashPassword, Shared.MAX_ITERATIONS.
    destruct password as [| | | |s| |]; try done.
    destruct Hcase as [Hp|[Hit|Hit]]; [by destruct (Hp s)| |].
    - by destruct (Z.ltb_spec iterations 1); [|lia].
    - destruct (Z.ltb_spec 2147483647 iterations); [|lia]. by rewrite orb_true_r. }
  split.
  - intros p -> Hit. eexists. split; [by apply Hin|].
    destruct (HashFacts.to_hex_shape (Shared.pbkdf2Sync p salt iterations 32)) as [Hl Hc].
    rewrite Shared.pbkdf2Sync_length in Hl.
    split; [exact Hl|]. split; [exact Hc|]. split; [apply SharedFacts.from_hex_to_hex|].
    apply SharedFacts.verifyPassword_stored. by apply Hin.
  - intros Hcase. split; [by apply Hout|]. intros expectedHex.
    unfold Shared.verifyPassword. by rewrite (Hout Hcase).
Qed.
